(** * corpman: corpus manager of the grizzly fuzzing harness

    A shallow embedding of [src/corpman/corpman.py] (classes [Template],
    [TestFile], [TestCase] and [CorpusManager]) and the properties of its
    template life cycle.

    Conventions of the embedding.
    - The module is Python 2 code: [str] is a byte string, so file
      contents, paths and formatted text are all [string] here.
    - Python integers are [Z]; [%] on integers is [Z.modulo] (both take the
      sign of the divisor).
    - A method that can raise returns a [result]; methods of objects with
      mutable state run in the monad [M], which threads the object, reads
      the environment of the call ([World]: the [os] and [random] modules)
      and collects a trace of the actions performed.  The state reached
      when an exception is raised is kept, as in Python.
    - The methods a subclass must supply ([_init_fuzzer], [_generate]) are
      the fields of the class [Fuzzer]. *)

From Stdlib Require Import List String Ascii ZArith NArith Bool Lia.
From Stdlib Require Import Sorting.Sorted Sorting.Permutation.
From Stdlib Require DecimalString.
Import ListNotations.
Local Open Scope string_scope.
Local Open Scope Z_scope.

Set Implicit Arguments.

(** ** Exceptions and results *)

Inductive exception : Type :=
| IOError (msg : string)
| TypeError (msg : string)
| IndexError (msg : string)
| ValueError (msg : string)
| NotImplementedError (msg : string)
| OSError (msg : string)
| OtherError (cls msg : string).

Inductive result (A : Type) : Type :=
| Ok (a : A)
| Err (e : exception).
Arguments Ok {A} a.
Arguments Err {A} e.

Definition is_ok {A} (r : result A) : bool :=
  match r with Ok _ => true | Err _ => false end.

Definition result_map {A B} (f : A -> B) (r : result A) : result B :=
  match r with Ok a => Ok (f a) | Err e => Err e end.

(** ** Python string operations used by the module *)

Module PyStr.

Definition is_upper (c : ascii) : bool :=
  ((65 <=? N.to_nat (N_of_ascii c)) && (N.to_nat (N_of_ascii c) <=? 90))%nat.

Definition lower_char (c : ascii) : ascii :=
  if is_upper c then ascii_of_N (N_of_ascii c + 32) else c.

(** [s.lower()] on a byte string. *)
Fixpoint lower (s : string) : string :=
  match s with
  | EmptyString => EmptyString
  | String c s' => String (lower_char c) (lower s')
  end.

(** [s.startswith(".")], for a one-character prefix. *)
Definition startswith_char (c : ascii) (s : string) : bool :=
  match s with
  | EmptyString => false
  | String a _ => Ascii.eqb a c
  end.

(** [s.lstrip(c)], for a one-character set. *)
Fixpoint lstrip_char (c : ascii) (s : string) : string :=
  match s with
  | EmptyString => EmptyString
  | String a s' => if Ascii.eqb a c then lstrip_char c s' else s
  end.

(** [c in s] for a one-character needle. *)
Fixpoint contains_char (c : ascii) (s : string) : bool :=
  match s with
  | EmptyString => false
  | String a s' => Ascii.eqb a c || contains_char c s'
  end.

Fixpoint rfind_from (c : ascii) (s : string) (i acc : Z) : Z :=
  match s with
  | EmptyString => acc
  | String a s' => rfind_from c s' (i + 1) (if Ascii.eqb a c then i else acc)
  end.

(** [s.rfind(c)]: the highest index of [c], or [-1]. *)
Definition rfind (c : ascii) (s : string) : Z := rfind_from c s 0 (-1).

Fixpoint all_char (c : ascii) (s : string) : bool :=
  match s with
  | EmptyString => true
  | String a s' => Ascii.eqb a c && all_char c s'
  end.

Fixpoint skip (n : nat) (s : string) : string :=
  match n, s with
  | O, _ => s
  | S n', String _ s' => skip n' s'
  | S _, EmptyString => EmptyString
  end.

Fixpoint take (n : nat) (s : string) : string :=
  match n, s with
  | S n', String a s' => String a (take n' s')
  | _, _ => EmptyString
  end.

(** [x in l] for a list of strings. *)
Definition mem (x : string) (l : list string) : bool :=
  existsb (String.eqb x) l.

Fixpoint repeat_char (c : ascii) (n : nat) : string :=
  match n with
  | O => EmptyString
  | S n' => String c (repeat_char c n')
  end.

(** [str(n)] for a non-negative integer. *)
Definition decimal (n : N) : string :=
  DecimalString.NilZero.string_of_uint (N.to_uint n).

End PyStr.

(** ** [os.path] functions that only look at the path string (posixpath) *)

Module OsPath.

(** [genericpath._splitext] with [sep = "/"], [extsep = "."]: the
    extension starts at the last dot of the last component, unless that
    component has only dots before it. *)
Definition splitext (p : string) : string * string :=
  let sepIndex := PyStr.rfind "/" p in
  let dotIndex := PyStr.rfind "." p in
  if sepIndex <? dotIndex then
    let filenameIndex := sepIndex + 1 in
    let leading := PyStr.take (Z.to_nat (dotIndex - filenameIndex))
                              (PyStr.skip (Z.to_nat filenameIndex) p) in
    if PyStr.all_char "." leading then (p, "")
    else (PyStr.take (Z.to_nat dotIndex) p, PyStr.skip (Z.to_nat dotIndex) p)
  else (p, "").

Definition endswith_sep (a : string) : bool :=
  PyStr.rfind "/" a =? Z.of_nat (String.length a) - 1.

(** [os.path.join(a, b)] for two components. *)
Definition join (a b : string) : string :=
  if PyStr.startswith_char "/" b then b
  else if (String.eqb a "") || endswith_sep a then a ++ b
  else a ++ "/" ++ b.

End OsPath.

(** ** The [%] operator on format strings *)

Inductive fmt_arg : Type :=
| AStr (s : string)
| AInt (n : Z)
| ANone.

Module PyFormat.

Inductive mode : Type :=
| Lit
| Flags (zero : bool)
| Width (zero : bool) (w : nat).

Definition is_digit (c : ascii) : bool :=
  ((48 <=? N.to_nat (N_of_ascii c)) && (N.to_nat (N_of_ascii c) <=? 57))%nat.

Definition digit_val (c : ascii) : nat := (N.to_nat (N_of_ascii c) - 48)%nat.

(** [%<w>s]: right-justified with spaces. *)
Definition pad_str (w : nat) (s : string) : string :=
  PyStr.repeat_char " " (w - String.length s) ++ s.

(** [%<w>d] and [%0<w>d]: the sign comes first, zeros go between the sign
    and the digits, spaces go before the sign. *)
Definition pad_int (zero : bool) (w : nat) (n : Z) : string :=
  let sign := if n <? 0 then "-" else "" in
  let digits := PyStr.decimal (Z.to_N (Z.abs n)) in
  let fill := (w - (String.length sign + String.length digits))%nat in
  if zero then sign ++ PyStr.repeat_char "0" fill ++ digits
  else PyStr.repeat_char " " fill ++ sign ++ digits.

Definition arg_str (a : fmt_arg) : string :=
  match a with
  | AStr s => s
  | AInt n => pad_int false 0 n
  | ANone => "None"
  end.

(** One conversion: the text produced and the arguments left. *)
Definition convert (zero : bool) (w : nat) (c : ascii) (args : list fmt_arg)
  : result (string * list fmt_arg) :=
  if Ascii.eqb c "%" then Ok ("%", args)
  else if Ascii.eqb c "s" then
    match args with
    | a :: args' => Ok (pad_str w (arg_str a), args')
    | [] => Err (TypeError "not enough arguments for format string")
    end
  else if Ascii.eqb c "d" then
    match args with
    | AInt n :: args' => Ok (pad_int zero w n, args')
    | _ :: _ => Err (TypeError "%d format: a number is required")
    | [] => Err (TypeError "not enough arguments for format string")
    end
  else Err (ValueError "unsupported format character").

Fixpoint go (m : mode) (f : string) (args : list fmt_arg) : result string :=
  match f with
  | EmptyString =>
      match m with
      | Lit =>
          match args with
          | [] => Ok ""
          | _ :: _ => Err (TypeError "not all arguments converted during string formatting")
          end
      | _ => Err (ValueError "incomplete format")
      end
  | String c f' =>
      let conv zero w :=
        match convert zero w c args with
        | Ok (s, args') => result_map (append s) (go Lit f' args')
        | Err e => Err e
        end in
      match m with
      | Lit =>
          if Ascii.eqb c "%" then go (Flags false) f' args
          else result_map (String c) (go Lit f' args)
      | Flags zero =>
          if Ascii.eqb c "0" then go (Flags true) f' args
          else if is_digit c then go (Width zero (digit_val c)) f' args
          else conv zero O
      | Width zero w =>
          if is_digit c then go (Width zero (10 * w + digit_val c)) f' args
          else conv zero w
      end
  end.

(** [f % args]. *)
Definition percent (f : string) (args : list fmt_arg) : result string :=
  go Lit f args.

End PyFormat.

Notation "f %% args" := (PyFormat.percent f args) (at level 40, no associativity).

(** ** [base64.standard_b64encode] *)

Module Base64.

Definition alphabet : string :=
  "ABCDEFGHIJKLMNOPQRSTUVWXYZabcdefghijklmnopqrstuvwxyz0123456789+/".

Definition sextet (n : Z) : ascii :=
  match String.get (Z.to_nat (n mod 64)) alphabet with
  | Some c => c
  | None => "="%char
  end.

Definition byte (c : ascii) : Z := Z.of_N (N_of_ascii c).

Fixpoint standard_b64encode (data : string) : string :=
  match data with
  | EmptyString => EmptyString
  | String a EmptyString =>
      let n := Z.shiftl (byte a) 16 in
      String (sextet (Z.shiftr n 18)) (String (sextet (Z.shiftr n 12)) "==")
  | String a (String b EmptyString) =>
      let n := Z.lor (Z.shiftl (byte a) 16) (Z.shiftl (byte b) 8) in
      String (sextet (Z.shiftr n 18)) (String (sextet (Z.shiftr n 12))
        (String (sextet (Z.shiftr n 6)) "="))
  | String a (String b (String c rest)) =>
      let n := Z.lor (Z.lor (Z.shiftl (byte a) 16) (Z.shiftl (byte b) 8)) (byte c) in
      String (sextet (Z.shiftr n 18)) (String (sextet (Z.shiftr n 12))
        (String (sextet (Z.shiftr n 6)) (String (sextet n)
          (standard_b64encode rest))))
  end.

End Base64.

(** ** [hashlib.sha1(data).hexdigest()] *)

Module SHA1.

Definition w32 (x : Z) : Z := x mod 4294967296.

Definition rotl (n x : Z) : Z :=
  w32 (Z.lor (Z.shiftl x n) (Z.shiftr x (32 - n))).

Definition bytes_of (s : string) : list Z :=
  map (fun c => Z.of_N (N_of_ascii c)) (list_ascii_of_string s).

(** Big-endian bytes of [x], [n] of them. *)
Fixpoint be_bytes (n : nat) (x : Z) : list Z :=
  match n with
  | O => []
  | S n' => (Z.shiftr x (8 * Z.of_nat n')) mod 256 :: be_bytes n' x
  end.

(** The message, the bit [1], zeros up to 56 modulo 64, and the length
    in bits on 64 bits. *)
Definition pad (msg : list Z) : list Z :=
  let len := Z.of_nat (List.length msg) in
  let zeros := Z.to_nat ((55 - len) mod 64) in
  msg ++ 128 :: repeat 0 zeros ++ be_bytes 8 (8 * len).

Fixpoint words (fuel : nat) (bs : list Z) : list Z :=
  match fuel, bs with
  | S fuel', a :: b :: c :: d :: rest =>
      Z.lor (Z.lor (Z.shiftl a 24) (Z.shiftl b 16)) (Z.lor (Z.shiftl c 8) d)
      :: words fuel' rest
  | _, _ => []
  end.

Fixpoint blocks (fuel : nat) (ws : list Z) : list (list Z) :=
  match fuel, ws with
  | S fuel', _ :: _ => firstn 16 ws :: blocks fuel' (skipn 16 ws)
  | _, _ => []
  end.

(** The message schedule, latest word first. *)
Fixpoint schedule (n : nat) (rev_ws : list Z) : list Z :=
  match n with
  | O => rev_ws
  | S n' =>
      let w := rotl 1 (Z.lxor (Z.lxor (nth 2 rev_ws 0) (nth 7 rev_ws 0))
                              (Z.lxor (nth 13 rev_ws 0) (nth 15 rev_ws 0))) in
      schedule n' (w :: rev_ws)
  end.

Definition f (t : nat) (b c d : Z) : Z :=
  if (t <? 20)%nat then Z.lor (Z.land b c) (Z.land (w32 (Z.lnot b)) d)
  else if (t <? 40)%nat then Z.lxor (Z.lxor b c) d
  else if (t <? 60)%nat then Z.lor (Z.lor (Z.land b c) (Z.land b d)) (Z.land c d)
  else Z.lxor (Z.lxor b c) d.

Definition K (t : nat) : Z :=
  if (t <? 20)%nat then 1518500249
  else if (t <? 40)%nat then 1859775393
  else if (t <? 60)%nat then 2400959708
  else 3395469782.

Record regs : Type := mkregs { ra : Z; rb : Z; rc : Z; rd : Z; re : Z }.

Fixpoint rounds (t : nat) (ws : list Z) (r : regs) : regs :=
  match ws with
  | [] => r
  | w :: ws' =>
      let temp := w32 (rotl 5 (ra r) + f t (rb r) (rc r) (rd r) + re r + w + K t) in
      rounds (S t) ws' (mkregs temp (ra r) (rotl 30 (rb r)) (rc r) (rd r))
  end.

Definition compress (h : regs) (block : list Z) : regs :=
  let r := rounds 0 (rev (schedule 64 (rev block))) h in
  mkregs (w32 (ra h + ra r)) (w32 (rb h + rb r)) (w32 (rc h + rc r))
         (w32 (rd h + rd r)) (w32 (re h + re r)).

Definition init : regs :=
  mkregs 1732584193 4023233417 2562383102 271733878 3285377520.

Definition hex_digit (n : Z) : ascii :=
  match String.get (Z.to_nat (n mod 16)) "0123456789abcdef" with
  | Some c => c
  | None => "0"%char
  end.

Fixpoint hex (n : nat) (x : Z) : string :=
  match n with
  | O => EmptyString
  | S n' => String (hex_digit (Z.shiftr x (4 * Z.of_nat n'))) (hex n' x)
  end.

Definition hexdigest (data : string) : string :=
  let bs := pad (bytes_of data) in
  let ws := words (List.length bs) bs in
  let h := fold_left compress (blocks (List.length ws) ws) init in
  hex 8 (ra h) ++ hex 8 (rb h) ++ hex 8 (rc h) ++ hex 8 (rd h) ++ hex 8 (re h).

End SHA1.

(** ** The environment of a call and the monad of methods *)

(** What the [os] and [random] modules answer during one call.  [os_walk]
    gives, for a directory, the pairs (directory name, file names) that
    [os.walk] yields, in its order; [os_path_getsize] gives the size of a
    file, or the [OSError] that [os.path.getsize] raises on a path it
    cannot stat (a link that leads nowhere, a file removed since the
    walk); [random_draw] stands for the value of [random.random()] scaled
    to an index. *)
Record World : Type := mkWorld {
  os_path_isdir : string -> bool;
  os_path_isfile : string -> bool;
  os_path_getsize : string -> result Z;
  os_path_abspath : string -> string;
  os_walk : string -> list (string * list string);
  file_contents : string -> string;
  random_draw : nat
}.

(** The actions recorded in the trace: a call of [_scan_for_templates]
    with its argument, the reading of a file ([open] and [read]), and the
    assignment [self._active_template = None] of [generate]. *)
Inductive event : Type :=
| EvScan (accepted_extensions : option (list string))
| EvRead (file_name : string)
| EvClearActive.

Definition is_scan (e : event) : bool :=
  match e with EvScan _ => true | _ => false end.


Definition count_events (p : event -> bool) (tr : list event) : nat :=
  List.length (filter p tr).

(** A method of an object of type [St] that returns an [A] or raises. *)
Definition M (St A : Type) : Type := World -> St -> result A * St * list event.

Definition ret {St A} (a : A) : M St A := fun _ s => (Ok a, s, []).

Definition raise {St A} (e : exception) : M St A := fun _ s => (Err e, s, []).

Definition bind {St A B} (m : M St A) (k : A -> M St B) : M St B :=
  fun w s =>
    match m w s with
    | (Ok a, s1, t1) =>
        match k a w s1 with
        | (r, s2, t2) => (r, s2, (t1 ++ t2)%list)
        end
    | (Err e, s1, t1) => (Err e, s1, t1)
    end.

Definition get {St} : M St St := fun _ s => (Ok s, s, []).

Definition put {St} (s : St) : M St unit := fun _ _ => (Ok tt, s, []).

Definition ask {St} : M St World := fun w s => (Ok w, s, []).

Definition emit {St} (e : event) : M St unit := fun _ s => (Ok tt, s, [e]).

Definition lift {St A} (r : result A) : M St A := fun _ s => (r, s, []).

Declare Scope py_scope.
Delimit Scope py_scope with py.
Notation "x <- m ;; k" := (bind m (fun x => k))
  (at level 61, m at next level, right associativity) : py_scope.
Notation "m ;; k" := (bind m (fun _ => k))
  (at level 61, right associativity) : py_scope.
Local Open Scope py_scope.

(** ** class Template *)

Module Template.

Record t : Type := mk {
  _data : option string;
  _data_hash : option string;
  extension : option string;
  file_name : string
}.

(** [Template(file_name)].  The argument is [None] or a string. *)
Definition __init__ {St} (file_name : option string) : M St t :=
  match file_name with
  | None =>
      msg <- lift ("File does not exist: %s" %% [ANone]) ;;
      raise (IOError msg)
  | Some name =>
      let extension :=
        if PyStr.contains_char "." name
        then Some (PyStr.lstrip_char "." (snd (OsPath.splitext name)))
        else None in
      ret (mk None None extension name)
  end.

Definition _load_and_hash_data : M t unit :=
  self <- get ;;
  w <- ask ;;
  if negb (os_path_isfile w (file_name self)) then
    msg <- lift ("File does not exist: %s" %% [AStr (file_name self)]) ;;
    raise (IOError msg)
  else
    emit (EvRead (file_name self)) ;;
    let data := file_contents w (file_name self) in
    put (mk (Some data) (_data_hash self) (extension self) (file_name self)) ;;
    put (mk (Some data) (Some (SHA1.hexdigest data)) (extension self) (file_name self)).

(** [get_data()] returns the attribute [_data], which is [None] or a
    string. *)
Definition get_data : M t (option string) :=
  self <- get ;;
  (match _data self with
   | None => _load_and_hash_data
   | Some _ => ret tt
   end) ;;
  self <- get ;;
  ret (_data self).

(** [get_hash()] returns the attribute [_data_hash]. *)
Definition get_hash : M t (option string) :=
  self <- get ;;
  (match _data_hash self with
   | None => _load_and_hash_data
   | Some _ => ret tt
   end) ;;
  self <- get ;;
  ret (_data_hash self).

End Template.

(** ** class TestFile *)

Module TestFile.

Record t : Type := mk {
  file_name : string;
  data : string;
  required : bool
}.

(** [TestFile(file_name, data, required=True)]. *)
Definition __init__ (file_name data : string) (required : option bool) : t :=
  mk file_name data (match required with Some b => b | None => true end).

End TestFile.

(** The values a caller can pass where a [TestFile] is expected. *)
Inductive pyobject : Type :=
| PyNone
| PyStr (s : string)
| PyInt (n : Z)
| PyTemplate (o : Template.t)
| PyTestFile (o : TestFile.t).

(** ** class TestCase *)

Module TestCase.

Record t : Type := mk {
  corpman_name : option string;
  landing_page : string;
  template : option Template.t;
  _test_files : list TestFile.t;
  _optional_files : list string
}.

(** [TestCase(landing_page, corpman_name, template=None)]. *)
Definition __init__ (landing_page : string) (corpman_name : option string)
           (template : option Template.t) : t :=
  mk corpman_name landing_page template [] [].

Definition add_testfile (test_file : pyobject) : M t unit :=
  match test_file with
  | PyTestFile f =>
      self <- get ;;
      put (mk (corpman_name self) (landing_page self) (template self)
              (_test_files self ++ [f])%list (_optional_files self)) ;;
      if negb (TestFile.required f) then
        self <- get ;;
        put (mk (corpman_name self) (landing_page self) (template self)
                (_test_files self) (_optional_files self ++ [TestFile.file_name f])%list)
      else ret tt
  | _ => raise (TypeError "add_testfile() only accepts TestFile objects")
  end.

Definition get_optional (self : t) : option (list string) :=
  match _optional_files self with
  | _ :: _ => Some (_optional_files self)
  | [] => None
  end.

End TestCase.

(** ** Python list operations used by the manager *)

Module PyList.

Section Sort.
Variable A : Type.
Variable leb : A -> A -> bool.

Fixpoint insert (x : A) (l : list A) : list A :=
  match l with
  | [] => [x]
  | y :: l' => if leb x y then x :: l else y :: insert x l'
  end.

(** A stable sort for the order [leb]. *)
Definition sort_by (l : list A) : list A := fold_right insert [] l.
End Sort.

(** [l.sort(reverse=True)] on a list of strings: descending in the byte
    order of [str]. *)
Definition sort_reverse (l : list string) : list string :=
  sort_by (fun a b => String.leb b a) l.

(** [l.pop()]: the last element and the list without it. *)
Definition pop (A : Type) (l : list A) : result (A * list A) :=
  match rev l with
  | [] => Err (IndexError "pop from empty list")
  | x :: r => Ok (x, rev r)
  end.

(** [random.choice(l)], which is [l[int(random() * len(l))]]. *)
Definition choice (A : Type) (w : World) (l : list A) : result A :=
  match nth_error l (random_draw w mod List.length l)%nat with
  | Some x => Ok x
  | None => Err (IndexError "list index out of range")
  end.

End PyList.

(** ** Calls on a template *)

(** The calls a caller can make on a template. *)
Inductive template_call : Type :=
| CallGetData
| CallGetHash.

Definition do_call (c : template_call) : M Template.t (option string) :=
  match c with
  | CallGetData => Template.get_data
  | CallGetHash => Template.get_hash
  end.

(** A caller that makes the calls of [cs] on one template, each in the
    world that comes with it, and goes on after an exception. *)
Fixpoint run_calls (cs : list (World * template_call)) (self : Template.t)
  : list (result (option string)) * Template.t * list event :=
  match cs with
  | [] => ([], self, [])
  | (w, c) :: cs' =>
      match do_call c w self with
      | (r, self1, t1) =>
          match run_calls cs' self1 with
          | (rs, self2, t2) => (r :: rs, self2, (t1 ++ t2)%list)
          end
      end
  end.

(** The template once the calls [calls] were made on it in the world
    [w]. *)
Definition after_calls (w : World) (calls : list template_call) (tpl : Template.t)
  : Template.t :=
  snd (fst (run_calls (map (pair w) calls) tpl)).

(** ** The methods a subclass supplies *)

(** [key], [_init_fuzzer] and [_generate].  A hook works on the [_fuzzer]
    attribute and on the test case it is given, and may look at the
    environment; it returns the test case as it has left it, or raises,
    and in both cases leaves a value in [_fuzzer].  The pool, the counter
    and the mode of the manager are the business of the base class: a
    hook is not given them.

    The template of the test case is the object [self._active_template]
    itself, not a copy.  [_generate] is given its state at the call, and
    [_generate_calls] tells which calls of [get_data] and [get_hash] the
    hook makes on it, in order: what these calls cache stays in the
    active template of the manager, whether the hook returns or raises.
    What a hook reads is the hook's business and not part of the trace
    of [generate]. *)
Class Fuzzer : Type := mkFuzzer {
  fuzzer_t : Type;
  aggression_t : Type;
  key : option string;
  _init_fuzzer : aggression_t -> World -> option fuzzer_t ->
                 result unit * option fuzzer_t;
  _generate : World -> option fuzzer_t -> TestCase.t -> string -> option string ->
              result TestCase.t * option fuzzer_t;
  _generate_calls : World -> option fuzzer_t -> TestCase.t -> string -> option string ->
                    list template_call
}.

(** The base class: no key, an empty [_init_fuzzer], and a [_generate]
    that raises. *)
Definition base_class : Fuzzer :=
  {| fuzzer_t := unit;
     aggression_t := unit;
     key := None;
     _init_fuzzer := fun _ _ fz => (Ok tt, fz);
     _generate := fun _ fz _ _ _ =>
       (Err (NotImplementedError "_generate must be implemented in the subclass"), fz);
     _generate_calls := fun _ _ _ _ _ => [] |}.

(** ** class CorpusManager *)

Module CorpusManager.
Section WithFuzzer.
Context {F : Fuzzer}.

Record t : Type := mk {
  _active_template : option Template.t;
  _corpus_path : string;
  _fuzzer : option fuzzer_t;
  _generated : Z;
  _is_replay : bool;
  _rotate_period : Z;
  _templates : list string;
  _use_transition : bool
}.

Definition with_active_template (self : t) (v : option Template.t) : t :=
  mk v (_corpus_path self) (_fuzzer self) (_generated self) (_is_replay self)
     (_rotate_period self) (_templates self) (_use_transition self).

Definition with_templates (self : t) (v : list string) : t :=
  mk (_active_template self) (_corpus_path self) (_fuzzer self) (_generated self)
     (_is_replay self) (_rotate_period self) v (_use_transition self).

Definition with_generated (self : t) (v : Z) : t :=
  mk (_active_template self) (_corpus_path self) (_fuzzer self) v
     (_is_replay self) (_rotate_period self) (_templates self) (_use_transition self).

Definition with_fuzzer (self : t) (v : option fuzzer_t) : t :=
  mk (_active_template self) (_corpus_path self) v (_generated self)
     (_is_replay self) (_rotate_period self) (_templates self) (_use_transition self).

(** The assignments [self._active_template = v], [self._templates = v]
    and [self._generated = v]. *)
Definition set_active_template (v : option Template.t) : M t unit :=
  self <- get ;; put (with_active_template self v).

Definition set_templates (v : list string) : M t unit :=
  self <- get ;; put (with_templates self v).

Definition set_generated (v : Z) : M t unit :=
  self <- get ;; put (with_generated self v).

(** A call of a method on a local object: the object as the method left
    it comes back with the value. *)
Definition call_on {O A} (o : O) (m : M O A) : M t (A * O) :=
  fun w s =>
    match m w o with
    | (Ok a, o', tr) => (Ok (a, o'), s, tr)
    | (Err e, _, tr) => (Err e, s, tr)
    end.

Definition ignored_list : list string := ["desktop.ini"; "thumbs.db"].

(** The tests of the inner loop of [_scan_for_templates] that look at
    the file name only. *)
Definition wanted (accepted_extensions : option (list string)) (f_name : string) : bool :=
  if PyStr.startswith_char "." f_name || PyStr.mem (PyStr.lower f_name) ignored_list
  then false
  else
    match accepted_extensions with
    | Some ((_ :: _) as exts) =>
        let ext := PyStr.lower (PyStr.lstrip_char "." (snd (OsPath.splitext f_name))) in
        PyStr.mem ext exts
    | _ => true
    end.

(** The inner loop of [_scan_for_templates], over the file names of one
    directory. *)
Fixpoint scan_filenames (accepted_extensions : option (list string)) (d_name : string)
         (filenames : list string) : M t unit :=
  match filenames with
  | [] => ret tt
  | f_name :: filenames' =>
      (if wanted accepted_extensions f_name then
         w <- ask ;;
         let test_file := os_path_abspath w (OsPath.join d_name f_name) in
         size <- lift (os_path_getsize w test_file) ;;
         if 0 <? size then
           self <- get ;; set_templates (_templates self ++ [test_file])%list
         else ret tt
       else ret tt) ;;
      scan_filenames accepted_extensions d_name filenames'
  end.

(** The outer loop, over what [os.walk] yields. *)
Fixpoint scan_walk (accepted_extensions : option (list string))
         (entries : list (string * list string)) : M t unit :=
  match entries with
  | [] => ret tt
  | entry :: entries' =>
      scan_filenames accepted_extensions (fst entry) (snd entry) ;;
      scan_walk accepted_extensions entries'
  end.

Definition _scan_for_templates (accepted_extensions : option (list string)) : M t unit :=
  emit (EvScan accepted_extensions) ;;
  set_templates [] ;;
  self <- get ;;
  w <- ask ;;
  (if os_path_isdir w (_corpus_path self) then
     scan_walk accepted_extensions (os_walk w (_corpus_path self))
   else if os_path_isfile w (_corpus_path self) then
     size <- lift (os_path_getsize w (_corpus_path self)) ;;
     if 0 <? size then
       self <- get ;;
       set_templates (_templates self ++ [os_path_abspath w (_corpus_path self)])%list
     else ret tt
   else ret tt) ;;
  self <- get ;;
  match _templates self with
  | [] =>
      msg <- lift ("Could not find test case(s) at %s" %% [AStr (_corpus_path self)]) ;;
      raise (IOError msg)
  | _ :: _ =>
      if _is_replay self then set_templates (PyList.sort_reverse (_templates self))
      else ret tt
  end.

(** What the inner loop appends for one directory, and the exception
    that stops it, if one does. *)
Fixpoint collect_filenames (w : World) (accepted_extensions : option (list string))
         (d_name : string) (filenames : list string) : list string * option exception :=
  match filenames with
  | [] => ([], None)
  | f_name :: filenames' =>
      if wanted accepted_extensions f_name then
        let test_file := os_path_abspath w (OsPath.join d_name f_name) in
        match os_path_getsize w test_file with
        | Err e => ([], Some e)
        | Ok size =>
            match collect_filenames w accepted_extensions d_name filenames' with
            | (found, stop) => ((if 0 <? size then [test_file] else []) ++ found, stop)%list
            end
        end
      else collect_filenames w accepted_extensions d_name filenames'
  end.

Fixpoint collect_walk (w : World) (accepted_extensions : option (list string))
         (entries : list (string * list string)) : list string * option exception :=
  match entries with
  | [] => ([], None)
  | entry :: entries' =>
      match collect_filenames w accepted_extensions (fst entry) (snd entry) with
      | (found, Some e) => (found, Some e)
      | (found, None) =>
          match collect_walk w accepted_extensions entries' with
          | (found', stop) => ((found ++ found')%list, stop)
          end
      end
  end.

(** What a scan of [path] appends to the emptied pool, in order, and the
    exception of [os.path.getsize] that stops it, if one does. *)
Definition scan_outcome (w : World) (path : string)
           (accepted_extensions : option (list string)) : list string * option exception :=
  if os_path_isdir w path then collect_walk w accepted_extensions (os_walk w path)
  else if os_path_isfile w path then
    match os_path_getsize w path with
    | Err e => ([], Some e)
    | Ok size => (if 0 <? size then [os_path_abspath w path] else [], None)
    end
  else ([], None).

(** The list [self._templates] holds when the loops end or stop. *)
Definition scan_candidates (w : World) (path : string)
           (accepted_extensions : option (list string)) : list string :=
  fst (scan_outcome w path accepted_extensions).

Definition scan_error (w : World) (path : string)
           (accepted_extensions : option (list string)) : option exception :=
  snd (scan_outcome w path accepted_extensions).

Definition call_init_fuzzer (aggression : aggression_t) : M t unit :=
  fun w self =>
    match _init_fuzzer aggression w (_fuzzer self) with
    | (r, fz) => (r, with_fuzzer self fz, [])
    end.

(** The state of the manager once the hook is through: the value it
    left in [_fuzzer], and the active template with what the calls of the
    hook have cached. *)
Definition after_hook (w : World) (self : t) (test : TestCase.t) (redirect_page : string)
           (mime_type : option string) : t :=
  with_active_template
    (with_fuzzer self (snd (_generate w (_fuzzer self) test redirect_page mime_type)))
    (option_map
       (after_calls w (_generate_calls w (_fuzzer self) test redirect_page mime_type))
       (_active_template self)).

Definition call_generate (test : TestCase.t) (redirect_page : string)
           (mime_type : option string) : M t TestCase.t :=
  fun w self =>
    (fst (_generate w (_fuzzer self) test redirect_page mime_type),
     after_hook w self test redirect_page mime_type, []).

(** [CorpusManager(path, accepted_extensions, aggression, is_replay,
    rotate)]; the defaults of the last four are [None], [0.001], [False]
    and [10]. *)
Definition __init__ (path : string) (accepted_extensions : option (list string))
           (aggression : aggression_t) (is_replay : bool) (rotate : Z)
           (w : World) : result t * list event :=
  let self := mk None path None 0 is_replay (if is_replay then 0 else rotate) [] true in
  match (call_init_fuzzer aggression ;; _scan_for_templates accepted_extensions) w self with
  | (Ok _, self', tr) => (Ok self', tr)
  | (Err e, _, tr) => (Err e, tr)
  end.

(** [to_data_url(data, mime_type=None)]. *)
Definition to_data_url (data : string) (mime_type : option string) : result string :=
  let mime_type :=
    match mime_type with
    | None => "application/octet-stream"
    | Some m => m
    end in
  "data:%s;base64,%s" %% [AStr mime_type; AStr (Base64.standard_b64encode data)].

(** The first statement of [generate]: "check if we should choose a new
    active template". *)
Definition rotate_templates : M t unit :=
  self <- get ;;
  if (0 <? _rotate_period self) && (_generated self mod _rotate_period self =? 0) then
    _scan_for_templates None ;;
    self <- get ;;
    if (1 <? List.length (_templates self))%nat then
      emit EvClearActive ;;
      set_active_template None
    else ret tt
  else ret tt.

(** The second statement: "choose a template". *)
Definition choose_template : M t unit :=
  self <- get ;;
  if _is_replay self then
    popped <- lift (PyList.pop (_templates self)) ;;
    set_templates (snd popped) ;;
    tpl <- Template.__init__ (Some (fst popped)) ;;
    set_active_template (Some tpl)
  else
    match _active_template self with
    | None =>
        w <- ask ;;
        chosen <- lift (PyList.choice w (_templates self)) ;;
        tpl <- Template.__init__ (Some chosen) ;;
        set_active_template (Some tpl)
    | Some _ => ret tt
    end.

(** "create test case object and landing page names": the test case and
    the redirect page handed to the hook. *)
Definition new_test : M t (TestCase.t * string) :=
  self <- get ;;
  landing <- lift ("test_page_%04d.html" %% [AInt (_generated self)]) ;;
  let test := TestCase.__init__ landing key (_active_template self) in
  if _use_transition self then
    redirect_page <- lift ("transition_%04d.html" %% [AInt (_generated self)]) ;;
    body <- lift ("<script>window.location='test_page_%04d.html';</script>"
                  %% [AInt (_generated self + 1)]) ;;
    let rd_file := TestFile.__init__ redirect_page body None in
    added <- call_on test (TestCase.add_testfile (PyTestFile rd_file)) ;;
    ret (snd added, redirect_page)
  else
    redirect_page <- lift ("test_page_%04d.html" %% [AInt (_generated self + 1)]) ;;
    ret (test, redirect_page).

Definition generate (mime_type : option string) : M t TestCase.t :=
  rotate_templates ;;
  choose_template ;;
  shell <- new_test ;;
  test <- call_generate (fst shell) (snd shell) mime_type ;;
  self <- get ;;
  set_generated (_generated self + 1) ;;
  ret test.

Definition get_active_file_name (self : t) : option string :=
  match _active_template self with
  | Some tpl => Some (Template.file_name tpl)
  | None => None
  end.

Definition landing_page (self : t) : result string :=
  "test_page_%04d.html" %% [AInt (_generated self)].

Definition size (self : t) : nat := List.length (_templates self).

End WithFuzzer.
End CorpusManager.

(** ** Callers *)

(** A caller that calls [generate()] once in each world of [ws], goes on
    after an exception, and notes after each call the outcome and
    [get_active_file_name()]. *)
Fixpoint run_generate {F : Fuzzer} (mime_type : option string) (ws : list World)
         (self : CorpusManager.t)
  : list (result TestCase.t * option string) * CorpusManager.t * list event :=
  match ws with
  | [] => ([], self, [])
  | w :: ws' =>
      match CorpusManager.generate mime_type w self with
      | (r, self1, t1) =>
          match run_generate mime_type ws' self1 with
          | (rs, self2, t2) =>
              ((r, CorpusManager.get_active_file_name self1) :: rs, self2, (t1 ++ t2)%list)
          end
      end
  end.

(** A caller that adds the objects of [vs] to a test case, one
    [add_testfile] each, and stops at the first exception. *)
Fixpoint add_all (vs : list pyobject) : M TestCase.t unit :=
  match vs with
  | [] => ret tt
  | v :: vs' => TestCase.add_testfile v ;; add_all vs'
  end.

(** ** Worked examples *)

Module Examples.

(** A directory [dir] holding the files [files] (name, contents), and
    nothing else. *)
Definition find (files : list (string * string)) (dir p : string) : option string :=
  match List.find (fun f => String.eqb (OsPath.join dir (fst f)) p) files with
  | Some f => Some (snd f)
  | None => None
  end.

Definition directory (dir : string) (files : list (string * string)) (draw : nat) : World :=
  {| os_path_isdir := String.eqb dir;
     os_path_isfile := fun p => match find files dir p with Some _ => true | None => false end;
     os_path_getsize := fun p =>
       match find files dir p with
       | Some d => Ok (Z.of_nat (String.length d))
       | None => Err (OSError "[Errno 2] No such file or directory")
       end;
     os_path_abspath := fun p => p;
     os_walk := fun p => if String.eqb dir p then [(dir, map fst files)] else [];
     file_contents := fun p => match find files dir p with Some d => d | None => "" end;
     random_draw := draw |}.

(** A subclass whose hook writes the landing page: a link to the
    redirect page around the template as a data URL. *)
Definition page_fuzzer : Fuzzer :=
  {| fuzzer_t := unit;
     aggression_t := unit;
     key := Some "page";
     _init_fuzzer := fun _ _ _ => (Ok tt, Some tt);
     _generate := fun w fz test redirect_page _ =>
       let page := TestFile.__init__ (TestCase.landing_page test)
                     ("<a href='" ++ redirect_page ++ "'>next</a>") None in
       match TestCase.add_testfile (PyTestFile page) w test with
       | (Ok _, test', _) => (Ok test', fz)
       | (Err e, _, _) => (Err e, fz)
       end;
     _generate_calls := fun _ _ _ _ _ => [] |}.

Definition corpus : World :=
  directory "/corpus"
    [("b.html", "<b>two</b>"); ("a.html", "<i>one</i>"); (".hidden", "x");
     ("Thumbs.db", "junk"); ("empty.html", ""); ("notes.txt", "text")] 0.

(** The manager [CorpusManager("/corpus", ["html"], rotate=r,
    is_replay=replay)] of the subclass [page_fuzzer] over the example
    corpus. *)
Definition manager (replay : bool) (r : Z) : @CorpusManager.t page_fuzzer :=
  CorpusManager.mk (F := page_fuzzer) None "/corpus" (Some tt) 0 replay
     (if replay then 0 else r)
     ["/corpus/b.html"; "/corpus/a.html"] true.

End Examples.

(** ** Definitions used in the statements *)

Section ManagerStatements.
Context {F : Fuzzer}.
Import CorpusManager.

(** The three names [generate] builds from the counter. *)
Definition test_page (n : Z) : string := "test_page_" ++ PyFormat.pad_int true 4 n ++ ".html".
Definition transition (n : Z) : string := "transition_" ++ PyFormat.pad_int true 4 n ++ ".html".
Definition redirect_script (n : Z) : string :=
  "<script>window.location='" ++ test_page n ++ "';</script>".

(** The exception of a scan that finds nothing. *)
Definition no_corpus (self : CorpusManager.t) : exception :=
  IOError ("Could not find test case(s) at " ++ _corpus_path self).

(** Whether this call falls on a rotation boundary. *)
Definition at_boundary (self : CorpusManager.t) : bool :=
  (0 <? _rotate_period self) && (_generated self mod _rotate_period self =? 0).

(** The object [Template(name)] for a string [name]. *)
Definition fresh_template (name : string) : Template.t :=
  Template.mk None None
    (if PyStr.contains_char "." name
     then Some (PyStr.lstrip_char "." (snd (OsPath.splitext name)))
     else None)
    name.

(** The test case handed to the hook and the redirect page, as values of
    the manager at that point ([new_test] returns them: lemma
    [new_test_eq]). *)
Definition shell_of (self : CorpusManager.t) : TestCase.t * string :=
  let n := _generated self in
  if _use_transition self then
    (TestCase.mk key (test_page n) (_active_template self)
       [TestFile.mk (transition n) (redirect_script (n + 1)) true] [],
     transition n)
  else
    (TestCase.mk key (test_page n) (_active_template self) [] [], test_page (n + 1)).

(** The names of the files of [fs] that are not required, in order. *)
Definition optional_names (fs : list TestFile.t) : list string :=
  map TestFile.file_name (filter (fun f => negb (TestFile.required f)) fs).

(** The attributes no statement of [generate] before the hook assigns. *)
Definition same_settings (s s' : CorpusManager.t) : Prop :=
  _corpus_path s' = _corpus_path s
  /\ _generated s' = _generated s
  /\ _is_replay s' = _is_replay s
  /\ _rotate_period s' = _rotate_period s
  /\ _use_transition s' = _use_transition s.

(** The hook keeps the landing page and the files the test case holds:
    it only adds files. *)
Definition hook_appends : Prop :=
  forall w fz test redirect_page mime_type test' fz',
    _generate w fz test redirect_page mime_type = (Ok test', fz') ->
    TestCase.landing_page test' = TestCase.landing_page test
    /\ exists added,
        TestCase._test_files test' = (TestCase._test_files test ++ added)%list.

(** The hook returns, whatever it is given. *)
Definition hook_returns : Prop :=
  forall w fz test redirect_page mime_type,
    exists test' fz', _generate w fz test redirect_page mime_type = (Ok test', fz').


(** The attributes [generate] never assigns. *)
Definition same_mode (s s' : CorpusManager.t) : Prop :=
  _corpus_path s' = _corpus_path s
  /\ _is_replay s' = _is_replay s
  /\ _rotate_period s' = _rotate_period s
  /\ _use_transition s' = _use_transition s.

End ManagerStatements.

Section TemplateStatements.
Import Template.


(** Nothing is cached yet. *)
Definition unloaded (tpl : Template.t) : Prop :=
  _data tpl = None /\ _data_hash tpl = None.




End TemplateStatements.

(** The second definition of the order of replay, from the words of the
    specification: the template paths sorted in ascending lexicographic
    order. *)
Definition ascending_sorted (paths : list string) : list string :=
  PyList.sort_by String.leb paths.

(** ** TestCase.dump *)

(** [os.path.basename(p)]: what follows the last slash. *)
Definition os_path_basename (p : string) : string :=
  PyStr.skip (Z.to_nat (PyStr.rfind "/" p + 1)) p.

Module Dump.

(** The files written so far: the contents of each path that holds a
    file.  The files a template is read from are those of the [World];
    the log directory is another place. *)
Definition Disk : Type := string -> option string.

Definition empty_disk : Disk := fun _ => None.

(** [open(path, "w")] or [open(path, "wb")]: the file is there and
    empty. *)
Definition create (path : string) (d : Disk) : Disk :=
  fun q => if String.eqb q path then Some "" else d q.

(** [out_fp.write(s)] on the file opened at [path]. *)
Definition append (path s : string) (d : Disk) : Disk :=
  fun q =>
    if String.eqb q path
    then Some (match d q with Some old => old ++ s | None => s end)
    else d q.

(** The state of [dump]: the test case and the disk. *)
Definition St : Type := (TestCase.t * Disk)%type.

Definition nl : string := String (ascii_of_nat 10) EmptyString.

Definition arg_of (v : option string) : fmt_arg :=
  match v with
  | Some s => AStr s
  | None => ANone
  end.

Definition with_template (self : TestCase.t) (v : option Template.t) : TestCase.t :=
  TestCase.mk (TestCase.corpman_name self) (TestCase.landing_page self) v
              (TestCase._test_files self) (TestCase._optional_files self).

(** A call of a method of [self.template]; the template is an object the
    test case refers to, so what the method caches stays. *)
Definition on_template {A} (m : M Template.t A) : M St A :=
  fun w st =>
    match TestCase.template (fst st) with
    | Some tpl =>
        match m w tpl with
        | (r, tpl', tr) => (r, (with_template (fst st) (Some tpl'), snd st), tr)
        end
    | None =>
        (Err (OtherError "AttributeError" "'NoneType' object has no attribute"), st, [])
    end.

Section WithOutput.

(** What [open] for writing raises at a path, if it raises. *)
Variable open_error : string -> option exception.

Definition fp_open (path : string) : M St unit :=
  match open_error path with
  | Some e => raise e
  | None => st <- get ;; put (fst st, create path (snd st))
  end.

Definition fp_write (path s : string) : M St unit :=
  st <- get ;; put (fst st, append path s (snd st)).

(** The loop "save test file page". *)
Fixpoint write_test_files (log_dir : string) (files : list TestFile.t) : M St unit :=
  match files with
  | [] => ret tt
  | test_file :: files' =>
      let path := OsPath.join log_dir (TestFile.file_name test_file) in
      fp_open path ;;
      fp_write path (TestFile.data test_file) ;;
      write_test_files log_dir files'
  end.

(** [dump(log_dir, info_file=False)]. *)
Definition dump (log_dir : string) (info_file : bool) : M St unit :=
  st <- get ;;
  write_test_files log_dir (TestCase._test_files (fst st)) ;;
  if info_file then
    let path := OsPath.join log_dir "test_info.txt" in
    fp_open path ;;
    fp_write path ("[Grizzly template/test case details]" ++ nl) ;;
    st <- get ;;
    line <- lift (("Corpus Manager: %s" ++ nl) %% [arg_of (TestCase.corpman_name (fst st))]) ;;
    fp_write path line ;;
    line <- lift (("Landing Page:   %s" ++ nl) %% [AStr (TestCase.landing_page (fst st))]) ;;
    fp_write path line ;;
    match TestCase.template (fst st) with
    | Some tpl =>
        line <- lift (("Template File:  %s" ++ nl)
                      %% [AStr (os_path_basename (Template.file_name tpl))]) ;;
        fp_write path line ;;
        hash <- on_template Template.get_hash ;;
        line <- lift (("Template SHA1:  %s" ++ nl) %% [arg_of hash]) ;;
        fp_write path line
    | None => ret tt
    end
  else ret tt.

End WithOutput.

(** The path [dump] writes a test file to. *)
Definition target (log_dir : string) (f : TestFile.t) : string :=
  OsPath.join log_dir (TestFile.file_name f).

(** The disk once the files of [files] are written, in order. *)
Definition written (log_dir : string) (files : list TestFile.t) (d : Disk) : Disk :=
  fold_left (fun d f => append (target log_dir f) (TestFile.data f)
                               (create (target log_dir f) d)) files d.

(** The last file of [files] that goes to the path [p]. *)
Definition last_at (log_dir p : string) (files : list TestFile.t) : option TestFile.t :=
  List.find (fun f => String.eqb (target log_dir f) p) (rev files).

(** The path of the info file. *)
Definition info_path (log_dir : string) : string := OsPath.join log_dir "test_info.txt".

(** The first lines of the info file. *)
Definition info_head (self : TestCase.t) : string :=
  "[Grizzly template/test case details]" ++ nl
  ++ "Corpus Manager: " ++ PyFormat.arg_str (arg_of (TestCase.corpman_name self)) ++ nl
  ++ "Landing Page:   " ++ TestCase.landing_page self ++ nl.

(** The line of the info file that names the template. *)
Definition info_template_file (tpl : Template.t) : string :=
  "Template File:  " ++ os_path_basename (Template.file_name tpl) ++ nl.

(** The line of the info file that gives the digest. *)
Definition info_template_hash (hash : string) : string :=
  "Template SHA1:  " ++ hash ++ nl.

End Dump.

(** ** More callers and examples *)

(** The test cases of the calls of a run that returned. *)
Definition returned {A B : Type} (rs : list (result A * B)) : list A :=
  flat_map (fun r => match fst r with Ok a => [a] | Err _ => [] end) rs.

(** What a run outside replay mode keeps: the pool is not empty, or the
    next call rescans. *)
Definition pool_ready {F : Fuzzer} (s : CorpusManager.t) : Prop :=
  CorpusManager._is_replay s = false
  /\ (CorpusManager._templates s <> [] \/ at_boundary s = true).

(** The test [_scan_for_templates] makes on the extension of a file
    name. *)
Definition extension_accepted (exts : option (list string)) (f_name : string) : Prop :=
  match exts with
  | Some ((_ :: _) as l) =>
      In (PyStr.lower (PyStr.lstrip_char "." (snd (OsPath.splitext f_name)))) l
  | _ => True
  end.

(** A file of a directory walk that the scan keeps: not hidden, not on
    the ignore list, of an accepted extension, and not empty. *)
Definition kept_file (w : World) (path : string) (exts : option (list string))
           (p : string) : Prop :=
  exists d_name filenames f_name,
    In (d_name, filenames) (os_walk w path)
    /\ In f_name filenames
    /\ p = os_path_abspath w (OsPath.join d_name f_name)
    /\ PyStr.startswith_char "." f_name = false
    /\ ~ In (PyStr.lower f_name) CorpusManager.ignored_list
    /\ extension_accepted exts f_name
    /\ (exists size, os_path_getsize w p = Ok size /\ 0 < size).

(** Every call of [os.path.getsize] that a scan of the directory [path]
    makes returns: each file of the walk that passes the tests on its
    name has a size. *)
Definition sizes_known (w : World) (path : string) (exts : option (list string)) : Prop :=
  forall d_name filenames f_name,
    In (d_name, filenames) (os_walk w path) ->
    In f_name filenames ->
    CorpusManager.wanted exts f_name = true ->
    exists size, os_path_getsize w (os_path_abspath w (OsPath.join d_name f_name)) = Ok size.

(** The call of [os.path.getsize] on a file of the walk raises [e]. *)
Definition size_fails (w : World) (path : string) (exts : option (list string))
           (e : exception) : Prop :=
  exists d_name filenames f_name,
    In (d_name, filenames) (os_walk w path)
    /\ In f_name filenames
    /\ CorpusManager.wanted exts f_name = true
    /\ os_path_getsize w (os_path_abspath w (OsPath.join d_name f_name)) = Err e.

(** ** Reading base64 back *)

(** The inverse of [Base64.sextet], and of [standard_b64encode]; they
    serve to show that the encoding loses nothing. *)
Fixpoint index_in (c : ascii) (s : string) (i : Z) : Z :=
  match s with
  | EmptyString => 0
  | String a s' => if Ascii.eqb a c then i else index_in c s' (i + 1)
  end.

Definition sextet_value (c : ascii) : Z := index_in c Base64.alphabet 0.

Definition byte_char (n : Z) : ascii := ascii_of_N (Z.to_N (n mod 256)).

Fixpoint b64decode (s : string) : string :=
  match s with
  | String c1 (String c2 (String c3 (String c4 rest))) =>
      let n := sextet_value c1 * 262144 + sextet_value c2 * 4096 in
      if Ascii.eqb c3 "=" then String (byte_char (n / 65536)) EmptyString
      else
        let n := n + sextet_value c3 * 64 in
        if Ascii.eqb c4 "=" then
          String (byte_char (n / 65536)) (String (byte_char (n / 256)) EmptyString)
        else
          let n := n + sextet_value c4 in
          String (byte_char (n / 65536))
            (String (byte_char (n / 256)) (String (byte_char n) (b64decode rest)))
  | _ => EmptyString
  end.

(** ** More examples *)

Module Fixtures.

(** The example corpus once all its files are gone. *)
Definition emptied : World := Examples.directory "/corpus" [] 0.

(** The example corpus with one file left. *)
Definition one_left : World := Examples.directory "/corpus" [("only.html", "<p>1</p>")] 0.

(** A corpus that is one hidden file, not a directory. *)
Definition single_file : World :=
  {| os_path_isdir := fun _ => false;
     os_path_isfile := String.eqb "/seed/.hidden.txt";
     os_path_getsize := fun p =>
       if String.eqb "/seed/.hidden.txt" p then Ok 4
       else Err (OSError "[Errno 2] No such file or directory");
     os_path_abspath := fun p => p;
     os_walk := fun _ => [];
     file_contents := fun _ => "seed";
     random_draw := 0 |}.

(** The example corpus with a link to a file that is gone: [os.walk]
    lists the link after the files, and [os.path.getsize] raises on
    it. *)
Definition dangling : World :=
  {| os_path_isdir := os_path_isdir Examples.corpus;
     os_path_isfile := os_path_isfile Examples.corpus;
     os_path_getsize := os_path_getsize Examples.corpus;
     os_path_abspath := os_path_abspath Examples.corpus;
     os_walk := fun p =>
       map (fun entry => (fst entry, snd entry ++ ["link.html"])%list)
           (os_walk Examples.corpus p);
     file_contents := file_contents Examples.corpus;
     random_draw := 0 |}.

(** A subclass whose hook puts the digest of the template into the
    landing page: it calls [test.template.get_hash()]. *)
Definition hashing_fuzzer : Fuzzer :=
  {| fuzzer_t := unit;
     aggression_t := unit;
     key := Some "hashing";
     _init_fuzzer := fun _ _ _ => (Ok tt, Some tt);
     _generate := fun w fz test redirect_page _ =>
       match TestCase.template test with
       | None =>
           (Err (OtherError "AttributeError"
                   "'NoneType' object has no attribute 'get_hash'"), fz)
       | Some tpl =>
           match Template.get_hash w tpl with
           | (Ok digest, tpl', _) =>
               let page := TestFile.__init__ (TestCase.landing_page test)
                             (match digest with Some d => d | None => "None" end) None in
               (Ok (TestCase.mk (TestCase.corpman_name test) (TestCase.landing_page test)
                      (Some tpl') (TestCase._test_files test ++ [page])%list
                      (TestCase._optional_files test)),
                fz)
           | (Err e, _, _) => (Err e, fz)
           end
       end;
     _generate_calls := fun _ _ test _ _ =>
       match TestCase.template test with
       | None => []
       | Some _ => [CallGetHash]
       end |}.

(** A subclass whose hook always raises. *)
Definition failing_fuzzer : Fuzzer :=
  {| fuzzer_t := unit;
     aggression_t := unit;
     key := Some "failing";
     _init_fuzzer := fun _ _ _ => (Ok tt, Some tt);
     _generate := fun _ fz _ _ _ => (Err (ValueError "no mutation applies"), fz);
     _generate_calls := fun _ _ _ _ _ => [] |}.

(** The template of [a.html], before any call on it. *)
Definition template_a : Template.t :=
  Template.mk None None (Some "html") "/corpus/a.html".

(** A template whose file is not in the example corpus. *)
Definition template_gone : Template.t :=
  Template.mk None None (Some "html") "/corpus/gone.html".

(** A manager of [page_fuzzer] in the middle of a run: three test cases
    generated, period [10], [a.html] active. *)
Definition mid_run : @CorpusManager.t Examples.page_fuzzer :=
  CorpusManager.mk (F := Examples.page_fuzzer) (Some template_a) "/corpus" (Some tt) 3 false 10
    ["/corpus/b.html"; "/corpus/a.html"] true.

(** The same manager at its next rotation boundary. *)
Definition at_ten : @CorpusManager.t Examples.page_fuzzer :=
  CorpusManager.mk (F := Examples.page_fuzzer) (Some template_a) "/corpus" (Some tt) 10 false 10
    ["/corpus/b.html"; "/corpus/a.html"] true.

(** A manager of [hashing_fuzzer] in the middle of a run. *)
Definition hashing_mid_run : @CorpusManager.t hashing_fuzzer :=
  CorpusManager.mk (F := hashing_fuzzer) (Some template_a) "/corpus" (Some tt) 3 false 10
    ["/corpus/b.html"; "/corpus/a.html"] true.

(** A replay manager of [failing_fuzzer]. *)
Definition failing_replay : @CorpusManager.t failing_fuzzer :=
  CorpusManager.mk (F := failing_fuzzer) None "/corpus" (Some tt) 0 true 0
    ["/corpus/b.html"; "/corpus/a.html"] true.

(** A manager of [page_fuzzer] whose transition page is switched off. *)
Definition no_transition : @CorpusManager.t Examples.page_fuzzer :=
  CorpusManager.mk (F := Examples.page_fuzzer) None "/corpus" (Some tt) 0 false 1
    ["/corpus/b.html"; "/corpus/a.html"] false.

(** A test case of two files, with and without template. *)
Definition two_files (template : option Template.t) : TestCase.t :=
  TestCase.mk (Some "page") "test_page_0000.html" template
    [TestFile.mk "transition_0000.html" "<script></script>" true;
     TestFile.mk "test_page_0000.html" "<p>hello</p>" false]
    ["test_page_0000.html"].

(** [open] that always succeeds, and [open] that refuses one path. *)
Definition opens_all : string -> option exception := fun _ => None.

Definition refuses (path : string) : string -> option exception :=
  fun p => if String.eqb p path
           then Some (IOError "[Errno 13] Permission denied")
           else None.

End Fixtures.

(** * Properties *)

(** ** The model on concrete inputs *)

Example percent_04d_5 : "test_page_%04d.html" %% [AInt 5] = Ok "test_page_0005.html".
Proof. reflexivity. Qed.

Example percent_04d_wide : "transition_%04d.html" %% [AInt 12345] = Ok "transition_12345.html".
Proof. reflexivity. Qed.

Example percent_04d_neg : "%04d" %% [AInt (-5)] = Ok "-005".
Proof. reflexivity. Qed.

Example percent_s_none : "File does not exist: %s" %% [ANone] = Ok "File does not exist: None".
Proof. reflexivity. Qed.

Example percent_missing : "%s%s" %% [AStr "a"] = Err (TypeError "not enough arguments for format string").
Proof. reflexivity. Qed.

Example splitext_tar_gz : OsPath.splitext "/c/a.tar.gz" = ("/c/a.tar", ".gz").
Proof. reflexivity. Qed.

Example splitext_hidden : OsPath.splitext "/c/.bashrc" = ("/c/.bashrc", "").
Proof. reflexivity. Qed.

Example splitext_dir_dot : OsPath.splitext "/c.d/readme" = ("/c.d/readme", "").
Proof. reflexivity. Qed.

Example lower_ini : PyStr.lower "Desktop.INI" = "desktop.ini".
Proof. reflexivity. Qed.

Example b64_foobar : Base64.standard_b64encode "foobar" = "Zm9vYmFy".
Proof. reflexivity. Qed.

Example b64_fooba : Base64.standard_b64encode "fooba" = "Zm9vYmE=".
Proof. reflexivity. Qed.

Example b64_f : Base64.standard_b64encode "f" = "Zg==".
Proof. reflexivity. Qed.

Example b64_fo : Base64.standard_b64encode "fo" = "Zm8=".
Proof. reflexivity. Qed.

Example b64_empty : Base64.standard_b64encode "" = "".
Proof. reflexivity. Qed.

Example b64_high_bytes :
  Base64.standard_b64encode (String (ascii_of_nat 251) (String (ascii_of_nat 255) ""))
  = "+/8=".
Proof. reflexivity. Qed.

Example sha1_empty : SHA1.hexdigest "" = "da39a3ee5e6b4b0d3255bfef95601890afd80709".
Proof. vm_compute. reflexivity. Qed.

Example sha1_abc : SHA1.hexdigest "abc" = "a9993e364706816aba3e25717850c26c9cd0d89d".
Proof. vm_compute. reflexivity. Qed.

Example sha1_two_blocks :
  SHA1.hexdigest "abcdbcdecdefdefgefghfghighijhijkijkljklmklmnlmnomnopnopq"
  = "84983e441c3bd26ebaae4aa1f95129e5e54670f1".
Proof. vm_compute. reflexivity. Qed.

Example scan_example :
  CorpusManager.scan_candidates Examples.corpus "/corpus" (Some ["html"])
  = ["/corpus/b.html"; "/corpus/a.html"].
Proof. reflexivity. Qed.

Example scan_unfiltered_example :
  CorpusManager.scan_candidates Examples.corpus "/corpus" None
  = ["/corpus/b.html"; "/corpus/a.html"; "/corpus/notes.txt"].
Proof. reflexivity. Qed.

Example sort_reverse_example :
  PyList.sort_reverse ["/c/b"; "/c/a"; "/c/c"; "/c/a.x"] = ["/c/c"; "/c/b"; "/c/a.x"; "/c/a"].
Proof. reflexivity. Qed.

Example base_class_generate :
  match CorpusManager.__init__ (F := base_class) "/corpus" None tt false 10 Examples.corpus with
  | (Ok self, _) =>
      fst (fst (CorpusManager.generate None Examples.corpus self))
      = Err (NotImplementedError "_generate must be implemented in the subclass")
  | _ => False
  end.
Proof. reflexivity. Qed.

Example generate_example :
  match CorpusManager.__init__ (F := Examples.page_fuzzer) "/corpus" None tt false 1 Examples.corpus with
  | (Ok self, _) =>
      match CorpusManager.generate None Examples.corpus self with
      | (Ok test, self', tr) =>
          TestCase.landing_page test = "test_page_0000.html"
          /\ map TestFile.file_name (TestCase._test_files test)
             = ["transition_0000.html"; "test_page_0000.html"]
          /\ map TestFile.data (TestCase._test_files test)
             = ["<script>window.location='test_page_0001.html';</script>";
                "<a href='transition_0000.html'>next</a>"]
          /\ CorpusManager._generated self' = 1
          /\ tr = [EvScan None; EvClearActive]
      | _ => False
      end
  | _ => False
  end.
Proof. vm_compute. repeat split. Qed.

Example scan_dangling_link :
  CorpusManager._scan_for_templates None Fixtures.dangling (Examples.manager false 1)
  = (Err (OSError "[Errno 2] No such file or directory"),
     CorpusManager.with_templates (Examples.manager false 1)
       ["/corpus/b.html"; "/corpus/a.html"; "/corpus/notes.txt"],
     [EvScan None]).
Proof. reflexivity. Qed.

Example scan_dangling_link_filtered :
  fst (fst (CorpusManager._scan_for_templates (Some ["txt"]) Fixtures.dangling
              (Examples.manager false 1)))
  = Ok tt.
Proof. reflexivity. Qed.

Example scan_outcome_dangling_link :
  CorpusManager.scan_outcome Fixtures.dangling "/corpus" None
  = (["/corpus/b.html"; "/corpus/a.html"; "/corpus/notes.txt"],
     Some (OSError "[Errno 2] No such file or directory")).
Proof. reflexivity. Qed.

Example generate_hashing_example :
  match CorpusManager.generate None Examples.corpus Fixtures.hashing_mid_run with
  | (Ok test, self', tr) =>
      map TestFile.data (TestCase._test_files test)
      = ["<script>window.location='test_page_0004.html';</script>";
         "2bae286cdf6ecbfdaaa3bd2281ec9e88498401f9"]
      /\ CorpusManager._active_template self' = TestCase.template test
      /\ option_map Template._data (CorpusManager._active_template self')
         = Some (Some "<i>one</i>")
      /\ tr = []
  | _ => False
  end.
Proof. vm_compute. repeat split. Qed.

(** ** Strings and formats *)

Lemma string_app_nil_r (s : string) : s ++ "" = s.
Proof. induction s as [|c s IH]; simpl; [reflexivity | now rewrite IH]. Qed.


Lemma percent_no_corpus (p : string) :
  "Could not find test case(s) at %s" %% [AStr p] = Ok ("Could not find test case(s) at " ++ p).
Proof.
  transitivity (Ok ("Could not find test case(s) at " ++ p ++ "")); [reflexivity|].
  now rewrite string_app_nil_r.
Qed.

Lemma percent_test_page (n : Z) : "test_page_%04d.html" %% [AInt n] = Ok (test_page n).
Proof. reflexivity. Qed.

Lemma percent_transition (n : Z) : "transition_%04d.html" %% [AInt n] = Ok (transition n).
Proof. reflexivity. Qed.

Lemma string_app_assoc (a b c : string) : (a ++ b) ++ c = a ++ b ++ c.
Proof. induction a as [|x a IH]; simpl; [reflexivity | now rewrite IH]. Qed.

Lemma percent_redirect_script (n : Z) :
  "<script>window.location='test_page_%04d.html';</script>" %% [AInt n] = Ok (redirect_script n).
Proof.
  unfold redirect_script, test_page.
  rewrite !string_app_assoc. reflexivity.
Qed.

Lemma transition_not_test_page (n m : Z) : transition n <> test_page m.
Proof. unfold transition, test_page. simpl. intro H. discriminate H. Qed.

(** ** One call of [generate], statement by statement *)

Section GenerateSteps.
Context {F : Fuzzer}.
Import CorpusManager.

Lemma with_templates_same (self : CorpusManager.t) :
  with_templates self (_templates self) = self.
Proof. destruct self; reflexivity. Qed.

Lemma with_templates_twice (self : CorpusManager.t) (a b : list string) :
  with_templates (with_templates self a) b = with_templates self b.
Proof. reflexivity. Qed.

(** The inner loop appends what [collect_filenames] says, and raises
    what it says. *)
Lemma scan_filenames_eq (exts : option (list string)) (d_name : string)
      (filenames : list string) (w : World) (self : CorpusManager.t) :
  scan_filenames exts d_name filenames w self =
  (match snd (collect_filenames w exts d_name filenames) with
   | Some e => Err e
   | None => Ok tt
   end,
   with_templates self (_templates self ++ fst (collect_filenames w exts d_name filenames)),
   []).
Proof.
  revert self. induction filenames as [|f_name filenames IH]; intros self;
    cbn [scan_filenames collect_filenames].
  - cbn [fst snd]. rewrite app_nil_r, with_templates_same. reflexivity.
  - destruct (wanted exts f_name).
    + unfold bind at 1. unfold bind at 1. unfold ask at 1. unfold bind at 1. unfold lift at 1.
      destruct (os_path_getsize w (os_path_abspath w (OsPath.join d_name f_name)))
        as [size|e].
      * destruct (0 <? size).
        -- unfold bind at 1. unfold get at 1. unfold set_templates, bind at 1, get at 1, put.
           rewrite IH. cbn [_templates with_templates].
           destruct (collect_filenames w exts d_name filenames) as [found stop].
           cbn [fst snd app]. rewrite <- app_assoc. reflexivity.
        -- unfold ret at 1. rewrite IH.
           destruct (collect_filenames w exts d_name filenames) as [found stop].
           reflexivity.
      * cbn [fst snd app]. rewrite app_nil_r, with_templates_same. reflexivity.
    + unfold bind at 1. unfold ret at 1. rewrite IH. reflexivity.
Qed.

Lemma scan_walk_eq (exts : option (list string)) (entries : list (string * list string))
      (w : World) (self : CorpusManager.t) :
  scan_walk exts entries w self =
  (match snd (collect_walk w exts entries) with
   | Some e => Err e
   | None => Ok tt
   end,
   with_templates self (_templates self ++ fst (collect_walk w exts entries)),
   []).
Proof.
  revert self. induction entries as [|entry entries IH]; intros self;
    cbn [scan_walk collect_walk].
  - cbn [fst snd]. rewrite app_nil_r, with_templates_same. reflexivity.
  - unfold bind at 1. rewrite scan_filenames_eq.
    destruct (collect_filenames w exts (fst entry) (snd entry)) as [found [e|]];
      cbn [fst snd]; [reflexivity|].
    rewrite IH. cbn [_templates with_templates].
    destruct (collect_walk w exts entries) as [found' stop]. cbn [fst snd app].
    rewrite <- app_assoc. reflexivity.
Qed.

(** A scan raises the exception of [os.path.getsize] with the pool as far
    as it was rebuilt; or it ends, and then raises [IOError] on an empty
    pool and sorts the pool in replay mode. *)
Lemma scan_for_templates_eq (exts : option (list string)) (w : World) (self : CorpusManager.t) :
  _scan_for_templates exts w self =
  match scan_error w (_corpus_path self) exts with
  | Some e =>
      (Err e, with_templates self (scan_candidates w (_corpus_path self) exts), [EvScan exts])
  | None =>
      match scan_candidates w (_corpus_path self) exts with
      | [] => (Err (no_corpus self), with_templates self [], [EvScan exts])
      | (_ :: _) as found =>
          (Ok tt,
           with_templates self (if _is_replay self then PyList.sort_reverse found else found),
           [EvScan exts])
      end
  end.
Proof.
  unfold _scan_for_templates, scan_error, scan_candidates, scan_outcome.
  unfold bind at 1. unfold emit at 1.
  unfold bind at 1. unfold set_templates at 1, bind at 1, get at 1, put at 1.
  unfold bind at 1. unfold get at 1.
  unfold bind at 1. unfold ask at 1.
  cbn [_corpus_path with_templates].
  assert (Hend : forall found,
             (self0 <- get ;;
              match _templates self0 with
              | [] =>
                  msg <- lift ("Could not find test case(s) at %s" %% [AStr (_corpus_path self0)]) ;;
                  raise (IOError msg)
              | _ :: _ =>
                  if _is_replay self0 then set_templates (PyList.sort_reverse (_templates self0))
                  else ret tt
              end) w (with_templates self found)
             = match found with
               | [] => (Err (no_corpus self), with_templates self [], [])
               | _ :: _ =>
                   (Ok tt,
                    with_templates self
                      (if _is_replay self then PyList.sort_reverse found else found),
                    [])
               end).
  { intros found. unfold bind at 1. unfold get at 1.
    cbn [_templates with_templates _corpus_path _is_replay].
    destruct found as [|x found].
    - unfold bind, lift, raise. rewrite percent_no_corpus. reflexivity.
    - destruct (_is_replay self); reflexivity. }
  unfold bind at 1.
  destruct (os_path_isdir w (_corpus_path self)).
  - rewrite scan_walk_eq. cbn [_templates with_templates app].
    destruct (collect_walk w exts (os_walk w (_corpus_path self))) as [found [e|]];
      cbn [fst snd]; [reflexivity|].
    rewrite with_templates_twice, Hend. destruct found; reflexivity.
  - destruct (os_path_isfile w (_corpus_path self)).
    + unfold bind at 1. unfold lift at 1.
      destruct (os_path_getsize w (_corpus_path self)) as [size|e]; [|reflexivity].
      destruct (0 <? size).
      * unfold bind at 1. unfold get at 1. unfold set_templates at 1.
        unfold bind at 1. unfold get at 1. unfold put at 1.
        change (_templates (with_templates self [])) with (@nil string).
        change (_corpus_path (with_templates self [])) with (_corpus_path self).
        cbn [app fst snd].
        rewrite with_templates_twice, (Hend [os_path_abspath w (_corpus_path self)]).
        reflexivity.
      * unfold ret at 1. cbn [fst snd]. rewrite (Hend []). reflexivity.
    + unfold ret at 1. cbn [fst snd]. rewrite (Hend []). reflexivity.
Qed.

Lemma rotate_templates_eq (w : World) (self : CorpusManager.t) :
  rotate_templates w self =
  if at_boundary self then
    match scan_error w (_corpus_path self) None with
    | Some e =>
        (Err e, with_templates self (scan_candidates w (_corpus_path self) None),
         [EvScan None])
    | None =>
        match scan_candidates w (_corpus_path self) None with
        | [] => (Err (no_corpus self), with_templates self [], [EvScan None])
        | (_ :: _) as found =>
            let pool := if _is_replay self then PyList.sort_reverse found else found in
            if (1 <? List.length pool)%nat
            then (Ok tt, with_active_template (with_templates self pool) None,
                  [EvScan None; EvClearActive])
            else (Ok tt, with_templates self pool, [EvScan None])
        end
    end
  else (Ok tt, self, []).
Proof.
  unfold rotate_templates, at_boundary.
  unfold bind at 1. unfold get at 1.
  destruct ((0 <? _rotate_period self) && (_generated self mod _rotate_period self =? 0));
    [|reflexivity].
  unfold bind at 1. rewrite scan_for_templates_eq.
  destruct (scan_error w (_corpus_path self) None); [reflexivity|].
  destruct (scan_candidates w (_corpus_path self) None) as [|x found]; [reflexivity|].
  unfold bind, get, set_active_template, put, emit, ret.
  cbn [_templates with_templates].
  destruct (1 <? _)%nat; reflexivity.
Qed.

Lemma choose_template_eq (w : World) (self : CorpusManager.t) :
  choose_template w self =
  if _is_replay self then
    match rev (_templates self) with
    | [] => (Err (IndexError "pop from empty list"), self, [])
    | x :: r =>
        (Ok tt, with_active_template (with_templates self (rev r)) (Some (fresh_template x)), [])
    end
  else
    match _active_template self with
    | Some _ => (Ok tt, self, [])
    | None =>
        match nth_error (_templates self) (random_draw w mod List.length (_templates self))%nat with
        | Some x => (Ok tt, with_active_template self (Some (fresh_template x)), [])
        | None => (Err (IndexError "list index out of range"), self, [])
        end
    end.
Proof.
  unfold choose_template, bind, get, lift, PyList.pop, PyList.choice.
  destruct (_is_replay self).
  - destruct (rev (_templates self)); reflexivity.
  - destruct (_active_template self); [reflexivity|].
    unfold ask. destruct (nth_error _ _); reflexivity.
Qed.

Lemma new_test_eq (w : World) (self : CorpusManager.t) :
  new_test w self = (Ok (shell_of self), self, []).
Proof.
  unfold new_test, shell_of, bind, get, lift.
  rewrite percent_test_page.
  destruct (_use_transition self).
  - rewrite percent_transition, percent_redirect_script. reflexivity.
  - rewrite percent_test_page. reflexivity.
Qed.

(** [generate] as the sequence of its statements. *)
Lemma generate_eq (mime_type : option string) (w : World) (self : CorpusManager.t) :
  generate mime_type w self =
  match rotate_templates w self with
  | (Err e, s1, t1) => (Err e, s1, t1)
  | (Ok _, s1, t1) =>
      match choose_template w s1 with
      | (Err e, s2, t2) => (Err e, s2, (t1 ++ t2)%list)
      | (Ok _, s2, t2) =>
          let s3 := after_hook w s2 (fst (shell_of s2)) (snd (shell_of s2)) mime_type in
          match fst (_generate w (_fuzzer s2) (fst (shell_of s2)) (snd (shell_of s2))
                       mime_type) with
          | Err e => (Err e, s3, (t1 ++ t2)%list)
          | Ok test => (Ok test, with_generated s3 (_generated s2 + 1), (t1 ++ t2)%list)
          end
      end
  end.
Proof.
  unfold generate. unfold bind at 1.
  destruct (rotate_templates w self) as [[[[]|e] s1] t1]; [|reflexivity].
  unfold bind at 1.
  destruct (choose_template w s1) as [[[[]|e] s2] t2]; [|reflexivity].
  unfold bind at 1. rewrite new_test_eq.
  unfold bind at 1. unfold call_generate. cbv zeta.
  destruct (fst (_generate w (_fuzzer s2) (fst (shell_of s2)) (snd (shell_of s2)) mime_type))
    as [test|e].
  - cbv [bind get set_generated put ret]. cbn [app]. rewrite ?app_nil_r. reflexivity.
  - cbn [app]. rewrite ?app_nil_r. reflexivity.
Qed.

(** The calls of a hook leave the file name and the extension of a
    template as they are. *)
Lemma do_call_file_name (c : template_call) (w : World) (tpl : Template.t) :
  Template.file_name (snd (fst (do_call c w tpl))) = Template.file_name tpl
  /\ Template.extension (snd (fst (do_call c w tpl))) = Template.extension tpl.
Proof.
  destruct c; unfold do_call, Template.get_data, Template.get_hash,
    Template._load_and_hash_data, bind, get, put, ask, emit, lift, raise, ret.
  - destruct (Template._data tpl); [split; reflexivity|].
    destruct (os_path_isfile w (Template.file_name tpl)); cbn [negb].
    + split; reflexivity.
    + destruct ("File does not exist: %s" %% [AStr (Template.file_name tpl)]);
        split; reflexivity.
  - destruct (Template._data_hash tpl); [split; reflexivity|].
    destruct (os_path_isfile w (Template.file_name tpl)); cbn [negb].
    + split; reflexivity.
    + destruct ("File does not exist: %s" %% [AStr (Template.file_name tpl)]);
        split; reflexivity.
Qed.

Lemma after_calls_file_name (w : World) (calls : list template_call) (tpl : Template.t) :
  Template.file_name (after_calls w calls tpl) = Template.file_name tpl
  /\ Template.extension (after_calls w calls tpl) = Template.extension tpl.
Proof.
  unfold after_calls. revert tpl.
  induction calls as [|c calls IH]; intros tpl; cbn [map run_calls]; [split; reflexivity|].
  pose proof (do_call_file_name c w tpl) as [H1 H2].
  destruct (do_call c w tpl) as [[r tpl1] t1]. cbn [fst snd] in H1, H2.
  specialize (IH tpl1).
  destruct (run_calls (map (pair w) calls) tpl1) as [[rs tpl2] t2]. cbn [fst snd] in *.
  destruct IH as [I1 I2]. split; congruence.
Qed.

(** The hook leaves the settings, the pool and the name of the active
    file as they are. *)
Lemma after_hook_frame (w : World) (s : CorpusManager.t) (test : TestCase.t)
      (redirect_page : string) (mime_type : option string) :
  same_settings s (after_hook w s test redirect_page mime_type)
  /\ _templates (after_hook w s test redirect_page mime_type) = _templates s
  /\ get_active_file_name (after_hook w s test redirect_page mime_type)
     = get_active_file_name s.
Proof.
  unfold after_hook, get_active_file_name.
  cbn [_active_template with_active_template with_fuzzer _templates].
  repeat split.
  destruct (_active_template s) as [tpl|]; [|reflexivity].
  cbn [option_map]. now rewrite (proj1 (after_calls_file_name _ _ _)).
Qed.

End GenerateSteps.

(** ** The data-URI helper *)

Lemma string_ind3 (P : string -> Prop) :
  P "" ->
  (forall a, P (String a "")) ->
  (forall a b, P (String a (String b ""))) ->
  (forall a b c rest, P rest -> P (String a (String b (String c rest)))) ->
  forall s, P s.
Proof.
  intros H0 H1 H2 H3 s.
  assert (H : P s /\ (forall a, P (String a s)) /\ (forall a b, P (String a (String b s)))).
  { induction s as [|c s (IH0 & IH1 & IH2)].
    - repeat split; auto.
    - repeat split; auto. }
  apply H.
Qed.

Lemma sextet_table :
  forallb (fun i => (sextet_value (Base64.sextet i) =? i)
                    && negb (Ascii.eqb (Base64.sextet i) "="))
          (map Z.of_nat (seq 0 64)) = true.
Proof. vm_compute. reflexivity. Qed.

Lemma sextet_spec (n : Z) :
  sextet_value (Base64.sextet n) = n mod 64 /\ Ascii.eqb (Base64.sextet n) "=" = false.
Proof.
  assert (Hm : Base64.sextet n = Base64.sextet (n mod 64)).
  { unfold Base64.sextet. now rewrite Z.mod_mod by lia. }
  pose proof (Z.mod_pos_bound n 64 ltac:(lia)) as Hb.
  pose proof sextet_table as Ht. rewrite forallb_forall in Ht.
  specialize (Ht (n mod 64)).
  rewrite Hm.
  assert (Hin : In (n mod 64) (map Z.of_nat (seq 0 64))).
  { apply in_map_iff. exists (Z.to_nat (n mod 64)). split; [lia|].
    apply in_seq. lia. }
  apply Ht in Hin. apply andb_true_iff in Hin. destruct Hin as [H1 H2].
  apply Z.eqb_eq in H1. apply negb_true_iff in H2. split; assumption.
Qed.

Lemma lor_shiftl_add (hi lo k : Z) :
  0 <= k -> 0 <= lo < 2 ^ k -> Z.lor (Z.shiftl hi k) lo = hi * 2 ^ k + lo.
Proof.
  intros Hk Hlo.
  assert (Hland : Z.land (Z.shiftl hi k) lo = 0).
  { apply Z.bits_inj'. intros i Hi. rewrite Z.land_spec, Z.bits_0.
    destruct (Z.lt_ge_cases i k) as [Hlt|Hge].
    - now rewrite Z.shiftl_spec_low.
    - replace (Z.testbit lo i) with false; [apply andb_false_r|]. symmetry.
      destruct (Z.eq_dec lo 0) as [->|Hne]; [apply Z.bits_0|].
      apply Z.bits_above_log2; [lia|]. apply Z.log2_lt_pow2; [lia|].
      eapply Z.lt_le_trans; [apply Hlo|]. apply Z.pow_le_mono_r; lia. }
  rewrite <- Z.shiftl_mul_pow2 by exact Hk.
  now rewrite <- Z.lxor_lor, <- Z.add_nocarry_lxor.
Qed.

Lemma byte_bound (c : ascii) : 0 <= Base64.byte c < 256.
Proof.
  unfold Base64.byte. pose proof (N_ascii_bounded c) as H. lia.
Qed.

Lemma byte_char_byte (c : ascii) (n : Z) : n mod 256 = Base64.byte c -> byte_char n = c.
Proof.
  unfold byte_char, Base64.byte. intros ->. rewrite N2Z.id. apply ascii_N_embedding.
Qed.

Lemma b64_chunk3 (a b c : ascii) (rest : string) :
  b64decode (Base64.standard_b64encode (String a (String b (String c rest))))
  = String a (String b (String c (b64decode (Base64.standard_b64encode rest)))).
Proof.
  cbn [Base64.standard_b64encode].
  pose proof (byte_bound a) as Ha. pose proof (byte_bound b) as Hb.
  pose proof (byte_bound c) as Hc.
  set (n := Z.lor (Z.lor (Z.shiftl (Base64.byte a) 16) (Z.shiftl (Base64.byte b) 8))
                  (Base64.byte c)).
  assert (Hn : n = Base64.byte a * 65536 + Base64.byte b * 256 + Base64.byte c).
  { subst n.
    replace (Z.shiftl (Base64.byte b) 8) with (Base64.byte b * 2 ^ 8)
      by (now rewrite Z.shiftl_mul_pow2).
    rewrite (lor_shiftl_add (Base64.byte a) (lo := Base64.byte b * 2 ^ 8) (k := 16)) by lia.
    replace (Base64.byte a * 2 ^ 16 + Base64.byte b * 2 ^ 8)
      with (Z.shiftl (Base64.byte a * 2 ^ 8 + Base64.byte b) 8)
      by (rewrite Z.shiftl_mul_pow2; lia).
    rewrite (lor_shiftl_add _ (lo := Base64.byte c) (k := 8)) by lia. lia. }
  cbn [b64decode].
  destruct (sextet_spec (Z.shiftr n 18)) as [V1 E1].
  destruct (sextet_spec (Z.shiftr n 12)) as [V2 E2].
  destruct (sextet_spec (Z.shiftr n 6)) as [V3 E3].
  destruct (sextet_spec n) as [V4 E4].
  rewrite E3, E4, V1, V2, V3, V4, !Z.shiftr_div_pow2 by lia.
  assert (Hval : (n / 2 ^ 18) mod 64 * 262144 + (n / 2 ^ 12) mod 64 * 4096
                 + (n / 2 ^ 6) mod 64 * 64 + n mod 64 = n).
  { change (2 ^ 18) with 262144. change (2 ^ 12) with 4096. change (2 ^ 6) with 64.
    assert (0 <= n < 16777216) by lia. clear Hn.
    Z.to_euclidean_division_equations. lia. }
  rewrite Hval.
  f_equal; [apply byte_char_byte|f_equal; [apply byte_char_byte|f_equal; apply byte_char_byte]].
  all: rewrite Hn; Z.to_euclidean_division_equations; lia.
Qed.

Lemma b64_chunk1 (a : ascii) :
  b64decode (Base64.standard_b64encode (String a "")) = String a "".
Proof.
  cbn [Base64.standard_b64encode b64decode].
  pose proof (byte_bound a) as Ha.
  set (n := Z.shiftl (Base64.byte a) 16).
  assert (Hn : n = Base64.byte a * 65536) by (subst n; now rewrite Z.shiftl_mul_pow2).
  destruct (sextet_spec (Z.shiftr n 18)) as [V1 _].
  destruct (sextet_spec (Z.shiftr n 12)) as [V2 _].
  rewrite V1, V2, !Z.shiftr_div_pow2 by lia. cbn [Ascii.eqb Bool.eqb].
  f_equal. apply byte_char_byte.
  change (2 ^ 18) with 262144. change (2 ^ 12) with 4096.
  rewrite Hn. Z.to_euclidean_division_equations. lia.
Qed.

Lemma b64_chunk2 (a b : ascii) :
  b64decode (Base64.standard_b64encode (String a (String b "")))
  = String a (String b "").
Proof.
  cbn [Base64.standard_b64encode b64decode].
  pose proof (byte_bound a) as Ha. pose proof (byte_bound b) as Hb.
  set (n := Z.lor (Z.shiftl (Base64.byte a) 16) (Z.shiftl (Base64.byte b) 8)).
  assert (Hn : n = Base64.byte a * 65536 + Base64.byte b * 256).
  { subst n.
    replace (Z.shiftl (Base64.byte b) 8) with (Base64.byte b * 2 ^ 8)
      by (now rewrite Z.shiftl_mul_pow2).
    rewrite (lor_shiftl_add (Base64.byte a) (lo := Base64.byte b * 2 ^ 8) (k := 16)) by lia.
    lia. }
  destruct (sextet_spec (Z.shiftr n 18)) as [V1 _].
  destruct (sextet_spec (Z.shiftr n 12)) as [V2 _].
  destruct (sextet_spec (Z.shiftr n 6)) as [V3 E3].
  rewrite E3, V1, V2, V3, !Z.shiftr_div_pow2 by lia. cbn [Ascii.eqb Bool.eqb].
  change (2 ^ 18) with 262144. change (2 ^ 12) with 4096. change (2 ^ 6) with 64.
  f_equal; [apply byte_char_byte | f_equal; apply byte_char_byte].
  all: rewrite Hn; Z.to_euclidean_division_equations; lia.
Qed.

(** Decoding what [standard_b64encode] gives returns the data. *)
Lemma b64decode_encode (data : string) :
  b64decode (Base64.standard_b64encode data) = data.
Proof.
  induction data as [| a | a b | a b c rest IH] using string_ind3.
  - reflexivity.
  - apply b64_chunk1.
  - apply b64_chunk2.
  - now rewrite b64_chunk3, IH.
Qed.

Lemma percent_data_url (m b : string) :
  "data:%s;base64,%s" %% [AStr m; AStr b] = Ok ("data:" ++ m ++ ";base64," ++ b).
Proof.
  transitivity (Ok ("data:" ++ m ++ ";base64," ++ b ++ "")); [reflexivity|].
  now rewrite string_app_nil_r.
Qed.

(** C7.  [to_data_url] reads no state and nothing of the environment;
    for every byte string and every mime type it returns the text
    "data:" + mime type + ";base64," + payload, with
    "application/octet-stream" for the mime type when none is given.  The
    payload is the base64 text of the data: decoding it gives the data
    back, and on the test vectors of RFC 4648 it is the text the RFC
    gives. *)
Theorem to_data_url_spec (data mime_type : string) :
  CorpusManager.to_data_url data (Some mime_type)
  = Ok ("data:" ++ mime_type ++ ";base64," ++ Base64.standard_b64encode data)
  /\ CorpusManager.to_data_url data None
     = Ok ("data:" ++ "application/octet-stream" ++ ";base64,"
           ++ Base64.standard_b64encode data)
  /\ b64decode (Base64.standard_b64encode data) = data
  /\ map Base64.standard_b64encode [""; "f"; "fo"; "foo"; "foob"; "fooba"; "foobar"]
     = [""; "Zg=="; "Zm8="; "Zm9v"; "Zm9vYg=="; "Zm9vYmE="; "Zm9vYmFy"]
  /\ CorpusManager.to_data_url "foobar" (Some "text/plain")
     = Ok "data:text/plain;base64,Zm9vYmFy".
Proof.
  unfold CorpusManager.to_data_url. rewrite !percent_data_url.
  split; [reflexivity|]. split; [reflexivity|].
  split; [apply b64decode_encode|]. split; reflexivity.
Qed.

(** C7 at the bytes "foobar": the URL, and its payload read back. *)
Lemma to_data_url_spec_witness :
  CorpusManager.to_data_url "foobar" (Some "text/plain") = Ok "data:text/plain;base64,Zm9vYmFy"
  /\ b64decode "Zm9vYmFy" = "foobar".
Proof.
  destruct (to_data_url_spec "foobar" "text/plain") as (Hurl & _ & Hback & _).
  split; [exact Hurl | exact Hback].
Defined.

Example to_data_url_foobar :
  CorpusManager.to_data_url "foobar" (Some "text/plain") = Ok "data:text/plain;base64,Zm9vYmFy".
Proof. reflexivity. Qed.

(** ** Construction of a template *)

(** C5, as the code has it.  With [None] for the path the constructor
    raises [IOError] and does nothing else; an empty path is accepted, also
    without touching a file. *)
Theorem Template_init_null_path (St : Type) (w : World) (s : St) :
  Template.__init__ None w s = (Err (IOError "File does not exist: None"), s, [])
  /\ Template.__init__ (Some "") w s = (Ok (Template.mk None None None ""), s, []).
Proof. split; reflexivity. Qed.

(** C5, as the claim has it, fails for the empty path: the constructor
    returns a template. *)
Lemma Template_init_empty_path_accepted :
  Template.__init__ (Some "") Examples.corpus tt = (Ok (Template.mk None None None ""), tt, [])
  /\ ~ (exists e, fst (fst (Template.__init__ (Some "") Examples.corpus tt)) = Err e).
Proof.
  split; [reflexivity|].
  intros [e H]. discriminate H.
Qed.

(** ** Adding files to a test case *)

Lemma add_testfile_eq (f : TestFile.t) (w : World) (self : TestCase.t) :
  TestCase.add_testfile (PyTestFile f) w self
  = (Ok tt,
     TestCase.mk (TestCase.corpman_name self) (TestCase.landing_page self)
       (TestCase.template self) (TestCase._test_files self ++ [f])%list
       (TestCase._optional_files self
        ++ (if TestFile.required f then [] else [TestFile.file_name f]))%list,
     []).
Proof.
  unfold TestCase.add_testfile, bind, get, put, ret.
  destruct (TestFile.required f); cbn; [rewrite app_nil_r|]; reflexivity.
Qed.

Lemma add_all_eq (w : World) (fs : list TestFile.t) (self : TestCase.t) :
  add_all (map PyTestFile fs) w self
  = (Ok tt,
     TestCase.mk (TestCase.corpman_name self) (TestCase.landing_page self)
       (TestCase.template self) (TestCase._test_files self ++ fs)%list
       (TestCase._optional_files self ++ optional_names fs)%list,
     []).
Proof.
  revert self. induction fs as [|f fs IH]; intros self; cbn [add_all map].
  - unfold ret. rewrite !app_nil_r. destruct self; reflexivity.
  - unfold bind. rewrite add_testfile_eq, IH.
    cbn [TestCase.corpman_name TestCase.landing_page TestCase.template
         TestCase._test_files TestCase._optional_files].
    rewrite <- !app_assoc.
    replace (optional_names (f :: fs))
      with ((if TestFile.required f then [] else [TestFile.file_name f])
            ++ optional_names fs)%list
      by (unfold optional_names; simpl; destruct (TestFile.required f); reflexivity).
    reflexivity.
Qed.

(** C8, as the code has it.  [add_testfile] raises [TypeError] exactly
    for an argument that is not a [TestFile].  For a [TestFile] it appends
    the file to the test files and, when the file is not required, its
    name to the optional names; so the name is in the list
    [get_optional()] returns exactly when the file is not required or the
    name was among the optional names before.  For a test case built by
    adding files to a new one, [get_optional()] is [None] exactly when
    every file added was required, and otherwise the names of the files
    that were not, in order. *)
Theorem add_testfile_spec (w : World) :
  (forall (v : pyobject) (self : TestCase.t),
      ((exists msg, fst (fst (TestCase.add_testfile v w self)) = Err (TypeError msg))
       <-> (forall f, v <> PyTestFile f))
      /\ (forall f, v = PyTestFile f ->
            exists self',
              TestCase.add_testfile v w self = (Ok tt, self', [])
              /\ TestCase._test_files self' = (TestCase._test_files self ++ [f])%list
              /\ TestCase._optional_files self'
                 = (TestCase._optional_files self
                    ++ (if TestFile.required f then [] else [TestFile.file_name f]))%list
              /\ ((exists names, TestCase.get_optional self' = Some names
                                 /\ In (TestFile.file_name f) names)
                  <-> TestFile.required f = false
                      \/ In (TestFile.file_name f) (TestCase._optional_files self))))
  /\ (forall (fs : list TestFile.t) landing_page corpman_name template,
        exists self',
          add_all (map PyTestFile fs) w (TestCase.__init__ landing_page corpman_name template)
          = (Ok tt, self', [])
          /\ TestCase._test_files self' = fs
          /\ (TestCase.get_optional self' = None
              <-> forallb TestFile.required fs = true)
          /\ (forall names, TestCase.get_optional self' = Some names ->
                            names = optional_names fs)).
Proof.
  split.
  - intros v self. split.
    + split.
      * intros [msg H] f ->. rewrite add_testfile_eq in H. discriminate H.
      * intros H. destruct v; try (eexists; reflexivity).
        exfalso. apply (H o). reflexivity.
    + intros f ->. rewrite add_testfile_eq. eexists. split; [reflexivity|].
      split; [reflexivity|]. split; [reflexivity|].
      unfold TestCase.get_optional. cbn [TestCase._optional_files].
      destruct (TestFile.required f) eqn:Hreq.
      * rewrite app_nil_r. split.
        -- intros [names [Hn Hin]]. right.
           destruct (TestCase._optional_files self) eqn:Ho; [discriminate|].
           injection Hn as <-. exact Hin.
        -- intros [H|Hin]; [discriminate|].
           destruct (TestCase._optional_files self) eqn:Ho; [destruct Hin|].
           eexists. split; [reflexivity | exact Hin].
      * split; [left; reflexivity|]. intros _.
        destruct (TestCase._optional_files self ++ [TestFile.file_name f])%list eqn:Ho.
        -- destruct (TestCase._optional_files self); discriminate.
        -- eexists. split; [reflexivity|]. rewrite <- Ho.
           apply in_or_app. right. left. reflexivity.
  - intros fs lp cn tpl. rewrite add_all_eq. eexists. split; [reflexivity|].
    cbn [TestCase._test_files TestCase._optional_files TestCase.__init__ app].
    split; [reflexivity|].
    unfold TestCase.get_optional. cbn [TestCase._optional_files].
    assert (Hall : optional_names fs = [] <-> forallb TestFile.required fs = true).
    { unfold optional_names. induction fs as [|f fs IH]; simpl.
      - split; reflexivity.
      - destruct (TestFile.required f); simpl; [exact IH|].
        split; discriminate. }
    destruct (optional_names fs) eqn:Ho.
    + split; [|intros names Hn; discriminate].
      split; [intros _; now apply Hall | reflexivity].
    + split.
      * split; [discriminate|]. intros H. apply Hall in H. discriminate H.
      * intros names Hn. now injection Hn as <-.
Qed.

(** C8, as the claim has it, fails when a name comes twice: after an
    optional and then a required file named "a.bin" are added to a new
    test case, the name of the required file is in the list
    [get_optional()] returns. *)
Lemma add_testfile_required_name_listed :
  let optional := TestFile.mk "a.bin" "first" false in
  let required := TestFile.mk "a.bin" "second" true in
  exists self',
    add_all [PyTestFile optional; PyTestFile required] Examples.corpus
      (TestCase.__init__ "test_page_0000.html" None None)
    = (Ok tt, self', [])
    /\ TestCase._test_files self' = [optional; required]
    /\ TestCase.get_optional self' = Some ["a.bin"]
    /\ ~ ((exists names, TestCase.get_optional self' = Some names
                         /\ In (TestFile.file_name required) names)
          <-> TestFile.required required = false).
Proof.
  intros optional required. eexists. split; [reflexivity|].
  split; [reflexivity|]. split; [reflexivity|].
  intros [H _]. assert (Hreq : TestFile.required required = false).
  { apply H. exists ["a.bin"]. split; [reflexivity | now left]. }
  discriminate Hreq.
Qed.

(** C8 at a test case that holds one optional file, to which a required
    file of another name, an optional file, and a required file of the
    same name are added. *)
Lemma add_testfile_spec_witness :
  let self := TestCase.mk None "test_page_0000.html" None
                [TestFile.mk "a.bin" "a" false] ["a.bin"] in
  (exists self',
      TestCase.add_testfile (PyTestFile (TestFile.mk "b.bin" "b" true)) Examples.corpus self
      = (Ok tt, self', [])
      /\ TestCase.get_optional self' = Some ["a.bin"])
  /\ (exists names,
         TestCase.get_optional
           (snd (fst (TestCase.add_testfile (PyTestFile (TestFile.mk "c.bin" "c" false))
                        Examples.corpus self)))
         = Some names /\ In "c.bin" names)
  /\ (exists names,
         TestCase.get_optional
           (snd (fst (TestCase.add_testfile (PyTestFile (TestFile.mk "a.bin" "again" true))
                        Examples.corpus self)))
         = Some names /\ In "a.bin" names).
Proof.
  intros self.
  destruct (add_testfile_spec Examples.corpus) as [Hadd _].
  split; [|split].
  - destruct (Hadd (PyTestFile (TestFile.mk "b.bin" "b" true)) self) as [_ H].
    destruct (H _ eq_refl) as [self' [Heq _]].
    exists self'. split; [exact Heq|].
    vm_compute in Heq. injection Heq as <-. reflexivity.
  - destruct (Hadd (PyTestFile (TestFile.mk "c.bin" "c" false)) self) as [_ H].
    destruct (H _ eq_refl) as [self' [Heq [_ [_ Hopt]]]].
    rewrite Heq. cbn [fst snd].
    apply Hopt. left. reflexivity.
  - destruct (Hadd (PyTestFile (TestFile.mk "a.bin" "again" true)) self) as [_ H].
    destruct (H _ eq_refl) as [self' [Heq [_ [_ Hopt]]]].
    rewrite Heq. cbn [fst snd].
    apply Hopt. right. left. reflexivity.
Defined.

(** ** What one call of [generate] changes *)

Section GenerateCall.
Context {F : Fuzzer}.
Import CorpusManager.

Lemma same_settings_refl (s : CorpusManager.t) : same_settings s s.
Proof. repeat split. Qed.

Lemma same_settings_trans (s1 s2 s3 : CorpusManager.t) :
  same_settings s1 s2 -> same_settings s2 s3 -> same_settings s1 s3.
Proof.
  unfold same_settings. intros (A1 & A2 & A3 & A4 & A5) (B1 & B2 & B3 & B4 & B5).
  repeat split; congruence.
Qed.

Lemma rotate_templates_settings (w : World) (s : CorpusManager.t) :
  same_settings s (snd (fst (rotate_templates w s))).
Proof.
  rewrite rotate_templates_eq.
  destruct (at_boundary s); [|apply same_settings_refl].
  destruct (scan_error w (_corpus_path s) None); [repeat split|].
  destruct (scan_candidates w (_corpus_path s) None); [repeat split|].
  cbv zeta. destruct (1 <? _)%nat; repeat split.
Qed.

Lemma choose_template_settings (w : World) (s : CorpusManager.t) :
  same_settings s (snd (fst (choose_template w s))).
Proof.
  rewrite choose_template_eq.
  destruct (_is_replay s).
  - destruct (rev (_templates s)); repeat split.
  - destruct (_active_template s); [repeat split|].
    destruct (nth_error _ _); repeat split.
Qed.

(** C3.  With the transition page on and a hook that only adds files, a
    call of [generate] at counter [n] that returns gives a test case whose
    landing page is "test_page_%04d.html" for [n], and which holds a
    required file named "transition_%04d.html" for [n], another name than
    the landing page, whose script goes to "test_page_%04d.html" for
    [n + 1]; that is the landing page of the manager after the call. *)
Theorem generate_transition_page (mime_type : option string) (w : World)
        (self self' : CorpusManager.t) (test : TestCase.t) (tr : list event) :
  _use_transition self = true ->
  hook_appends ->
  generate mime_type w self = (Ok test, self', tr) ->
  Ok (TestCase.landing_page test) = "test_page_%04d.html" %% [AInt (_generated self)]
  /\ exists rd_file target,
      In rd_file (TestCase._test_files test)
      /\ Ok (TestFile.file_name rd_file) = "transition_%04d.html" %% [AInt (_generated self)]
      /\ TestFile.required rd_file = true
      /\ TestFile.file_name rd_file <> TestCase.landing_page test
      /\ Ok target = "test_page_%04d.html" %% [AInt (_generated self + 1)]
      /\ TestFile.data rd_file = "<script>window.location='" ++ target ++ "';</script>"
      /\ CorpusManager.landing_page self' = Ok target.
Proof.
  intros Htrans Hhook Hgen. rewrite generate_eq in Hgen.
  pose proof (rotate_templates_settings w self) as Hr.
  destruct (rotate_templates w self) as [[[[]|e1] s1] t1]; [|discriminate].
  pose proof (choose_template_settings w s1) as Hc.
  destruct (choose_template w s1) as [[[[]|e2] s2] t2]; [|discriminate].
  cbn [fst snd] in Hr, Hc.
  destruct (same_settings_trans Hr Hc) as (_ & Hn & _ & _ & Hu).
  cbv zeta in Hgen.
  destruct (_generate w (_fuzzer s2) (fst (shell_of s2)) (snd (shell_of s2)) mime_type)
    as [[test'|e3] fz] eqn:Hh; cbn [fst] in Hgen; [|discriminate].
  injection Hgen as <- <- <-.
  apply Hhook in Hh. destruct Hh as [Hlp [added Hfiles]].
  unfold shell_of in Hlp, Hfiles. rewrite Hu, Htrans, Hn in Hlp, Hfiles.
  cbn [fst TestCase.landing_page TestCase._test_files] in Hlp, Hfiles.
  rewrite percent_test_page, percent_transition, percent_test_page, Hlp.
  split; [reflexivity|].
  exists (TestFile.mk (transition (_generated self)) (redirect_script (_generated self + 1)) true).
  exists (test_page (_generated self + 1)).
  repeat split.
  - rewrite Hfiles. left. reflexivity.
  - apply transition_not_test_page.
  - unfold CorpusManager.landing_page.
    cbn [_generated with_generated]. rewrite Hn. apply percent_test_page.
Qed.

(** C4.  A call of [generate] that returns has added one to the counter,
    and the hook had returned, called while the counter still had its old
    value.  A call that raises leaves the counter as it was, and raises
    the very exception of the statement that failed: the rescan, the
    choice of a template, or the hook. *)
Theorem generate_counter (mime_type : option string) (w : World) (self : CorpusManager.t) :
  match generate mime_type w self with
  | (Ok test, self', _) =>
      _generated self' = _generated self + 1
      /\ exists s2,
          _generated s2 = _generated self
          /\ fst (_generate w (_fuzzer s2) (fst (shell_of s2)) (snd (shell_of s2)) mime_type)
             = Ok test
  | (Err e, self', _) =>
      _generated self' = _generated self
      /\ (fst (fst (rotate_templates w self)) = Err e
          \/ (exists s1 t1,
                 rotate_templates w self = (Ok tt, s1, t1)
                 /\ fst (fst (choose_template w s1)) = Err e)
          \/ (exists s1 t1 s2 t2,
                 rotate_templates w self = (Ok tt, s1, t1)
                 /\ choose_template w s1 = (Ok tt, s2, t2)
                 /\ _generated s2 = _generated self
                 /\ fst (_generate w (_fuzzer s2) (fst (shell_of s2)) (snd (shell_of s2))
                           mime_type) = Err e))
  end.
Proof.
  rewrite generate_eq.
  pose proof (rotate_templates_settings w self) as Hr.
  destruct (rotate_templates w self) as [[[[]|e1] s1] t1] eqn:Hrot.
  2:{ destruct Hr as (_ & Hn & _). split; [exact Hn | left; reflexivity]. }
  pose proof (choose_template_settings w s1) as Hc.
  destruct (choose_template w s1) as [[[[]|e2] s2] t2] eqn:Hch.
  2:{ destruct (same_settings_trans Hr Hc) as (_ & Hn & _).
      split; [exact Hn|]. right. left. exists s1, t1.
      split; [reflexivity | now rewrite Hch]. }
  destruct (same_settings_trans Hr Hc) as (_ & Hn & _). cbn [fst snd] in Hn.
  cbv zeta.
  destruct (_generate w (_fuzzer s2) (fst (shell_of s2)) (snd (shell_of s2)) mime_type)
    as [[test'|e3] fz] eqn:Hh; cbn [fst].
  - split.
    + cbn [_generated with_generated]. now rewrite Hn.
    + exists s2. split; [exact Hn|]. now rewrite Hh.
  - split; [exact Hn|]. right. right. exists s1, t1, s2, t2.
    repeat split; try assumption. now rewrite Hh.
Qed.

Lemma choose_template_trace (w : World) (s : CorpusManager.t) :
  snd (choose_template w s) = [].
Proof.
  rewrite choose_template_eq.
  destruct (_is_replay s).
  - destruct (rev (_templates s)); reflexivity.
  - destruct (_active_template s); [reflexivity|].
    destruct (nth_error _ _); reflexivity.
Qed.

(** The trace of a call is the trace of its first statement. *)
Lemma generate_trace (mime_type : option string) (w : World) (s : CorpusManager.t) :
  snd (generate mime_type w s) = snd (rotate_templates w s).
Proof.
  rewrite generate_eq.
  destruct (rotate_templates w s) as [[[[]|e1] s1] t1]; [|reflexivity].
  pose proof (choose_template_trace w s1) as Hc.
  destruct (choose_template w s1) as [[[[]|e2] s2] t2]; cbn [snd] in Hc; subst t2.
  - cbv zeta. destruct (fst (_generate _ _ _ _ _)) as [test|e3]; cbn [snd]; apply app_nil_r.
  - cbn [snd]. apply app_nil_r.
Qed.

(** C2.  In a manager that is not in replay mode and has a rotation
    period [P > 0], a call of [generate] rescans (once, and with no
    extension filter) exactly when the counter is a multiple of [P].  It
    clears the active template exactly when it rescans, the rescan returns,
    and the pool it leaves holds more than one candidate; with one
    candidate it never clears.  A rescan that raises (the pool empty, or
    [os.path.getsize] failing on a name) ends the call with that exception
    and with the pool as far as it was rebuilt, before the test on the
    length of the pool: nothing is cleared, however many candidates the
    pool holds by then.  After the first statement of the call the active
    template is [None] if it was cleared and what it was before
    otherwise. *)
Theorem rotation_rescan_and_clear (mime_type : option string) (w : World)
        (self : CorpusManager.t) :
  _is_replay self = false ->
  0 < _rotate_period self ->
  let rescan := _scan_for_templates None w self in
  let pool := _templates (snd (fst rescan)) in
  let tr := snd (generate mime_type w self) in
  filter is_scan tr
  = (if _generated self mod _rotate_period self =? 0 then [EvScan None] else [])
  /\ (In EvClearActive tr
      <-> _generated self mod _rotate_period self = 0
          /\ fst (fst rescan) = Ok tt
          /\ (1 < List.length pool)%nat)
  /\ (List.length pool = 1%nat -> ~ In EvClearActive tr)
  /\ (forall e,
        _generated self mod _rotate_period self = 0 ->
        fst (fst rescan) = Err e ->
        fst (fst (generate mime_type w self)) = Err e
        /\ ~ In EvClearActive tr
        /\ _templates (snd (fst (generate mime_type w self))) = pool
        /\ _active_template (snd (fst (generate mime_type w self))) = _active_template self)
  /\ (In EvClearActive tr ->
      _active_template (snd (fst (rotate_templates w self))) = None)
  /\ (~ In EvClearActive tr ->
      _active_template (snd (fst (rotate_templates w self))) = _active_template self).
Proof.
  intros Hfresh HP rescan pool tr. subst tr pool rescan.
  rewrite generate_trace, generate_eq.
  rewrite rotate_templates_eq, scan_for_templates_eq. unfold at_boundary.
  apply Z.ltb_lt in HP. rewrite HP, Hfresh. cbn [andb].
  destruct (_generated self mod _rotate_period self =? 0) eqn:Hmod.
  - apply Z.eqb_eq in Hmod.
    destruct (scan_error w (_corpus_path self) None) as [e|].
    + cbn [fst snd filter is_scan In _templates with_templates _active_template].
      intuition (try discriminate; try congruence).
    + destruct (scan_candidates w (_corpus_path self) None) as [|x found'].
      * cbn [fst snd filter is_scan In _templates with_templates _active_template length].
        intuition (try discriminate; try congruence; try lia).
      * cbv zeta. cbn [fst snd _templates with_templates].
        destruct (1 <? List.length (x :: found'))%nat eqn:Hlen.
        -- apply Nat.ltb_lt in Hlen. cbn [snd fst filter is_scan In].
           intuition (try discriminate; try congruence; try lia).
        -- apply Nat.ltb_ge in Hlen. cbn [snd fst filter is_scan In].
           intuition (try discriminate; try congruence; try lia).
  - apply Z.eqb_neq in Hmod. cbn [fst snd filter is_scan In].
    intuition (try discriminate; try congruence; try lia).
Qed.

End GenerateCall.

(** ** Sorting *)

Section SortFacts.
Variable A : Type.
Variable leb : A -> A -> bool.
Hypothesis leb_total : forall a b, leb a b = true \/ leb b a = true.
Hypothesis leb_trans : forall a b c, leb a b = true -> leb b c = true -> leb a c = true.

Lemma insert_perm (x : A) (l : list A) : Permutation (PyList.insert leb x l) (x :: l).
Proof.
  induction l as [|y l IH]; simpl; [apply Permutation_refl|].
  destruct (leb x y); [apply Permutation_refl|].
  eapply perm_trans; [apply perm_skip, IH | apply perm_swap].
Qed.

Lemma sort_by_perm (l : list A) : Permutation (PyList.sort_by leb l) l.
Proof.
  induction l as [|x l IH]; simpl; [constructor|].
  eapply perm_trans; [apply insert_perm | apply perm_skip, IH].
Qed.

Lemma insert_sorted (x : A) (l : list A) :
  StronglySorted (fun a b => leb a b = true) l -> StronglySorted (fun a b => leb a b = true) (PyList.insert leb x l).
Proof.
  induction 1 as [|y l Hs IH Hall]; simpl.
  - repeat constructor.
  - destruct (leb x y) eqn:Hxy.
    + constructor; [constructor; assumption|].
      constructor; [exact Hxy|].
      eapply Forall_impl; [|exact Hall]. intros z Hz. exact (leb_trans Hxy Hz).
    + constructor; [exact IH|].
      eapply Permutation_Forall; [apply Permutation_sym, insert_perm|].
      constructor; [|exact Hall].
      destruct (leb_total x y) as [H|H]; [congruence | exact H].
Qed.

Lemma sort_by_sorted (l : list A) : StronglySorted (fun a b => leb a b = true) (PyList.sort_by leb l).
Proof.
  induction l as [|x l IH]; simpl; [constructor | now apply insert_sorted].
Qed.
End SortFacts.

Section SortedUnique.
Variable A : Type.
Variable R : A -> A -> Prop.
Hypothesis R_antisym : forall a b, R a b -> R b a -> a = b.

(** Two sorted lists with the same elements are the same list. *)
Lemma sorted_perm_unique (l1 l2 : list A) :
  StronglySorted R l1 -> StronglySorted R l2 -> Permutation l1 l2 -> l1 = l2.
Proof.
  intros H1. revert l2. induction H1 as [|a l1 Hs1 IH Ha]; intros l2 H2 Hp.
  - apply Permutation_nil in Hp. now subst.
  - destruct H2 as [|b l2 Hs2 Hb].
    + apply Permutation_sym, Permutation_nil in Hp. discriminate Hp.
    + assert (Hab : a = b).
      { assert (Hin1 : In a (b :: l2))
          by (eapply Permutation_in; [exact Hp | now left]).
        assert (Hin2 : In b (a :: l1))
          by (eapply Permutation_in; [apply Permutation_sym, Hp | now left]).
        destruct Hin1 as [->|Hin1]; [reflexivity|].
        destruct Hin2 as [->|Hin2]; [reflexivity|].
        rewrite Forall_forall in Ha, Hb.
        apply R_antisym; [apply Ha, Hin2 | apply Hb, Hin1]. }
      subst b. f_equal. apply IH; [exact Hs2|].
      eapply Permutation_cons_inv, Hp.
Qed.

Lemma sorted_app (l1 l2 : list A) :
  StronglySorted R l1 -> StronglySorted R l2 ->
  (forall x y, In x l1 -> In y l2 -> R x y) ->
  StronglySorted R (l1 ++ l2).
Proof.
  induction 1 as [|a l1 Hs IH Ha]; intros H2 Hcross; simpl; [exact H2|].
  constructor.
  - apply IH; [exact H2|]. intros x y Hx Hy. apply Hcross; [now right | exact Hy].
  - apply Forall_app. split; [exact Ha|].
    apply Forall_forall. intros y Hy. apply Hcross; [now left | exact Hy].
Qed.
End SortedUnique.

Lemma sorted_rev (A : Type) (R : A -> A -> Prop) (l : list A) :
  StronglySorted R l -> StronglySorted (fun a b => R b a) (rev l).
Proof.
  induction 1 as [|a l Hs IH Ha]; simpl; [constructor|].
  apply sorted_app; [exact IH | repeat constructor|].
  intros x y Hx [<-|[]]. apply in_rev in Hx.
  rewrite Forall_forall in Ha. now apply Ha.
Qed.

(** The byte order of strings. *)
Lemma ascii_compare_refl (a : ascii) : Ascii.compare a a = Eq.
Proof. unfold Ascii.compare. apply N.compare_refl. Qed.

Lemma string_compare_le_trans (a b c : string) :
  String.compare a b <> Gt -> String.compare b c <> Gt -> String.compare a c <> Gt.
Proof.
  revert b c. induction a as [|x a IH]; intros [|y b] [|z c]; simpl;
    try congruence.
  destruct (Ascii.compare x y) eqn:Hxy; [| |congruence].
  - apply Ascii.compare_eq_iff in Hxy. subst y.
    destruct (Ascii.compare x z) eqn:Hxz; [apply IH | congruence | congruence].
  - destruct (Ascii.compare y z) eqn:Hyz; [| |congruence].
    + apply Ascii.compare_eq_iff in Hyz. subst z. rewrite Hxy. congruence.
    + unfold Ascii.compare in *. rewrite N.compare_lt_iff in Hxy, Hyz.
      assert (H : (N_of_ascii x ?= N_of_ascii z)%N = Lt)
        by (apply N.compare_lt_iff; lia).
      rewrite H. congruence.
Qed.

Lemma string_leb_trans (a b c : string) :
  String.leb a b = true -> String.leb b c = true -> String.leb a c = true.
Proof.
  unfold String.leb. intros Hab Hbc.
  pose proof (@string_compare_le_trans a b c) as H.
  destruct (String.compare a b), (String.compare b c), (String.compare a c);
    try reflexivity; try discriminate; exfalso; apply H; congruence.
Qed.

Lemma ascending_sorted_sorted (paths : list string) :
  StronglySorted (fun a b => String.leb a b = true) (ascending_sorted paths).
Proof. apply sort_by_sorted; [apply String.leb_total | apply string_leb_trans]. Qed.

Lemma ascending_sorted_perm (paths : list string) :
  Permutation (ascending_sorted paths) paths.
Proof. apply sort_by_perm. Qed.

Lemma sort_reverse_nonempty (x : string) (l : list string) :
  PyList.sort_reverse (x :: l) <> [].
Proof.
  intros Hnil.
  pose proof (Permutation_length (sort_by_perm (fun a b => String.leb b a) (x :: l))) as Hlen.
  unfold PyList.sort_reverse in Hnil. rewrite Hnil in Hlen. discriminate Hlen.
Qed.

(** Taking a list sorted with [reverse=True] from its end gives the
    ascending order. *)
Lemma rev_sort_reverse (paths : list string) :
  rev (PyList.sort_reverse paths) = ascending_sorted paths.
Proof.
  apply sorted_perm_unique with (R := fun a b => String.leb a b = true).
  - intros a b. apply String.leb_antisym.
  - apply (@sorted_rev string (fun a b => String.leb b a = true)).
    apply (@sort_by_sorted string (fun a b => String.leb b a)).
    + intros a b. destruct (String.leb_total a b); tauto.
    + intros a b c Hab Hbc. exact (string_leb_trans _ _ _ Hbc Hab).
  - apply ascending_sorted_sorted.
  - eapply perm_trans; [apply Permutation_sym, Permutation_rev|].
    eapply perm_trans; [apply sort_by_perm|].
    apply Permutation_sym, ascending_sorted_perm.
Qed.

(** ** Construction of a manager, and sequences of calls *)

Section Runs.
Context {F : Fuzzer}.
Import CorpusManager.

Lemma init_eq (path : string) (exts : option (list string)) (aggression : aggression_t)
      (is_replay : bool) (rotate : Z) (w : World) :
  __init__ path exts aggression is_replay rotate w =
  match _init_fuzzer aggression w None with
  | (Err e, _) => (Err e, [])
  | (Ok _, fz) =>
      match scan_error w path exts with
      | Some e => (Err e, [EvScan exts])
      | None =>
          match scan_candidates w path exts with
          | [] => (Err (IOError ("Could not find test case(s) at " ++ path)), [EvScan exts])
          | (_ :: _) as found =>
              (Ok (mk None path fz 0 is_replay (if is_replay then 0 else rotate)
                      (if is_replay then PyList.sort_reverse found else found) true),
               [EvScan exts])
          end
      end
  end.
Proof.
  unfold __init__, bind, call_init_fuzzer. cbn [_fuzzer].
  destruct (_init_fuzzer aggression w None) as [[[]|e] fz]; [|reflexivity].
  rewrite scan_for_templates_eq. cbn [_corpus_path with_fuzzer _is_replay].
  destruct (scan_error w path exts); [reflexivity|].
  destruct (scan_candidates w path exts); reflexivity.
Qed.

(** A new manager has the transition page on, the counter at [0] and no
    active template. *)
Lemma init_defaults (path : string) (exts : option (list string)) (aggression : aggression_t)
      (is_replay : bool) (rotate : Z) (w : World) (self : CorpusManager.t) (tr : list event) :
  __init__ path exts aggression is_replay rotate w = (Ok self, tr) ->
  _use_transition self = true
  /\ _generated self = 0
  /\ _active_template self = None
  /\ _corpus_path self = path
  /\ _is_replay self = is_replay
  /\ _templates self <> [].
Proof.
  rewrite init_eq.
  destruct (_init_fuzzer aggression w None) as [[[]|e] fz]; [|discriminate].
  destruct (scan_error w path exts) as [e|] eqn:Hstop; [discriminate|].
  destruct (scan_candidates w path exts) as [|x found] eqn:Hfound; [discriminate|].
  intros H. injection H as <- <-. repeat split.
  cbn [_templates]. destruct is_replay; [|discriminate].
  apply sort_reverse_nonempty.
Qed.

Lemma generate_mode (mime_type : option string) (w : World) (s : CorpusManager.t) :
  same_mode s (snd (fst (generate mime_type w s))).
Proof.
  rewrite generate_eq.
  pose proof (rotate_templates_settings w s) as Hr.
  destruct (rotate_templates w s) as [[[[]|e1] s1] t1];
    [|destruct Hr as (H1 & _ & H3 & H4 & H5); repeat split; assumption].
  pose proof (choose_template_settings w s1) as Hc.
  destruct (same_settings_trans Hr Hc) as (H1 & _ & H3 & H4 & H5).
  destruct (choose_template w s1) as [[[[]|e2] s2] t2];
    [|repeat split; assumption].
  cbv zeta. destruct (fst (_generate _ _ _ _ _)) as [test|e3]; repeat split; assumption.
Qed.

Lemma run_generate_mode (mime_type : option string) (ws : list World) (s : CorpusManager.t) :
  same_mode s (snd (fst (run_generate mime_type ws s))).
Proof.
  revert s. induction ws as [|w ws IH]; intros s; cbn [run_generate].
  - repeat split.
  - pose proof (generate_mode mime_type w s) as Hg.
    destruct (generate mime_type w s) as [[r s1] t1]. cbn [fst snd] in Hg.
    specialize (IH s1).
    destruct (run_generate mime_type ws s1) as [[rs s2] t2]. cbn [fst snd] in *.
    unfold same_mode in *. intuition congruence.
Qed.

(** Every rescan made from [generate] is a scan without filter. *)
Lemma run_generate_scans (mime_type : option string) (ws : list World) (s : CorpusManager.t) :
  forall e, In e (snd (run_generate mime_type ws s)) -> is_scan e = true -> e = EvScan None.
Proof.
  revert s. induction ws as [|w ws IH]; intros s e; cbn [run_generate].
  - intros [].
  - pose proof (generate_trace mime_type w s) as Ht.
    destruct (generate mime_type w s) as [[r s1] t1]. cbn [snd] in Ht.
    specialize (IH s1 e).
    destruct (run_generate mime_type ws s1) as [[rs s2] t2]. cbn [snd] in *.
    intros Hin Hs. apply in_app_or in Hin. destruct Hin as [Hin|Hin]; [|now apply IH].
    subst t1. rewrite rotate_templates_eq in Hin.
    destruct (at_boundary s); [|destruct Hin].
    destruct (scan_error w (_corpus_path s) None); [destruct Hin as [<-|[]]; reflexivity|].
    destruct (scan_candidates w (_corpus_path s) None).
    + destruct Hin as [<-|[]]. reflexivity.
    + cbv zeta in Hin. destruct (1 <? _)%nat; cbn in Hin;
        intuition (subst; try reflexivity; try discriminate).
Qed.

(** Without rotation a run of calls scans nothing, clears nothing and
    reads nothing. *)
Lemma run_generate_no_rotation (mime_type : option string) (ws : list World)
      (s : CorpusManager.t) :
  _rotate_period s = 0 -> snd (run_generate mime_type ws s) = [].
Proof.
  revert s. induction ws as [|w ws IH]; intros s Hp; cbn [run_generate]; [reflexivity|].
  pose proof (generate_trace mime_type w s) as Ht.
  pose proof (generate_mode mime_type w s) as Hm.
  destruct (generate mime_type w s) as [[r s1] t1]. cbn [fst snd] in Ht, Hm.
  destruct Hm as (_ & _ & Hp1 & _).
  specialize (IH s1). rewrite Hp1 in IH. specialize (IH Hp).
  destruct (run_generate mime_type ws s1) as [[rs s2] t2]. cbn [snd] in *.
  subst t1 t2. rewrite rotate_templates_eq. unfold at_boundary. rewrite Hp.
  reflexivity.
Qed.

(** C9.  A manager constructed with the replay flag has rotation period
    [0], whatever period was asked for; it has scanned once, in the
    constructor, and no run of [generate] calls on it scans again or
    clears the active template, and the period stays [0]. *)
Theorem replay_never_rescans (path : string) (exts : option (list string))
        (aggression : aggression_t) (rotate : Z) (w0 : World)
        (self : CorpusManager.t) (tr0 : list event) :
  __init__ path exts aggression true rotate w0 = (Ok self, tr0) ->
  _is_replay self = true
  /\ _rotate_period self = 0
  /\ tr0 = [EvScan exts]
  /\ forall mime_type ws,
      let self' := snd (fst (run_generate mime_type ws self)) in
      let tr := snd (run_generate mime_type ws self) in
      count_events is_scan tr = 0%nat
      /\ ~ In EvClearActive tr
      /\ _rotate_period self' = 0
      /\ _is_replay self' = true.
Proof.
  intros Hinit. rewrite init_eq in Hinit.
  destruct (_init_fuzzer aggression w0 None) as [[[]|e] fz]; [|discriminate].
  destruct (scan_error w0 path exts) as [e|]; [discriminate|].
  destruct (scan_candidates w0 path exts) as [|x found]; [discriminate|].
  injection Hinit as <- <-. cbn [_is_replay _rotate_period].
  repeat split; try reflexivity.
  - rewrite run_generate_no_rotation; reflexivity.
  - rewrite run_generate_no_rotation; [intros []|reflexivity].
  - destruct (run_generate_mode mime_type ws
                (mk None path fz 0 true 0 (PyList.sort_reverse (x :: found)) true))
      as (_ & _ & H & _). exact H.
  - destruct (run_generate_mode mime_type ws
                (mk None path fz 0 true 0 (PyList.sort_reverse (x :: found)) true))
      as (_ & H & _). exact H.
Qed.

Lemma generate_templates_fresh (mime_type : option string) (w : World)
      (s : CorpusManager.t) :
  _is_replay s = false ->
  _templates (snd (fst (generate mime_type w s)))
  = _templates (snd (fst (rotate_templates w s))).
Proof.
  intros Hfresh. rewrite generate_eq.
  pose proof (rotate_templates_settings w s) as Hr.
  destruct (rotate_templates w s) as [[[[]|e1] s1] t1]; [|reflexivity].
  destruct Hr as (_ & _ & Hrep & _). cbn [fst snd] in Hrep |- *.
  rewrite Hfresh in Hrep.
  rewrite choose_template_eq, Hrep.
  destruct (_active_template s1).
  - cbv zeta. destruct (fst (_generate _ _ _ _ _)) as [test|e3]; reflexivity.
  - destruct (nth_error _ _); [|reflexivity].
    cbv zeta. destruct (fst (_generate _ _ _ _ _)) as [test|e3]; reflexivity.
Qed.

(** A name the inner loop appends is the path of a wanted file of the
    directory whose size is above [0]. *)
Lemma in_collect_filenames (w : World) (exts : option (list string)) (d_name : string)
      (filenames : list string) (p : string) :
  In p (fst (collect_filenames w exts d_name filenames)) ->
  exists f_name size,
    In f_name filenames
    /\ wanted exts f_name = true
    /\ p = os_path_abspath w (OsPath.join d_name f_name)
    /\ os_path_getsize w p = Ok size
    /\ 0 < size.
Proof.
  induction filenames as [|f filenames IH]; cbn [collect_filenames fst]; [intros []|].
  destruct (wanted exts f) eqn:Hw.
  - destruct (os_path_getsize w (os_path_abspath w (OsPath.join d_name f)))
      as [size|e] eqn:Hsize; [|intros []].
    destruct (collect_filenames w exts d_name filenames) as [found stop].
    cbn [fst] in *. intros Hin. apply in_app_or in Hin. destruct Hin as [Hin|Hin].
    + destruct (0 <? size) eqn:Hpos; [|destruct Hin]. destruct Hin as [<-|[]].
      exists f, size. apply Z.ltb_lt in Hpos. repeat split; try assumption. now left.
    + destruct (IH Hin) as (f' & size' & H1 & H2). exists f', size'.
      split; [now right | exact H2].
  - intros Hin. destruct (IH Hin) as (f' & size' & H1 & H2). exists f', size'.
    split; [now right | exact H2].
Qed.

Lemma in_collect_walk (w : World) (exts : option (list string))
      (entries : list (string * list string)) (p : string) :
  In p (fst (collect_walk w exts entries)) ->
  exists d_name filenames f_name size,
    In (d_name, filenames) entries
    /\ In f_name filenames
    /\ wanted exts f_name = true
    /\ p = os_path_abspath w (OsPath.join d_name f_name)
    /\ os_path_getsize w p = Ok size
    /\ 0 < size.
Proof.
  induction entries as [|[d fs] entries IH]; cbn [collect_walk fst snd]; [intros []|].
  pose proof (@in_collect_filenames w exts d fs p) as Hfs.
  destruct (collect_filenames w exts d fs) as [found [e|]]; cbn [fst] in *.
  - intros Hin. destruct (Hfs Hin) as (f & size & H1 & H2).
    exists d, fs, f, size. split; [now left|]. split; assumption.
  - destruct (collect_walk w exts entries) as [found' stop]. cbn [fst] in *.
    intros Hin. apply in_app_or in Hin. destruct Hin as [Hin|Hin].
    + destruct (Hfs Hin) as (f & size & H1 & H2).
      exists d, fs, f, size. split; [now left|]. split; assumption.
    + destruct (IH Hin) as (d' & fs' & f & size & H0 & H1).
      exists d', fs', f, size. split; [now right | exact H1].
Qed.

(** When no call of [os.path.getsize] fails, the inner loop appends the
    path of every wanted file whose size is above [0]. *)
Lemma collect_filenames_complete (w : World) (exts : option (list string)) (d_name : string)
      (filenames : list string) (f_name : string) (size : Z) :
  snd (collect_filenames w exts d_name filenames) = None ->
  In f_name filenames ->
  wanted exts f_name = true ->
  os_path_getsize w (os_path_abspath w (OsPath.join d_name f_name)) = Ok size ->
  0 < size ->
  In (os_path_abspath w (OsPath.join d_name f_name))
     (fst (collect_filenames w exts d_name filenames)).
Proof.
  intros Hstop Hin Hw Hsize Hpos.
  induction filenames as [|f filenames IH]; [destruct Hin|].
  cbn [collect_filenames] in Hstop |- *.
  destruct (wanted exts f) eqn:Hwf.
  - destruct (os_path_getsize w (os_path_abspath w (OsPath.join d_name f)))
      as [size'|e] eqn:Hsize'; [|discriminate Hstop].
    destruct (collect_filenames w exts d_name filenames) as [found stop].
    cbn [fst snd] in *. apply in_or_app.
    destruct Hin as [->|Hin].
    + left. rewrite Hsize in Hsize'. injection Hsize' as <-.
      apply Z.ltb_lt in Hpos. rewrite Hpos. now left.
    + right. now apply IH.
  - destruct Hin as [->|Hin]; [congruence|]. now apply IH.
Qed.

Lemma collect_walk_complete (w : World) (exts : option (list string))
      (entries : list (string * list string)) (d_name f_name : string)
      (filenames : list string) (size : Z) :
  snd (collect_walk w exts entries) = None ->
  In (d_name, filenames) entries ->
  In f_name filenames ->
  wanted exts f_name = true ->
  os_path_getsize w (os_path_abspath w (OsPath.join d_name f_name)) = Ok size ->
  0 < size ->
  In (os_path_abspath w (OsPath.join d_name f_name)) (fst (collect_walk w exts entries)).
Proof.
  intros Hstop Hd Hin Hw Hsize Hpos.
  induction entries as [|[d fs] entries IH]; [destruct Hd|].
  cbn [collect_walk fst snd] in Hstop |- *.
  pose proof (@collect_filenames_complete w exts d fs f_name size) as Hfs.
  destruct (collect_filenames w exts d fs) as [found [e|]]; [discriminate Hstop|].
  destruct (collect_walk w exts entries) as [found' stop]. cbn [fst snd] in *.
  apply in_or_app. destruct Hd as [Hd|Hd].
  - injection Hd as -> ->. left. now apply Hfs.
  - right. now apply IH.
Qed.

(** The pool after the first statement of a call at a boundary, when the
    rescan returns. *)
Lemma rotate_templates_pool (w : World) (s : CorpusManager.t) :
  at_boundary s = true ->
  fst (fst (_scan_for_templates None w s)) = Ok tt ->
  fst (fst (rotate_templates w s)) = Ok tt
  /\ _templates (snd (fst (rotate_templates w s)))
     = _templates (snd (fst (_scan_for_templates None w s))).
Proof.
  intros Hb. rewrite rotate_templates_eq, scan_for_templates_eq, Hb.
  destruct (scan_error w (_corpus_path s) None); [discriminate|].
  destruct (scan_candidates w (_corpus_path s) None); [discriminate|].
  intros _. cbv zeta. destruct (1 <? _)%nat; split; reflexivity.
Qed.

(** C10.  A manager constructed without the replay flag, with an
    extension filter [exts] and a period above [0], applies the filter in
    the scan of the constructor only.  The first call of [generate]
    rescans with no filter.  When that rescan returns, the pool after the
    call is the unfiltered scan of the corpus as it is then, so in a
    directory every file that is not hidden, not on the ignore list and
    has a size above [0] is in the pool, whatever its extension; when the
    rescan raises, the call raises the same and leaves the pool as far as
    the rescan had rebuilt it.  No later call of [generate] scans with a
    filter either. *)
Theorem rescan_ignores_extension_filter (path : string) (exts : option (list string))
        (aggression : aggression_t) (rotate : Z) (w0 : World)
        (self : CorpusManager.t) (tr0 : list event) :
  __init__ path exts aggression false rotate w0 = (Ok self, tr0) ->
  0 < rotate ->
  tr0 = [EvScan exts]
  /\ _templates self = scan_candidates w0 path exts
  /\ (forall mime_type w,
        let rescan := _scan_for_templates None w self in
        let self1 := snd (fst (generate mime_type w self)) in
        filter is_scan (snd (generate mime_type w self)) = [EvScan None]
        /\ _templates self1 = _templates (snd (fst rescan))
        /\ _templates self1 = scan_candidates w path None
        /\ (forall e, fst (fst rescan) = Err e ->
                      fst (fst (generate mime_type w self)) = Err e)
        /\ (fst (fst rescan) = Ok tt ->
            forall d_name filenames f_name size,
              os_path_isdir w path = true ->
              In (d_name, filenames) (os_walk w path) ->
              In f_name filenames ->
              PyStr.startswith_char "." f_name = false ->
              PyStr.mem (PyStr.lower f_name) ignored_list = false ->
              os_path_getsize w (os_path_abspath w (OsPath.join d_name f_name)) = Ok size ->
              0 < size ->
              In (os_path_abspath w (OsPath.join d_name f_name)) (_templates self1)))
  /\ (forall mime_type ws e,
        In e (snd (run_generate mime_type ws self)) -> is_scan e = true -> e = EvScan None).
Proof.
  intros Hinit Hrot. rewrite init_eq in Hinit.
  destruct (_init_fuzzer aggression w0 None) as [[[]|e] fz]; [|discriminate].
  destruct (scan_error w0 path exts) as [e|] eqn:Hstop; [discriminate|].
  destruct (scan_candidates w0 path exts) as [|x found] eqn:Hfound; [discriminate|].
  injection Hinit as <- <-. cbn [_templates].
  split; [reflexivity|]. split; [reflexivity|]. split.
  2:{ intros mime_type ws. apply run_generate_scans. }
  intros mime_type w.
  set (self0 := mk None path fz 0 false rotate (x :: found) true).
  cbv zeta.
  assert (Hpool : _templates (snd (fst (generate mime_type w self0)))
                  = scan_candidates w path None).
  { rewrite generate_templates_fresh by reflexivity.
    rewrite rotate_templates_eq. unfold at_boundary.
    cbn [_rotate_period _generated _corpus_path _is_replay self0].
    apply Z.ltb_lt in Hrot. rewrite Hrot, Z.mod_0_l by lia. cbn [andb Z.eqb].
    destruct (scan_error w path None); [reflexivity|].
    destruct (scan_candidates w path None) as [|y pool]; [reflexivity|].
    cbv zeta. destruct (1 <? _)%nat; reflexivity. }
  assert (Hscan : _templates (snd (fst (_scan_for_templates None w self0)))
                  = scan_candidates w path None).
  { rewrite scan_for_templates_eq. cbn [_corpus_path _is_replay self0].
    destruct (scan_error w path None); [reflexivity|].
    destruct (scan_candidates w path None); reflexivity. }
  split; [|split; [now rewrite Hscan|split; [exact Hpool|split]]].
  - rewrite generate_trace, rotate_templates_eq. unfold at_boundary.
    cbn [_rotate_period _generated _corpus_path _is_replay self0].
    apply Z.ltb_lt in Hrot. rewrite Hrot, Z.mod_0_l by lia. cbn [andb Z.eqb].
    destruct (scan_error w path None); [reflexivity|].
    destruct (scan_candidates w path None) as [|y pool]; [reflexivity|].
    cbv zeta. destruct (1 <? _)%nat; reflexivity.
  - intros e. rewrite generate_eq, rotate_templates_eq, scan_for_templates_eq.
    unfold at_boundary.
    cbn [_rotate_period _generated _corpus_path _is_replay self0].
    apply Z.ltb_lt in Hrot. rewrite Hrot, Z.mod_0_l by lia. cbn [andb Z.eqb].
    destruct (scan_error w path None); [intros H; injection H as <-; reflexivity|].
    destruct (scan_candidates w path None) as [|y pool];
      [intros H; injection H as <-; reflexivity|].
    discriminate.
  - rewrite scan_for_templates_eq. cbn [_corpus_path self0].
    destruct (scan_error w path None) as [e|] eqn:Hstop'; [discriminate|]. intros _.
    intros d_name filenames f_name size Hdir Hd Hf Hhid Hign Hsize Hpos.
    rewrite Hpool. unfold scan_candidates, scan_outcome.
    unfold scan_error, scan_outcome in Hstop'. rewrite Hdir in Hstop' |- *.
    apply collect_walk_complete with (filenames := filenames) (size := size);
      try assumption.
    unfold wanted. rewrite Hhid, Hign. reflexivity.
Qed.

(** In replay mode without rotation, a run of one call more than the
    pool has paths gives the paths from the end of the pool, one per
    call, and then fails. *)
Lemma run_generate_replay (mime_type : option string) (order : list string) :
  hook_returns ->
  forall (ws : list World) (s : CorpusManager.t),
    _is_replay s = true ->
    _rotate_period s = 0 ->
    rev (_templates s) = order ->
    List.length ws = S (List.length order) ->
    exists succeeded last,
      fst (fst (run_generate mime_type ws s))
      = (succeeded ++ [(Err (IndexError "pop from empty list"), last)])%list
      /\ Forall (fun r => is_ok (fst r) = true) succeeded
      /\ map snd succeeded = map Some order.
Proof.
  intros Hhook. induction order as [|x order IH]; intros ws s Hrep Hper Hpool Hlen.
  - destruct ws as [|w [|w' ws]]; try discriminate Hlen.
    cbn [run_generate]. rewrite generate_eq, rotate_templates_eq.
    unfold at_boundary. rewrite Hper. cbn [Z.ltb Z.compare andb].
    rewrite choose_template_eq, Hrep, Hpool. cbn [fst snd].
    exists [], (get_active_file_name s). repeat split; constructor.
  - destruct ws as [|w ws]; [discriminate Hlen|].
    cbn [run_generate]. rewrite generate_eq, rotate_templates_eq.
    unfold at_boundary. rewrite Hper. cbn [Z.ltb Z.compare andb].
    rewrite choose_template_eq, Hrep, Hpool.
    set (s2 := with_active_template (with_templates s (rev order)) (Some (fresh_template x))).
    destruct (Hhook w (_fuzzer s2) (fst (shell_of s2)) (snd (shell_of s2)) mime_type)
      as [test [fz Hh]].
    cbv zeta. rewrite Hh. cbn [fst].
    set (s3 := after_hook w s2 (fst (shell_of s2)) (snd (shell_of s2)) mime_type).
    assert (Hname : get_active_file_name (with_generated s3 (_generated s2 + 1)) = Some x).
    { change (get_active_file_name (with_generated s3 (_generated s2 + 1)))
        with (get_active_file_name s3).
      subst s3. now rewrite (proj2 (proj2 (after_hook_frame _ _ _ _ _))). }
    destruct (IH ws (with_generated s3 (_generated s2 + 1)))
      as [succeeded [last [Hrun [Hok Hnames]]]].
    + exact Hrep.
    + exact Hper.
    + change (_templates (with_generated s3 (_generated s2 + 1))) with (rev order).
      apply rev_involutive.
    + simpl in Hlen. lia.
    + destruct (run_generate mime_type ws _) as [[rs s4] t4]. cbn [fst snd] in Hrun |- *.
      exists ((Ok test, Some x) :: succeeded), last. rewrite Hrun, Hname.
      repeat split; [constructor; [reflexivity | exact Hok]|].
      cbn [map snd]. now rewrite Hnames.
Qed.

(** C1.  Let a manager be constructed in replay mode, with a hook that
    returns, and let the scan of the constructor find [N] paths.  Of
    [N + 1] calls of [generate] the first [N] return, and after the
    [k]-th the active template is the [k]-th of the paths sorted in
    ascending order; the last call raises [IndexError], from [pop] on
    the empty pool. *)
Theorem replay_order (path : string) (exts : option (list string))
        (aggression : aggression_t) (rotate : Z) (w0 : World)
        (self : CorpusManager.t) (tr0 : list event)
        (mime_type : option string) (ws : list World) :
  hook_returns ->
  __init__ path exts aggression true rotate w0 = (Ok self, tr0) ->
  List.length ws = S (List.length (scan_candidates w0 path exts)) ->
  size self = List.length (scan_candidates w0 path exts)
  /\ exists succeeded last,
      fst (fst (run_generate mime_type ws self))
      = (succeeded ++ [(Err (IndexError "pop from empty list"), last)])%list
      /\ List.length succeeded = List.length (scan_candidates w0 path exts)
      /\ Forall (fun r => is_ok (fst r) = true) succeeded
      /\ map snd succeeded = map Some (ascending_sorted (scan_candidates w0 path exts)).
Proof.
  intros Hhook Hinit Hlen. rewrite init_eq in Hinit.
  destruct (_init_fuzzer aggression w0 None) as [[[]|e] fz]; [|discriminate].
  destruct (scan_error w0 path exts) as [e|] eqn:Hstop; [discriminate|].
  destruct (scan_candidates w0 path exts) as [|x found] eqn:Hfound; [discriminate|].
  injection Hinit as <- <-.
  assert (Hsize : List.length (ascending_sorted (x :: found)) = List.length (x :: found))
    by (apply Permutation_length, ascending_sorted_perm).
  split.
  - unfold size. cbn [_templates].
    rewrite <- Hsize, <- rev_sort_reverse. now rewrite length_rev.
  - destruct (@run_generate_replay mime_type (ascending_sorted (x :: found)) Hhook ws
                (mk None path fz 0 true 0 (PyList.sort_reverse (x :: found)) true))
      as [succeeded [last [Hrun [Hok Hnames]]]]; try reflexivity.
    + apply rev_sort_reverse.
    + now rewrite Hsize.
    + exists succeeded, last. repeat split; try assumption.
      rewrite <- Hsize, <- (length_map snd succeeded), Hnames. apply length_map.
Qed.

End Runs.

(** ** Lazy loading of a template *)

Section TemplateCalls.
Import Template.







End TemplateCalls.

(** ** The theorems at the example corpus *)

Module ExampleFacts.
Import CorpusManager.

Lemma page_fuzzer_returns : @hook_returns Examples.page_fuzzer.
Proof.
  intros w fz test redirect_page mime_type.
  cbn [_generate Examples.page_fuzzer]. rewrite add_testfile_eq.
  eexists. eexists. reflexivity.
Qed.

Lemma page_fuzzer_appends : @hook_appends Examples.page_fuzzer.
Proof.
  intros w fz test redirect_page mime_type test' fz'.
  cbn [_generate Examples.page_fuzzer]. rewrite add_testfile_eq.
  intros H. injection H as <- <-. cbn [TestCase.landing_page TestCase._test_files].
  split; [reflexivity|]. eexists. reflexivity.
Qed.


Lemma manager_init (replay : bool) (r : Z) :
  __init__ (F := Examples.page_fuzzer) "/corpus" (Some ["html"]) tt replay r Examples.corpus
  = (Ok (Examples.manager replay r), [EvScan (Some ["html"])]).
Proof. destruct replay; reflexivity. Qed.

End ExampleFacts.

Lemma replay_order_witness :
  exists succeeded last,
    fst (fst (run_generate None [Examples.corpus; Examples.corpus; Examples.corpus]
                (Examples.manager true 10)))
    = (succeeded ++ [(Err (IndexError "pop from empty list"), last)])%list
    /\ map snd succeeded = [Some "/corpus/a.html"; Some "/corpus/b.html"].
Proof.
  destruct (@replay_order Examples.page_fuzzer "/corpus" (Some ["html"]) tt 10
              Examples.corpus (Examples.manager true 10) [EvScan (Some ["html"])] None
              [Examples.corpus; Examples.corpus; Examples.corpus])
    as [_ [succeeded [last [Hrun [_ [_ Hnames]]]]]].
  - exact ExampleFacts.page_fuzzer_returns.
  - apply ExampleFacts.manager_init.
  - reflexivity.
  - exists succeeded, last. split; [exact Hrun | exact Hnames].
Defined.

(** C2 at the example corpus, where the rescan finds three files, and at
    the corpus with a dangling link, where the rescan raises with three
    files in the pool. *)
Lemma rotation_rescan_and_clear_witness :
  (In EvClearActive (snd (CorpusManager.generate None Examples.corpus (Examples.manager false 1)))
   /\ filter is_scan
        (snd (CorpusManager.generate None Examples.corpus (Examples.manager false 1)))
      = [EvScan None])
  /\ (fst (fst (CorpusManager.generate None Fixtures.dangling (Examples.manager false 1)))
      = Err (OSError "[Errno 2] No such file or directory")
      /\ ~ In EvClearActive
             (snd (CorpusManager.generate None Fixtures.dangling (Examples.manager false 1)))
      /\ CorpusManager._templates
           (snd (fst (CorpusManager.generate None Fixtures.dangling
                        (Examples.manager false 1))))
         = ["/corpus/b.html"; "/corpus/a.html"; "/corpus/notes.txt"]).
Proof.
  split.
  - destruct (@rotation_rescan_and_clear Examples.page_fuzzer None Examples.corpus
                (Examples.manager false 1) eq_refl eq_refl) as [Hscan [Hclear _]].
    split; [|exact Hscan].
    apply Hclear. split; [reflexivity|]. split; [reflexivity|]. vm_compute. lia.
  - destruct (@rotation_rescan_and_clear Examples.page_fuzzer None Fixtures.dangling
                (Examples.manager false 1) eq_refl eq_refl)
      as [_ [_ [_ [Hraise _]]]].
    destruct (Hraise (OSError "[Errno 2] No such file or directory") eq_refl eq_refl)
      as [Herr [Hkeep [Hpool _]]].
    split; [exact Herr|]. split; [exact Hkeep|].
    rewrite Hpool. reflexivity.
Defined.

Lemma generate_transition_page_witness :
  exists test self' tr,
    CorpusManager.generate None Examples.corpus (Examples.manager false 1) = (Ok test, self', tr)
    /\ TestCase.landing_page test = "test_page_0000.html"
    /\ exists rd_file,
        In rd_file (TestCase._test_files test)
        /\ TestFile.file_name rd_file = "transition_0000.html"
        /\ TestFile.required rd_file = true
        /\ TestFile.data rd_file = "<script>window.location='test_page_0001.html';</script>"
        /\ CorpusManager.landing_page self' = Ok "test_page_0001.html".
Proof.
  destruct (CorpusManager.generate None Examples.corpus (Examples.manager false 1))
    as [[[test|e] self'] tr] eqn:Hgen; [|vm_compute in Hgen; discriminate Hgen].
  exists test, self', tr. split; [reflexivity|].
  destruct (@generate_transition_page Examples.page_fuzzer None Examples.corpus
              (Examples.manager false 1) self' test tr)
    as [Hlanding [rd_file [target [Hin [Hname [Hreq [_ [Htarget [Hdata Hnext]]]]]]]]].
  - reflexivity.
  - exact ExampleFacts.page_fuzzer_appends.
  - exact Hgen.
  - vm_compute in Hlanding, Hname, Htarget.
    injection Hlanding as Hlanding. injection Hname as Hname. injection Htarget as Htarget.
    split; [exact Hlanding|].
    exists rd_file. repeat split; try assumption.
    + rewrite Hdata, Htarget. reflexivity.
    + rewrite Hnext, Htarget. reflexivity.
Defined.


Lemma replay_never_rescans_witness :
  CorpusManager._rotate_period (Examples.manager true 10) = 0
  /\ count_events is_scan
       (snd (run_generate None [Examples.corpus; Examples.corpus] (Examples.manager true 10)))
     = 0%nat.
Proof.
  destruct (@replay_never_rescans Examples.page_fuzzer "/corpus" (Some ["html"]) tt 10
              Examples.corpus (Examples.manager true 10) [EvScan (Some ["html"])])
    as [_ [Hperiod [_ Hrun]]].
  - apply ExampleFacts.manager_init.
  - split; [exact Hperiod|].
    destruct (Hrun None [Examples.corpus; Examples.corpus]) as [Hscan _]. exact Hscan.
Defined.

Lemma rescan_ignores_extension_filter_witness :
  CorpusManager._templates (Examples.manager false 1) = ["/corpus/b.html"; "/corpus/a.html"]
  /\ In "/corpus/notes.txt"
        (CorpusManager._templates
           (snd (fst (CorpusManager.generate None Examples.corpus (Examples.manager false 1)))))
  /\ fst (fst (CorpusManager.generate None Fixtures.dangling (Examples.manager false 1)))
     = Err (OSError "[Errno 2] No such file or directory").
Proof.
  destruct (@rescan_ignores_extension_filter Examples.page_fuzzer "/corpus" (Some ["html"]) tt 1
              Examples.corpus (Examples.manager false 1) [EvScan (Some ["html"])])
    as [_ [Hpool [Hfirst _]]].
  - apply ExampleFacts.manager_init.
  - reflexivity.
  - split; [reflexivity|]. split.
    + destruct (Hfirst None Examples.corpus) as [_ [_ [_ [_ Hin]]]].
      apply (Hin eq_refl "/corpus"
               (map fst [("b.html", "<b>two</b>"); ("a.html", "<i>one</i>");
                         (".hidden", "x"); ("Thumbs.db", "junk");
                         ("empty.html", ""); ("notes.txt", "text")]) "notes.txt" 4).
      * reflexivity.
      * left. reflexivity.
      * cbn. tauto.
      * reflexivity.
      * reflexivity.
      * reflexivity.
      * reflexivity.
    + destruct (Hfirst None Fixtures.dangling) as [_ [_ [_ [Hraise _]]]].
      apply Hraise. reflexivity.
Defined.

(** * Further properties *)

From Stdlib Require DecimalN.

(** ** The scan and the constructor *)

Lemma lower_char_idempotent (c : ascii) :
  PyStr.lower_char (PyStr.lower_char c) = PyStr.lower_char c.
Proof.
  destruct c as [[|] [|] [|] [|] [|] [|] [|] [|]]; reflexivity.
Qed.

Lemma lower_idempotent (s : string) : PyStr.lower (PyStr.lower s) = PyStr.lower s.
Proof.
  induction s as [|c s IH]; simpl; [reflexivity|].
  now rewrite lower_char_idempotent, IH.
Qed.

Lemma mem_In (x : string) (l : list string) : PyStr.mem x l = true <-> In x l.
Proof.
  unfold PyStr.mem. rewrite existsb_exists. split.
  - intros [y [Hin Heq]]. apply String.eqb_eq in Heq. now subst.
  - intros Hin. exists x. split; [exact Hin | apply String.eqb_refl].
Qed.

Lemma mem_false (x : string) (l : list string) : PyStr.mem x l = false <-> ~ In x l.
Proof.
  rewrite <- mem_In. destruct (PyStr.mem x l); split; congruence.
Qed.

Lemma wanted_iff (exts : option (list string)) (f_name : string) :
  CorpusManager.wanted exts f_name = true
  <-> PyStr.startswith_char "." f_name = false
      /\ ~ In (PyStr.lower f_name) CorpusManager.ignored_list
      /\ extension_accepted exts f_name.
Proof.
  unfold CorpusManager.wanted, extension_accepted.
  rewrite <- mem_false.
  destruct (PyStr.startswith_char "." f_name); cbn [orb].
  - split; [discriminate | intros [H _]; discriminate H].
  - destruct (PyStr.mem (PyStr.lower f_name) CorpusManager.ignored_list).
    + split; [discriminate | intros [_ [H _]]; discriminate H].
    + destruct exts as [[|e l]|].
      * split; [intros _; repeat split | reflexivity].
      * rewrite mem_In. tauto.
      * split; [intros _; repeat split | reflexivity].
Qed.

(** The exception that stops the loops is the exception of a call of
    [os.path.getsize] on a wanted file. *)
Lemma collect_filenames_stop (w : World) (exts : option (list string)) (d_name : string)
      (filenames : list string) (e : exception) :
  snd (CorpusManager.collect_filenames w exts d_name filenames) = Some e ->
  exists f_name,
    In f_name filenames
    /\ CorpusManager.wanted exts f_name = true
    /\ os_path_getsize w (os_path_abspath w (OsPath.join d_name f_name)) = Err e.
Proof.
  induction filenames as [|f filenames IH]; cbn [CorpusManager.collect_filenames snd];
    [discriminate|].
  destruct (CorpusManager.wanted exts f) eqn:Hw.
  - destruct (os_path_getsize w (os_path_abspath w (OsPath.join d_name f)))
      as [size|e'] eqn:Hsize.
    + destruct (CorpusManager.collect_filenames w exts d_name filenames) as [found stop].
      cbn [snd] in *. intros H. destruct (IH H) as (f' & H1 & H2).
      exists f'. split; [now right | exact H2].
    + cbn [snd]. intros H. injection H as ->. exists f. repeat split; try assumption.
      now left.
  - intros H. destruct (IH H) as (f' & H1 & H2). exists f'. split; [now right | exact H2].
Qed.

Lemma collect_walk_stop (w : World) (exts : option (list string))
      (entries : list (string * list string)) (e : exception) :
  snd (CorpusManager.collect_walk w exts entries) = Some e ->
  exists d_name filenames f_name,
    In (d_name, filenames) entries
    /\ In f_name filenames
    /\ CorpusManager.wanted exts f_name = true
    /\ os_path_getsize w (os_path_abspath w (OsPath.join d_name f_name)) = Err e.
Proof.
  induction entries as [|[d fs] entries IH]; cbn [CorpusManager.collect_walk fst snd];
    [discriminate|].
  pose proof (@collect_filenames_stop w exts d fs e) as Hfs.
  destruct (CorpusManager.collect_filenames w exts d fs) as [found [e'|]]; cbn [snd] in *.
  - intros H. destruct (Hfs H) as (f & H1 & H2). exists d, fs, f.
    split; [now left | split; [exact H1 | exact H2]].
  - destruct (CorpusManager.collect_walk w exts entries) as [found' stop]. cbn [snd] in *.
    intros H. destruct (IH H) as (d' & fs' & f & H0 & H1). exists d', fs', f.
    split; [now right | exact H1].
Qed.

(** On a directory the scan stops exactly when some call of
    [os.path.getsize] fails. *)
Lemma scan_error_dir (w : World) (path : string) (exts : option (list string)) :
  os_path_isdir w path = true ->
  (forall e, CorpusManager.scan_error w path exts = Some e -> size_fails w path exts e)
  /\ (CorpusManager.scan_error w path exts = None <-> sizes_known w path exts).
Proof.
  intros Hdir. unfold CorpusManager.scan_error, CorpusManager.scan_outcome. rewrite Hdir.
  assert (Hstop : forall e, snd (CorpusManager.collect_walk w exts (os_walk w path)) = Some e ->
                            size_fails w path exts e).
  { intros e H. apply collect_walk_stop in H. exact H. }
  split; [exact Hstop|]. split.
  - intros Hnone d_name filenames f_name Hd Hf Hw.
    destruct (os_path_getsize w (os_path_abspath w (OsPath.join d_name f_name)))
      as [size|e] eqn:Hsize; [now exists size|]. exfalso.
    revert Hnone Hd. generalize (os_walk w path) as entries.
    induction entries as [|[d fs] entries IH]; [intros _ []|].
    cbn [CorpusManager.collect_walk fst snd].
    destruct (CorpusManager.collect_filenames w exts d fs) as [found [e'|]] eqn:Hfs;
      [discriminate|].
    destruct (CorpusManager.collect_walk w exts entries) as [found' stop]. cbn [snd] in *.
    intros -> [Hd|Hd]; [|now apply IH].
    injection Hd as -> ->.
    assert (Hs : snd (CorpusManager.collect_filenames w exts d_name filenames) = None)
      by now rewrite Hfs.
    clear Hfs IH. induction filenames as [|f filenames IHf]; [destruct Hf|].
    cbn [CorpusManager.collect_filenames] in Hs.
    destruct Hf as [->|Hf].
    + rewrite Hw, Hsize in Hs. discriminate Hs.
    + destruct (CorpusManager.wanted exts f); [|now apply IHf].
      destruct (os_path_getsize w (os_path_abspath w (OsPath.join d_name f)));
        [|discriminate Hs].
      destruct (CorpusManager.collect_filenames w exts d_name filenames) as [fd st].
      cbn [snd] in Hs. now apply IHf.
  - intros Hknown.
    destruct (snd (CorpusManager.collect_walk w exts (os_walk w path))) as [e|] eqn:Hs;
      [|reflexivity].
    destruct (Hstop e eq_refl) as (d & fs & f & Hd & Hf & Hw & Hsize).
    destruct (Hknown d fs f Hd Hf Hw) as [size Hok]. congruence.
Qed.

(** The paths a scan of a directory collects are kept files; when no
    call of [os.path.getsize] fails, they are all the kept files. *)
Lemma in_scan_candidates_dir (w : World) (path : string) (exts : option (list string))
      (p : string) :
  os_path_isdir w path = true ->
  (In p (CorpusManager.scan_candidates w path exts) -> kept_file w path exts p)
  /\ (CorpusManager.scan_error w path exts = None ->
      kept_file w path exts p -> In p (CorpusManager.scan_candidates w path exts)).
Proof.
  intros Hdir.
  unfold CorpusManager.scan_candidates, CorpusManager.scan_error,
    CorpusManager.scan_outcome, kept_file.
  rewrite Hdir. split.
  - intros Hin. apply in_collect_walk in Hin.
    destruct Hin as (d_name & filenames & f_name & size & Hd & Hf & Hw & -> & Hsize & Hpos).
    apply wanted_iff in Hw. destruct Hw as (H1 & H2 & H3).
    exists d_name, filenames, f_name. repeat split; try assumption.
    exists size. split; assumption.
  - intros Hstop (d_name & filenames & f_name & Hd & Hf & -> & H1 & H2 & H3 & size & Hsize & Hpos).
    apply collect_walk_complete with (filenames := filenames) (size := size);
      try assumption.
    apply wanted_iff. repeat split; assumption.
Qed.

Section ScanFacts.
Context {F : Fuzzer}.
Import CorpusManager.

(** X1.  [_scan_for_templates] on a directory discards what the pool
    held, and every path it puts into the pool is a file of the walk that
    is not hidden, not on the ignore list (whatever its case), of an
    accepted extension when a filter is given, and of a size above [0].
    When every call of [os.path.getsize] returns, the pool holds all
    those files, and the scan raises [IOError], with the pool empty,
    exactly when there is none.  When a call of [os.path.getsize] raises,
    the scan raises that exception and leaves the pool as far as it was
    rebuilt.  The other attributes stay what they were. *)
Theorem scan_rebuilds_pool (exts : option (list string)) (w : World) (self : CorpusManager.t) :
  os_path_isdir w (_corpus_path self) = true ->
  let r := fst (fst (_scan_for_templates exts w self)) in
  let self' := snd (fst (_scan_for_templates exts w self)) in
  (forall p, In p (_templates self') -> kept_file w (_corpus_path self) exts p)
  /\ (sizes_known w (_corpus_path self) exts ->
      (forall p, kept_file w (_corpus_path self) exts p -> In p (_templates self'))
      /\ (r = Err (IOError ("Could not find test case(s) at " ++ _corpus_path self))
          <-> _templates self' = [])
      /\ (r = Ok tt <-> _templates self' <> []))
  /\ (~ sizes_known w (_corpus_path self) exts ->
      exists e,
        r = Err e
        /\ size_fails w (_corpus_path self) exts e
        /\ _templates self' = scan_candidates w (_corpus_path self) exts)
  /\ same_settings self self'
  /\ _active_template self' = _active_template self.
Proof.
  intros Hdir. cbv zeta. rewrite scan_for_templates_eq.
  pose proof (fun p => @in_scan_candidates_dir w (_corpus_path self) exts p Hdir) as Hin.
  destruct (@scan_error_dir _ _ exts Hdir) as [Hfails Hknown].
  destruct (scan_error w (_corpus_path self) exts) as [e|] eqn:Hstop.
  - cbn [fst snd _templates with_templates].
    split; [intros p; apply Hin|]. split.
    + intros Hk. apply Hknown in Hk. discriminate Hk.
    + split; [|repeat split]. intros _. exists e.
      split; [reflexivity|]. split; [now apply Hfails | reflexivity].
  - assert (Hk : sizes_known w (_corpus_path self) exts) by now apply Hknown.
    destruct (scan_candidates w (_corpus_path self) exts) as [|x found] eqn:Hfound.
    + cbn [fst snd _templates with_templates].
      split; [intros p []|]. split; [|split; [intros Hn; contradiction|repeat split]].
      intros _. split; [intros p Hp; now apply Hin|].
      split; [tauto|]. split; [discriminate | intros H; now elim H].
    + cbn [fst snd _templates with_templates].
      assert (Hne : (if _is_replay self then PyList.sort_reverse (x :: found) else x :: found)
                    <> []).
      { destruct (_is_replay self); [apply sort_reverse_nonempty | discriminate]. }
      split; [|split; [|split; [intros Hn; contradiction|repeat split]]].
      * intros p Hp. apply Hin. destruct (_is_replay self); [|exact Hp].
        eapply Permutation_in; [apply sort_by_perm | exact Hp].
      * intros _. split.
        -- intros p Hp. apply Hin in Hp; [|reflexivity].
           destruct (_is_replay self); [|exact Hp].
           eapply Permutation_in; [apply Permutation_sym, sort_by_perm | exact Hp].
        -- split; [split; [discriminate | intros H; contradiction]|].
           split; [intros _; exact Hne | reflexivity].
Qed.

End ScanFacts.

Section ConstructorFacts.
Context {F : Fuzzer}.
Import CorpusManager.

Lemma no_members_nil (A : Type) (l : list A) : (forall x, ~ In x l) -> l = [].
Proof.
  destruct l as [|x l]; [reflexivity|]. intros H. exfalso. apply (H x). now left.
Qed.

(** X2.  The constructor on a directory.  When [_init_fuzzer] raises,
    the constructor raises the same exception and has not scanned.
    Otherwise it scans once with the given filter.  When a call of
    [os.path.getsize] on a file of the walk raises, the constructor
    raises that exception.  When they all return, it raises [IOError]
    exactly when no file of the walk is kept; when it returns, the pool
    holds exactly the kept files, the counter is [0], no template is
    active and the period is [0] in replay mode and [rotate] otherwise. *)
Theorem init_on_directory (path : string) (exts : option (list string))
        (aggression : aggression_t) (is_replay : bool) (rotate : Z) (w : World) :
  os_path_isdir w path = true ->
  match fst (_init_fuzzer aggression w None) with
  | Err e => __init__ path exts aggression is_replay rotate w = (Err e, [])
  | Ok _ =>
      (~ sizes_known w path exts ->
       exists e,
         __init__ path exts aggression is_replay rotate w = (Err e, [EvScan exts])
         /\ size_fails w path exts e)
      /\ (sizes_known w path exts ->
          ((forall p, ~ kept_file w path exts p) ->
           __init__ path exts aggression is_replay rotate w
           = (Err (IOError ("Could not find test case(s) at " ++ path)), [EvScan exts]))
          /\ ((exists p, kept_file w path exts p) ->
              exists self,
                __init__ path exts aggression is_replay rotate w = (Ok self, [EvScan exts])
                /\ (forall p, In p (_templates self) <-> kept_file w path exts p)
                /\ _generated self = 0
                /\ _active_template self = None
                /\ _rotate_period self = (if is_replay then 0 else rotate)))
  end.
Proof.
  intros Hdir. rewrite init_eq.
  pose proof (fun p => @in_scan_candidates_dir w path exts p Hdir) as Hin.
  destruct (@scan_error_dir _ _ exts Hdir) as [Hfails Hknown].
  destruct (_init_fuzzer aggression w None) as [[[]|e] fz]; cbn [fst]; [|reflexivity].
  destruct (scan_error w path exts) as [e|] eqn:Hstop.
  - split.
    + intros _. exists e. split; [reflexivity | now apply Hfails].
    + intros Hk. apply Hknown in Hk. discriminate Hk.
  - split; [intros Hn; exfalso; apply Hn, Hknown; reflexivity|]. intros _.
    destruct (scan_candidates w path exts) as [|x found] eqn:Hfound.
    + split; [reflexivity|]. intros [p Hp]. apply Hin in Hp; [destruct Hp | reflexivity].
    + split.
      * intros Hnone. exfalso. apply (Hnone x), Hin. now left.
      * intros _. eexists. split; [reflexivity|]. cbn [_templates _generated
          _active_template _rotate_period]. repeat split; try reflexivity.
        -- intros Hp. apply Hin. destruct is_replay; [|exact Hp].
           eapply Permutation_in; [apply sort_by_perm | exact Hp].
        -- intros Hp. apply Hin in Hp; [|reflexivity]. destruct is_replay; [|exact Hp].
           eapply Permutation_in; [apply Permutation_sym, sort_by_perm | exact Hp].
Qed.

(** X3.  The constructor on a path that is not a directory.  A regular
    file that is not empty becomes the whole pool, under its absolute
    path: neither the extension filter nor the tests on hidden and
    ignored names apply to it.  An empty file, or a path that is no file,
    makes the constructor raise [IOError]; a file on which
    [os.path.getsize] raises makes it raise that exception. *)
Theorem init_on_file (path : string) (exts : option (list string))
        (aggression : aggression_t) (is_replay : bool) (rotate : Z) (w : World) :
  os_path_isdir w path = false ->
  fst (_init_fuzzer aggression w None) = Ok tt ->
  (forall size,
      os_path_isfile w path = true -> os_path_getsize w path = Ok size -> 0 < size ->
      exists self,
        __init__ path exts aggression is_replay rotate w = (Ok self, [EvScan exts])
        /\ _templates self = [os_path_abspath w path])
  /\ (os_path_isfile w path = false
      \/ (exists size, os_path_getsize w path = Ok size /\ size <= 0) ->
      __init__ path exts aggression is_replay rotate w
      = (Err (IOError ("Could not find test case(s) at " ++ path)), [EvScan exts]))
  /\ (forall e,
        os_path_isfile w path = true -> os_path_getsize w path = Err e ->
        __init__ path exts aggression is_replay rotate w = (Err e, [EvScan exts])).
Proof.
  intros Hdir Hinit. rewrite init_eq.
  destruct (_init_fuzzer aggression w None) as [[[]|e] fz]; [|discriminate Hinit].
  unfold scan_candidates, scan_error, scan_outcome. rewrite Hdir. split; [|split].
  - intros size Hfile Hsize Hpos. apply Z.ltb_lt in Hpos. rewrite Hfile, Hsize, Hpos.
    cbn [fst snd].
    eexists. split; [reflexivity|]. cbn [_templates]. destruct is_replay; reflexivity.
  - intros [Hfile|[size [Hsize Hpos]]].
    + rewrite Hfile. reflexivity.
    + apply Z.ltb_ge in Hpos. destruct (os_path_isfile w path); [|reflexivity].
      rewrite Hsize, Hpos. reflexivity.
  - intros e Hfile Hsize. rewrite Hfile, Hsize. reflexivity.
Qed.

(** X4.  The extension of a file is put in lower case before it is looked
    up in the filter, and the entries of the filter are not: with a
    filter whose entries all have an upper case letter, no file of a
    directory is kept and the scan raises [IOError]. *)
Theorem uppercase_filter_matches_nothing (exts : list string) (w : World)
        (self : CorpusManager.t) :
  os_path_isdir w (_corpus_path self) = true ->
  exts <> [] ->
  (forall e, In e exts -> PyStr.lower e <> e) ->
  _scan_for_templates (Some exts) w self
  = (Err (IOError ("Could not find test case(s) at " ++ _corpus_path self)),
     with_templates self [], [EvScan (Some exts)]).
Proof.
  intros Hdir Hne Hupper. rewrite scan_for_templates_eq.
  assert (Hrefused : forall f_name, wanted (Some exts) f_name = true -> False).
  { intros f_name Hw. apply wanted_iff in Hw. destruct Hw as (_ & _ & Hext).
    destruct exts as [|e l]; [now apply Hne|].
    cbn [extension_accepted] in Hext.
    apply (Hupper _ Hext). apply lower_idempotent. }
  destruct (scan_error w (_corpus_path self) (Some exts)) as [e|] eqn:Hstop.
  { exfalso. apply (proj1 (@scan_error_dir _ _ (Some exts) Hdir)) in Hstop.
    destruct Hstop as (d_name & filenames & f_name & _ & _ & Hw & _).
    exact (Hrefused _ Hw). }
  rewrite (@no_members_nil _ (scan_candidates w (_corpus_path self) (Some exts)));
    [reflexivity|].
  intros p Hp. apply (proj1 (@in_scan_candidates_dir _ _ (Some exts) p Hdir)) in Hp.
  destruct Hp as (d_name & filenames & f_name & _ & _ & _ & H1 & H2 & Hext & _).
  apply (Hrefused f_name). apply wanted_iff. repeat split; assumption.
Qed.

End ConstructorFacts.

(** ** More on one call of [generate] *)

Section GenerateFacts.
Context {F : Fuzzer}.
Import CorpusManager.



(** X5.  A rescan that raises.  At a rotation boundary, when the rescan
    raises, [generate] raises the same exception before a template is
    chosen and before the hook is called, and leaves the manager as the
    rescan left it: the active template and the counter are kept, so the
    next call is at the boundary again and rescans.  The rescan raises
    [IOError], with the pool empty, when it finds no candidate; and when a
    call of [os.path.getsize] raises, it raises that exception, with the
    pool as far as it was rebuilt. *)
Theorem generate_rescan_finds_nothing (mime_type : option string) (w : World)
        (self : CorpusManager.t) :
  0 < _rotate_period self ->
  _generated self mod _rotate_period self = 0 ->
  let rescan := _scan_for_templates None w self in
  (forall e,
      fst (fst rescan) = Err e ->
      generate mime_type w self = (Err e, snd (fst rescan), [EvScan None])
      /\ _active_template (snd (fst rescan)) = _active_template self
      /\ _generated (snd (fst rescan)) = _generated self
      /\ at_boundary (snd (fst rescan)) = true)
  /\ (scan_outcome w (_corpus_path self) None = ([], None) ->
      rescan = (Err (IOError ("Could not find test case(s) at " ++ _corpus_path self)),
                with_templates self [], [EvScan None]))
  /\ (forall found e,
        scan_outcome w (_corpus_path self) None = (found, Some e) ->
        rescan = (Err e, with_templates self found, [EvScan None])).
Proof.
  intros HP Hmod. cbv zeta.
  assert (Hb : at_boundary self = true).
  { unfold at_boundary. apply Z.ltb_lt in HP. apply Z.eqb_eq in Hmod. now rewrite HP, Hmod. }
  rewrite generate_eq, rotate_templates_eq, Hb, scan_for_templates_eq.
  unfold scan_error, scan_candidates.
  destruct (scan_outcome w (_corpus_path self) None) as [found [e'|]]; cbn [fst snd].
  - split; [|split].
    + intros e H. injection H as ->. repeat split. exact Hb.
    + discriminate.
    + intros found' e H. injection H as -> ->. reflexivity.
  - destruct found as [|x found].
    + split; [|split].
      * intros e H. injection H as <-. repeat split. exact Hb.
      * reflexivity.
      * discriminate.
    + split; [|split]; discriminate.
Qed.


(** X7.  In replay mode every call takes a template, also a call whose
    hook raises.  With the period at [0] and a pool that ends with [x],
    after the call the pool has lost [x] and [x] is the active template,
    whatever the hook did; the counter has moved only if the call
    returned.  A caller that calls again after a failure gets the next
    template, not [x]. *)
Theorem replay_consumes_template (mime_type : option string) (w : World)
        (self : CorpusManager.t) (pool : list string) (x : string) :
  _is_replay self = true ->
  _rotate_period self = 0 ->
  _templates self = (pool ++ [x])%list ->
  let self' := snd (fst (generate mime_type w self)) in
  _templates self' = pool
  /\ get_active_file_name self' = Some x
  /\ snd (generate mime_type w self) = []
  /\ (forall e, fst (fst (generate mime_type w self)) = Err e ->
                _generated self' = _generated self).
Proof.
  intros Hrep Hper Hpool. cbv zeta.
  rewrite generate_eq, rotate_templates_eq. unfold at_boundary. rewrite Hper.
  cbn [Z.ltb Z.compare andb].
  rewrite choose_template_eq, Hrep, Hpool, rev_app_distr. cbn [rev app].
  rewrite rev_involutive. cbv zeta.
  set (s2 := with_active_template (with_templates self pool) (Some (fresh_template x))).
  pose proof (after_hook_frame w s2 (fst (shell_of s2)) (snd (shell_of s2)) mime_type)
    as (_ & Hpool' & Hname).
  destruct (fst (_generate _ _ _ _ _)) as [test|e]; cbn [fst snd].
  - repeat split; try assumption. discriminate.
  - repeat split; try assumption.
Qed.

(** X8.  The single candidate.  Outside replay mode, at a rotation
    boundary where the rescan returns with exactly one candidate [c], a
    template that was active stays active, also when it is another file
    than [c]; the pool is [[c]].  The template is the object the hook is
    given, so after the call it has cached what the hook has read. *)
Theorem generate_single_candidate (mime_type : option string) (w : World)
        (self : CorpusManager.t) (tpl : Template.t) (c : string) :
  _is_replay self = false ->
  0 < _rotate_period self ->
  _generated self mod _rotate_period self = 0 ->
  _scan_for_templates None w self = (Ok tt, with_templates self [c], [EvScan None]) ->
  _active_template self = Some tpl ->
  let self' := snd (fst (generate mime_type w self)) in
  let s1 := with_templates self [c] in
  let calls := _generate_calls w (_fuzzer s1) (fst (shell_of s1)) (snd (shell_of s1))
                 mime_type in
  _active_template self' = Some (after_calls w calls tpl)
  /\ get_active_file_name self' = Some (Template.file_name tpl)
  /\ (calls = [] -> _active_template self' = Some tpl)
  /\ _templates self' = [c]
  /\ snd (generate mime_type w self) = [EvScan None].
Proof.
  intros Hfresh HP Hmod Hone Hact. cbv zeta.
  assert (Hb : at_boundary self = true).
  { unfold at_boundary. apply Z.ltb_lt in HP. apply Z.eqb_eq in Hmod. now rewrite HP, Hmod. }
  assert (Hrot : rotate_templates w self = (Ok tt, with_templates self [c], [EvScan None])).
  { unfold rotate_templates. unfold bind at 1. unfold get at 1.
    fold (at_boundary self). rewrite Hb. unfold bind at 1. rewrite Hone.
    reflexivity. }
  rewrite generate_eq, Hrot.
  rewrite choose_template_eq. cbn [_is_replay with_templates _active_template].
  rewrite Hfresh, Hact. cbv zeta.
  set (s1 := with_templates self [c]).
  set (calls := _generate_calls w (_fuzzer s1) (fst (shell_of s1)) (snd (shell_of s1))
                  mime_type).
  assert (Hact' : _active_template
                    (after_hook w s1 (fst (shell_of s1)) (snd (shell_of s1)) mime_type)
                  = Some (after_calls w calls tpl)).
  { unfold after_hook. cbn [_active_template with_active_template with_fuzzer].
    change (_active_template s1) with (_active_template self). now rewrite Hact. }
  assert (Hname : get_active_file_name
                    (after_hook w s1 (fst (shell_of s1)) (snd (shell_of s1)) mime_type)
                  = Some (Template.file_name tpl)).
  { unfold get_active_file_name. rewrite Hact'.
    now rewrite (proj1 (after_calls_file_name w calls tpl)). }
  assert (Hnil : calls = [] ->
                 _active_template
                   (after_hook w s1 (fst (shell_of s1)) (snd (shell_of s1)) mime_type)
                 = Some tpl).
  { intros Hc. rewrite Hact', Hc. reflexivity. }
  destruct (fst (_generate _ _ _ _ _)) as [test|e]; cbn [fst snd app];
    repeat split; assumption.
Qed.

(** X9.  The choice of a template.  Outside replay mode, when no
    template is active after the rotation check (none was, or it was
    cleared) and the pool is not empty, the call makes the path at index
    [random_draw mod len(pool)] of the pool active, as a new template that
    has read nothing, and hands that template to the hook; after the call
    the active template is that object, with what the calls of the hook
    have cached.  With an empty pool the call raises [IndexError], the
    hook is not called and the counter stays. *)
Theorem generate_chooses_from_pool (mime_type : option string) (w : World)
        (self s1 : CorpusManager.t) (t1 : list event) :
  _is_replay self = false ->
  rotate_templates w self = (Ok tt, s1, t1) ->
  _active_template s1 = None ->
  let self' := snd (fst (generate mime_type w self)) in
  match nth_error (_templates s1) (random_draw w mod List.length (_templates s1)) with
  | Some name =>
      In name (_templates self')
      /\ _templates self' = _templates s1
      /\ get_active_file_name self' = Some name
      /\ exists s2 tpl,
          choose_template w s1 = (Ok tt, s2, [])
          /\ _active_template s2 = Some tpl
          /\ Template.file_name tpl = name
          /\ unloaded tpl
          /\ TestCase.template (fst (shell_of s2)) = Some tpl
          /\ fst (fst (generate mime_type w self))
             = fst (_generate w (_fuzzer s2) (fst (shell_of s2)) (snd (shell_of s2))
                      mime_type)
          /\ _active_template self'
             = Some (after_calls w
                       (_generate_calls w (_fuzzer s2) (fst (shell_of s2))
                          (snd (shell_of s2)) mime_type)
                       tpl)
  | None =>
      _templates s1 = []
      /\ generate mime_type w self = (Err (IndexError "list index out of range"), s1, t1)
      /\ _generated s1 = _generated self
  end.
Proof.
  intros Hfresh Hrot Hact. cbv zeta.
  pose proof (rotate_templates_settings w self) as Hset. rewrite Hrot in Hset.
  destruct Hset as (_ & Hn & Hrep & _). cbn [fst snd] in Hn, Hrep.
  rewrite generate_eq, Hrot, choose_template_eq, Hrep, Hfresh, Hact.
  destruct (nth_error (_templates s1) (random_draw w mod List.length (_templates s1)))
    as [name|] eqn:Hnth.
  - apply nth_error_In in Hnth. cbv zeta.
    set (s2 := with_active_template s1 (Some (fresh_template name))).
    pose proof (after_hook_frame w s2 (fst (shell_of s2)) (snd (shell_of s2)) mime_type)
      as (_ & Hpool' & Hname).
    assert (Hshell : TestCase.template (fst (shell_of s2)) = Some (fresh_template name)).
    { unfold shell_of. destruct (_use_transition s2); reflexivity. }
    destruct (fst (_generate w (_fuzzer s2) (fst (shell_of s2)) (snd (shell_of s2))
                     mime_type)) as [test|e] eqn:Hh; cbn [fst snd].
    + split; [exact Hnth|]. split; [reflexivity|]. split; [exact Hname|].
      exists s2, (fresh_template name).
      repeat split; solve [exact Hshell | symmetry; exact Hh].
    + split; [exact Hnth|]. split; [reflexivity|]. split; [exact Hname|].
      exists s2, (fresh_template name).
      repeat split; solve [exact Hshell | symmetry; exact Hh].
  - rewrite app_nil_r. repeat split; try assumption.
    apply nth_error_None in Hnth.
    destruct (_templates s1) as [|y l]; [reflexivity|].
    exfalso. pose proof (Nat.mod_upper_bound (random_draw w) (List.length (y :: l))) as Hlt.
    cbn [List.length] in Hlt, Hnth. lia.
Qed.

(** X10.  Without the transition page no file is added: the hook gets a
    test case without files, and the name of the next landing page as the
    page to go to.  The template of that test case is the active template
    of the manager; after the call the manager holds it with what the
    calls of the hook have cached, and as it was when the hook made no
    call on it. *)
Theorem generate_without_transition (mime_type : option string) (w : World)
        (self self' : CorpusManager.t) (test : TestCase.t) (tr : list event) :
  _use_transition self = false ->
  generate mime_type w self = (Ok test, self', tr) ->
  exists s2 landing next,
    Ok landing = "test_page_%04d.html" %% [AInt (_generated self)]
    /\ Ok next = "test_page_%04d.html" %% [AInt (_generated self + 1)]
    /\ fst (_generate w (_fuzzer s2)
              (TestCase.mk key landing (_active_template s2) [] []) next mime_type)
       = Ok test
    /\ _active_template self'
       = option_map
           (after_calls w
              (_generate_calls w (_fuzzer s2)
                 (TestCase.mk key landing (_active_template s2) [] []) next mime_type))
           (_active_template s2)
    /\ get_active_file_name self' = get_active_file_name s2
    /\ (_generate_calls w (_fuzzer s2)
          (TestCase.mk key landing (_active_template s2) [] []) next mime_type = [] ->
        _active_template self' = _active_template s2).
Proof.
  intros Htrans Hgen. rewrite generate_eq in Hgen.
  pose proof (rotate_templates_settings w self) as Hr.
  destruct (rotate_templates w self) as [[[[]|e1] s1] t1]; [|discriminate].
  pose proof (choose_template_settings w s1) as Hc.
  destruct (choose_template w s1) as [[[[]|e2] s2] t2]; [|discriminate].
  cbn [fst snd] in Hr, Hc.
  destruct (same_settings_trans Hr Hc) as (_ & Hn & _ & _ & Hu).
  cbv zeta in Hgen.
  pose proof (after_hook_frame w s2 (fst (shell_of s2)) (snd (shell_of s2)) mime_type)
    as (_ & _ & Hname).
  destruct (fst (_generate w (_fuzzer s2) (fst (shell_of s2)) (snd (shell_of s2)) mime_type))
    as [test'|e3] eqn:Hh; [|discriminate].
  injection Hgen as <- <- <-.
  unfold after_hook in Hname |- *.
  unfold shell_of in Hh, Hname |- *. rewrite Hu, Htrans, Hn in Hh, Hname |- *.
  cbn [fst snd] in Hh, Hname |- *.
  exists s2, (test_page (_generated self)), (test_page (_generated self + 1)).
  rewrite !percent_test_page, Hh. repeat split; [exact Hname|].
  intros ->. cbn [_active_template with_generated with_active_template].
  destruct (_active_template s2); reflexivity.
Qed.

End GenerateFacts.

(** ** The names of the landing pages *)

Lemma string_length_app (a b : string) :
  String.length (a ++ b) = (String.length a + String.length b)%nat.
Proof. induction a as [|c a IH]; simpl; [reflexivity | now rewrite IH]. Qed.

Lemma string_app_inv_tail (a b c : string) : a ++ c = b ++ c -> a = b.
Proof.
  revert b. induction a as [|x a IH]; intros [|y b] H; simpl in H.
  - reflexivity.
  - apply (f_equal String.length) in H. simpl in H. rewrite string_length_app in H. lia.
  - apply (f_equal String.length) in H. simpl in H. rewrite string_length_app in H. lia.
  - injection H as -> H. f_equal. now apply IH.
Qed.

Lemma string_app_inv_head (a b c : string) : a ++ b = a ++ c -> b = c.
Proof.
  induction a as [|x a IH]; simpl; intros H; [exact H|].
  injection H as H. now apply IH.
Qed.

(** The number a string of digits stands for; leading zeros do not
    count. *)
Lemma digits_zero_prefix (k : nat) (s : string) :
  option_map N.of_uint (DecimalString.NilEmpty.uint_of_string (PyStr.repeat_char "0" k ++ s))
  = option_map N.of_uint (DecimalString.NilEmpty.uint_of_string s).
Proof.
  induction k as [|k IH]; [reflexivity|].
  cbn [PyStr.repeat_char append DecimalString.NilEmpty.uint_of_string].
  rewrite <- IH.
  destruct (DecimalString.NilEmpty.uint_of_string (PyStr.repeat_char "0" k ++ s));
    reflexivity.
Qed.

Lemma digits_decimal (n : N) :
  option_map N.of_uint (DecimalString.NilEmpty.uint_of_string (PyStr.decimal n)) = Some n.
Proof.
  unfold PyStr.decimal, DecimalString.NilZero.string_of_uint.
  pose proof (DecimalN.Unsigned.of_to n) as Hn.
  destruct (N.to_uint n) eqn:Hd;
    try (rewrite DecimalString.NilEmpty.usu; cbn [option_map]; now rewrite Hn).
  cbn in Hn. subst n. reflexivity.
Qed.

Lemma pad_int_digits (w : nat) (n : Z) :
  0 <= n ->
  option_map N.of_uint (DecimalString.NilEmpty.uint_of_string (PyFormat.pad_int true w n))
  = Some (Z.to_N n).
Proof.
  intros Hn. unfold PyFormat.pad_int.
  assert (Hsign : (n <? 0) = false) by now apply Z.ltb_ge.
  rewrite Hsign. cbn [append].
  rewrite digits_zero_prefix, digits_decimal, Z.abs_eq by exact Hn. reflexivity.
Qed.

Lemma test_page_inj (n m : Z) : 0 <= n -> 0 <= m -> test_page n = test_page m -> n = m.
Proof.
  intros Hn Hm H. unfold test_page in H.
  apply string_app_inv_head, string_app_inv_tail in H.
  pose proof (pad_int_digits 4 Hn) as Dn. pose proof (pad_int_digits 4 Hm) as Dm.
  rewrite H in Dn. rewrite Dn in Dm. injection Dm as Dm.
  apply Z2N.inj in Dm; assumption.
Qed.

Section RunFacts.
Context {F : Fuzzer}.
Import CorpusManager.

(** X11.  The landing page names tell the counters apart: two managers
    whose counters are not negative give the same [landing_page()]
    exactly when their counters are equal, and [landing_page()] never
    raises. *)
Theorem landing_page_injective (s1 s2 : CorpusManager.t) :
  0 <= _generated s1 ->
  0 <= _generated s2 ->
  (exists name, landing_page s1 = Ok name)
  /\ (landing_page s1 = landing_page s2 <-> _generated s1 = _generated s2).
Proof.
  intros H1 H2. unfold landing_page. rewrite !percent_test_page.
  split; [eexists; reflexivity|]. split.
  - intros H.
    apply (f_equal (fun r => match r with Ok name => name | Err _ => "" end)) in H.
    apply test_page_inj; assumption.
  - intros ->. reflexivity.
Qed.

Lemma generate_step (mime_type : option string) (w : World) (s : CorpusManager.t) :
  match generate mime_type w s with
  | (Ok test, s', _) =>
      _generated s' = _generated s + 1
      /\ (hook_appends -> TestCase.landing_page test = test_page (_generated s))
  | (Err _, s', _) => _generated s' = _generated s
  end.
Proof.
  rewrite generate_eq.
  pose proof (rotate_templates_settings w s) as Hr.
  destruct (rotate_templates w s) as [[[[]|e1] s1] t1];
    [|destruct Hr as (_ & Hn & _); exact Hn].
  pose proof (choose_template_settings w s1) as Hc.
  destruct (same_settings_trans Hr Hc) as (_ & Hn & _).
  destruct (choose_template w s1) as [[[[]|e2] s2] t2]; [|exact Hn].
  cbn [fst snd] in Hn.
  destruct (_generate w (_fuzzer s2) (fst (shell_of s2)) (snd (shell_of s2)) mime_type)
    as [[test|e3] fz] eqn:Hh; [|exact Hn].
  split.
  - cbn [_generated with_generated]. now rewrite Hn.
  - intros Hhook. apply Hhook in Hh. destruct Hh as [Hlp _]. rewrite Hlp, <- Hn.
    unfold shell_of. destruct (_use_transition s2); reflexivity.
Qed.

(** X12.  Over a run of calls, whatever fails in between, the counter
    ends at its first value plus the number of calls that returned. *)
Theorem run_counts_returns (mime_type : option string) (ws : list World)
        (self : CorpusManager.t) :
  _generated (snd (fst (run_generate mime_type ws self)))
  = _generated self
    + Z.of_nat (List.length (returned (fst (fst (run_generate mime_type ws self))))).
Proof.
  revert self. induction ws as [|w ws IH]; intros self; cbn [run_generate].
  - cbn. lia.
  - pose proof (generate_step mime_type w self) as Hg.
    destruct (generate mime_type w self) as [[r s1] t1].
    specialize (IH s1).
    destruct (run_generate mime_type ws s1) as [[rs s2] t2]. cbn [fst snd] in IH |- *.
    unfold returned in *. cbn [flat_map fst].
    destruct r as [test|e].
    + destruct Hg as [Hg _]. rewrite IH, Hg, length_app. cbn [List.length]. lia.
    + rewrite IH, Hg. reflexivity.
Qed.

Lemma run_landing_pages (mime_type : option string) (ws : list World) :
  hook_appends ->
  forall self : CorpusManager.t,
  exists k,
    map TestCase.landing_page (returned (fst (fst (run_generate mime_type ws self))))
    = map (fun i => test_page (_generated self + Z.of_nat i)) (seq 0 k).
Proof.
  intros Hhook. induction ws as [|w ws IH]; intros self; cbn [run_generate].
  - exists O. reflexivity.
  - pose proof (generate_step mime_type w self) as Hg.
    destruct (generate mime_type w self) as [[r s1] t1].
    destruct (IH s1) as [k Hk].
    destruct (run_generate mime_type ws s1) as [[rs s2] t2]. cbn [fst snd] in Hk |- *.
    unfold returned in *. cbn [flat_map fst].
    destruct r as [test|e].
    + destruct Hg as [Hn Hlp]. exists (S k). cbn [app map seq].
      rewrite (Hlp Hhook), Hk, Z.add_0_r. f_equal.
      rewrite <- seq_shift, map_map. apply map_ext. intros i. rewrite Hn. f_equal. lia.
    + exists k. cbn [app]. rewrite Hk, Hg. reflexivity.
Qed.

(** X13.  With a hook that only adds files, the test cases a run of
    calls returns have landing pages that are all different, in any mode
    and whatever calls failed in between, when the counter is not negative
    at the start (it is [0] in a new manager). *)
Theorem run_landing_pages_distinct (mime_type : option string) (ws : list World)
        (self : CorpusManager.t) :
  hook_appends ->
  0 <= _generated self ->
  NoDup (map TestCase.landing_page (returned (fst (fst (run_generate mime_type ws self))))).
Proof.
  intros Hhook Hpos. destruct (run_landing_pages mime_type ws Hhook self) as [k Hk].
  rewrite Hk. apply NoDup_map_NoDup_ForallPairs; [|apply seq_NoDup].
  intros i j _ _ H. apply test_page_inj in H; lia.
Qed.

End RunFacts.

(** X14.  The base class cannot generate: with its [_generate], no call
    of any run returns, each call raises (the [NotImplementedError] of the
    hook, unless the scan or the choice of a template failed first), and
    the counter never moves. *)
Theorem base_class_never_generates (mime_type : option string) (ws : list World)
        (self : @CorpusManager.t base_class) :
  let results := fst (fst (run_generate mime_type ws self)) in
  returned results = []
  /\ Forall (fun r => exists e, fst r = Err e) results
  /\ CorpusManager._generated (snd (fst (run_generate mime_type ws self)))
     = CorpusManager._generated self.
Proof.
  cbv zeta. revert self. induction ws as [|w ws IH]; intros self; cbn [run_generate].
  - repeat split. constructor.
  - assert (Hfail : exists e, fst (fst (CorpusManager.generate mime_type w self)) = Err e).
    { rewrite generate_eq.
      destruct (CorpusManager.rotate_templates w self) as [[[[]|e1] s1] t1];
        [|eexists; reflexivity].
      destruct (CorpusManager.choose_template w s1) as [[[[]|e2] s2] t2];
        [|eexists; reflexivity].
      cbv zeta. cbn [_generate base_class fst]. eexists. reflexivity. }
    pose proof (generate_step mime_type w self) as Hg.
    destruct (CorpusManager.generate mime_type w self) as [[[test|e] s1] t1];
      cbn [fst] in Hfail.
    + destruct Hfail as [e He]. discriminate He.
    + destruct (IH s1) as (H1 & H2 & H3).
      destruct (run_generate mime_type ws s1) as [[rs s3] t3]. cbn [fst snd] in *.
      repeat split; [exact H1 | constructor; [eexists; reflexivity | exact H2] |].
      now rewrite H3.
Qed.

(** ** More on templates *)

Section TemplateFacts.
Import Template.





Lemma rfind_from_spec (c : ascii) (s : string) :
  forall i acc,
    (PyStr.contains_char c s = false -> PyStr.rfind_from c s i acc = acc)
    /\ (PyStr.contains_char c s = true ->
        exists k rest,
          PyStr.rfind_from c s i acc = i + Z.of_nat k
          /\ PyStr.skip k s = String c rest
          /\ PyStr.take k s ++ String c rest = s
          /\ PyStr.contains_char c rest = false).
Proof.
  induction s as [|a s IH]; intros i acc; cbn [PyStr.contains_char PyStr.rfind_from].
  - split; [reflexivity | discriminate].
  - destruct (IH (i + 1) (if Ascii.eqb a c then i else acc)) as [IHno IHyes].
    destruct (PyStr.contains_char c s) eqn:Hs.
    + rewrite orb_true_r. split; [discriminate|]. intros _.
      destruct (IHyes eq_refl) as (k & rest & Hr & Hskip & Htake & Hrest).
      exists (S k), rest. cbn [PyStr.skip PyStr.take append].
      repeat split; [rewrite Hr; lia | exact Hskip | now rewrite Htake | exact Hrest].
    + rewrite orb_false_r, (IHno eq_refl).
      destruct (Ascii.eqb a c) eqn:Hac.
      * split; [discriminate|]. intros _. apply Ascii.eqb_eq in Hac. subst a.
        exists O, s. cbn [PyStr.skip PyStr.take append].
        repeat split; [lia | exact Hs].
      * split; [reflexivity | discriminate].
Qed.

Lemma lstrip_no_char (c : ascii) (s : string) :
  PyStr.contains_char c s = false -> PyStr.lstrip_char c s = s.
Proof.
  destruct s as [|a s]; [reflexivity|]. cbn [PyStr.contains_char PyStr.lstrip_char].
  destruct (Ascii.eqb a c); [discriminate | reflexivity].
Qed.

(** The extension [splitext] gives is empty, or a dot and a text
    without dot that ends the path. *)
Lemma splitext_ext (p : string) :
  snd (OsPath.splitext p) = ""
  \/ exists stem rest,
      snd (OsPath.splitext p) = String "." rest
      /\ p = stem ++ String "." rest
      /\ PyStr.contains_char "." rest = false.
Proof.
  unfold OsPath.splitext.
  destruct (PyStr.rfind "/" p <? PyStr.rfind "." p) eqn:Hlt; [|now left].
  destruct (PyStr.all_char "." _); [now left|]. right. cbn [snd].
  destruct (@rfind_from_spec "." p 0 (-1)) as [Hno Hyes].
  destruct (PyStr.contains_char "." p) eqn:Hdot.
  - destruct (Hyes eq_refl) as (k & rest & Hr & Hskip & Htake & Hrest).
    unfold PyStr.rfind. rewrite Hr. cbn [Z.add]. rewrite Nat2Z.id.
    exists (PyStr.take k p), rest. rewrite Hskip, Htake. repeat split. exact Hrest.
  - exfalso. apply Z.ltb_lt in Hlt. unfold PyStr.rfind in Hlt at 2.
    rewrite (Hno eq_refl) in Hlt.
    destruct (@rfind_from_spec "/" p 0 (-1)) as [Hno' Hyes'].
    unfold PyStr.rfind in Hlt.
    destruct (PyStr.contains_char "/" p).
    + destruct (Hyes' eq_refl) as (k & _ & Hr & _). rewrite Hr in Hlt. lia.
    + rewrite (Hno' eq_refl) in Hlt. lia.
Qed.

(** X16.  The extension of a template.  [Template(name)] has no
    extension exactly when [name] holds no dot anywhere, also not in a
    directory; otherwise the extension has no dot in it, and when it is
    not empty, [name] ends with a dot and the extension. *)
Theorem Template_extension (St : Type) (s : St) (w : World) (name : string) :
  exists tpl,
    Template.__init__ (Some name) w s = (Ok tpl, s, [])
    /\ (extension tpl = None <-> PyStr.contains_char "." name = false)
    /\ (forall e, extension tpl = Some e ->
                  PyStr.contains_char "." e = false
                  /\ (e <> "" -> exists stem, name = stem ++ "." ++ e)).
Proof.
  eexists. split; [reflexivity|]. cbn [extension].
  destruct (PyStr.contains_char "." name) eqn:Hdot.
  - split; [split; discriminate|]. intros e He. injection He as <-.
    destruct (splitext_ext name) as [H|(stem & rest & Hext & Hname & Hrest)].
    + rewrite H. split; [reflexivity | intros Hne; now destruct Hne].
    + rewrite Hext. cbn [PyStr.lstrip_char]. rewrite Ascii.eqb_refl.
      rewrite (lstrip_no_char _ _ Hrest). split; [exact Hrest|].
      intros _. exists stem. exact Hname.
  - split; [split; reflexivity|]. intros e He. discriminate He.
Qed.

End TemplateFacts.

(** ** Writing a test case to a directory *)

Section DumpFacts.
Import Dump.
Variable open_error : string -> option exception.

Lemma write_one (path s : string) (d : Disk) (q : string) :
  append path s (create path d) q = if String.eqb q path then Some s else d q.
Proof. unfold append, create. destruct (String.eqb q path); reflexivity. Qed.

Lemma write_test_files_ok (log_dir : string) (files : list TestFile.t) (w : World)
      (self : TestCase.t) (d : Disk) :
  (forall f, In f files -> open_error (target log_dir f) = None) ->
  write_test_files open_error log_dir files w (self, d)
  = (Ok tt, (self, written log_dir files d), []).
Proof.
  revert d. induction files as [|f files IH]; intros d Hopen; cbn [write_test_files written fold_left].
  - reflexivity.
  - unfold bind at 1. unfold fp_open. fold (target log_dir f).
    rewrite (Hopen f (or_introl eq_refl)).
    unfold bind at 1. unfold get at 1. unfold put at 1.
    unfold bind at 1. unfold fp_write, bind at 1, get at 1, put at 1. cbn [fst snd].
    rewrite IH by (intros g Hg; apply Hopen; now right).
    reflexivity.
Qed.

Lemma write_test_files_refused (log_dir : string) (before after : list TestFile.t)
      (f : TestFile.t) (e : exception) (w : World) (self : TestCase.t) (d : Disk) :
  (forall g, In g before -> open_error (target log_dir g) = None) ->
  open_error (target log_dir f) = Some e ->
  write_test_files open_error log_dir (before ++ f :: after) w (self, d)
  = (Err e, (self, written log_dir before d), []).
Proof.
  revert d. induction before as [|g before IH]; intros d Hopen Hf;
    cbn [write_test_files written fold_left app].
  - unfold bind at 1. unfold fp_open. fold (target log_dir f). rewrite Hf. reflexivity.
  - unfold bind at 1. unfold fp_open. fold (target log_dir g).
    rewrite (Hopen g (or_introl eq_refl)).
    unfold bind at 1. unfold get at 1. unfold put at 1.
    unfold bind at 1. unfold fp_write, bind at 1, get at 1, put at 1. cbn [fst snd].
    rewrite IH by (try (intros h Hh; apply Hopen; now right); exact Hf).
    reflexivity.
Qed.

Lemma find_app_last (A : Type) (p : A -> bool) (l : list A) (x : A) :
  List.find p (l ++ [x]) =
  match List.find p l with
  | Some y => Some y
  | None => if p x then Some x else None
  end.
Proof.
  induction l as [|y l IH]; cbn [List.find app]; [reflexivity|].
  destruct (p y); [reflexivity | exact IH].
Qed.

(** A path holds the data of the last file written to it. *)
Lemma written_lookup (log_dir : string) (files : list TestFile.t) (d : Disk) (p : string) :
  written log_dir files d p =
  match last_at log_dir p files with
  | Some f => Some (TestFile.data f)
  | None => d p
  end.
Proof.
  revert d. unfold written, last_at.
  induction files as [|f files IH]; intros d; cbn [fold_left rev]; [reflexivity|].
  rewrite IH, find_app_last.
  destruct (List.find _ (rev files)); [reflexivity|].
  rewrite write_one, (String.eqb_sym p).
  destruct (String.eqb (target log_dir f) p); reflexivity.
Qed.

Lemma last_at_unique (log_dir : string) (files : list TestFile.t) (f : TestFile.t) :
  NoDup (map (target log_dir) files) ->
  In f files ->
  last_at log_dir (target log_dir f) files = Some f.
Proof.
  unfold last_at. induction files as [|g files IH]; intros Hnd Hin; [destruct Hin|].
  cbn [rev map] in *. rewrite find_app_last.
  inversion Hnd as [|? ? Hnotin Hnd']; subst.
  destruct Hin as [->|Hin].
  - destruct (List.find _ (rev files)) as [h|] eqn:Hfind.
    + exfalso. apply find_some in Hfind. destruct Hfind as [Hh Heq].
      apply String.eqb_eq in Heq. apply Hnotin. rewrite <- Heq.
      apply in_map, in_rev, Hh.
    + now rewrite String.eqb_refl.
  - now rewrite (IH Hnd' Hin).
Qed.

(** X17.  [dump] without info file, when every file can be opened,
    returns, reads nothing and leaves the test case as it is.  Afterwards
    each path holds the data of the last test file that goes to it (a
    later file of the same name replaces an earlier one), and a path no
    test file goes to holds what it held.  With file names that are all
    different, every test file can be read back under
    [os.path.join(log_dir, file_name)]. *)
Theorem dump_writes_test_files (log_dir : string) (w : World) (self : TestCase.t) (d : Disk) :
  (forall f, In f (TestCase._test_files self) -> open_error (target log_dir f) = None) ->
  exists d',
    dump open_error log_dir false w (self, d) = (Ok tt, (self, d'), [])
    /\ (forall p, d' p = match last_at log_dir p (TestCase._test_files self) with
                         | Some f => Some (TestFile.data f)
                         | None => d p
                         end)
    /\ (forall p, (forall f, In f (TestCase._test_files self) -> target log_dir f <> p) ->
                  d' p = d p)
    /\ (NoDup (map (target log_dir) (TestCase._test_files self)) ->
        forall f, In f (TestCase._test_files self) ->
                  d' (target log_dir f) = Some (TestFile.data f)).
Proof.
  intros Hopen. exists (written log_dir (TestCase._test_files self) d).
  split; [|split; [|split]].
  - unfold dump. unfold bind at 1. unfold get at 1. cbn [fst].
    unfold bind at 1. rewrite write_test_files_ok by exact Hopen. reflexivity.
  - intros p. apply written_lookup.
  - intros p Hp. rewrite written_lookup.
    destruct (last_at log_dir p (TestCase._test_files self)) as [f|] eqn:Hlast; [|reflexivity].
    exfalso. unfold last_at in Hlast. apply find_some in Hlast.
    destruct Hlast as [Hin Heq]. apply String.eqb_eq in Heq.
    apply (Hp f); [apply in_rev, Hin | exact Heq].
  - intros Hnd f Hin. rewrite written_lookup, (last_at_unique _ _ _ Hnd Hin). reflexivity.
Qed.

(** X18.  [dump] stops at the first file it cannot open: it raises the
    exception of [open], the files before that one are written, the files
    after it are not, and no info file is written even when asked
    for. *)
Theorem dump_stops_at_refused_file (log_dir : string) (info_file : bool) (w : World)
        (self : TestCase.t) (d : Disk) (before after : list TestFile.t)
        (f : TestFile.t) (e : exception) :
  TestCase._test_files self = (before ++ f :: after)%list ->
  (forall g, In g before -> open_error (target log_dir g) = None) ->
  open_error (target log_dir f) = Some e ->
  dump open_error log_dir info_file w (self, d)
  = (Err e, (self, written log_dir before d), []).
Proof.
  intros Hfiles Hopen Hf.
  unfold dump. unfold bind at 1. unfold get at 1. cbn [fst].
  unfold bind at 1. rewrite Hfiles.
  erewrite write_test_files_refused by eassumption. reflexivity.
Qed.

Lemma percent_info_line (fmt label : string) (a : fmt_arg) :
  In (fmt, label)
     [("Corpus Manager: %s", "Corpus Manager: "); ("Landing Page:   %s", "Landing Page:   ");
      ("Template File:  %s", "Template File:  "); ("Template SHA1:  %s", "Template SHA1:  ")] ->
  (fmt ++ nl) %% [a] = Ok (label ++ PyFormat.arg_str a ++ nl).
Proof.
  intros [H|[H|[H|[H|[]]]]]; injection H as <- <-; reflexivity.
Qed.

(** The disk once the info file holds [text]. *)
Lemma info_disk (path text : string) (d d' : Disk) :
  (forall q, d' q = if String.eqb q path then Some text else d q) ->
  d' path = Some text /\ (forall p, p <> path -> d' p = d p).
Proof.
  intros H. split.
  - now rewrite H, String.eqb_refl.
  - intros p Hp. rewrite H. apply String.eqb_neq in Hp. now rewrite Hp.
Qed.

(** X19.  [dump] with the info file, when every file can be opened.
    Without template the info file holds the title, the key of the
    manager ([None] when there is none) and the landing page.  With a
    template whose [get_hash()] returns, it holds two more lines, the base
    name of the template file and the digest; [dump] then has read what
    [get_hash] has read, and the template of the test case keeps what
    [get_hash] cached.  The info file is written last: it replaces a test
    file of the same path, and all other paths hold the test files. *)
Theorem dump_info_file (log_dir : string) (w : World) (self : TestCase.t) (d : Disk) :
  (forall f, In f (TestCase._test_files self) -> open_error (target log_dir f) = None) ->
  open_error (info_path log_dir) = None ->
  match TestCase.template self with
  | None =>
      exists d',
        dump open_error log_dir true w (self, d) = (Ok tt, (self, d'), [])
        /\ d' (info_path log_dir) = Some (info_head self)
        /\ (forall p, p <> info_path log_dir ->
                      d' p = written log_dir (TestCase._test_files self) d p)
  | Some tpl =>
      forall hash tpl' tr,
        Template.get_hash w tpl = (Ok hash, tpl', tr) ->
        exists d',
          dump open_error log_dir true w (self, d)
          = (Ok tt, (with_template self (Some tpl'), d'), tr)
          /\ d' (info_path log_dir)
             = Some (info_head self ++ info_template_file tpl
                     ++ info_template_hash (PyFormat.arg_str (arg_of hash)))
          /\ (forall p, p <> info_path log_dir ->
                        d' p = written log_dir (TestCase._test_files self) d p)
  end.
Proof.
  intros Hopen Hinfo. unfold info_path in *.
  assert (L1 := @percent_info_line "Corpus Manager: %s" "Corpus Manager: "
                  (arg_of (TestCase.corpman_name self))).
  assert (L2 := @percent_info_line "Landing Page:   %s" "Landing Page:   "
                  (AStr (TestCase.landing_page self))).
  destruct (TestCase.template self) as [tpl|] eqn:Htpl.
  - intros hash tpl' tr Hhash.
    assert (L3 := @percent_info_line "Template File:  %s" "Template File:  "
                    (AStr (os_path_basename (Template.file_name tpl)))).
    assert (L4 := @percent_info_line "Template SHA1:  %s" "Template SHA1:  " (arg_of hash)).
    eexists. split.
    + unfold dump. unfold bind at 1. unfold get at 1. cbn [fst].
      unfold bind at 1. rewrite write_test_files_ok by exact Hopen.
      unfold fp_open. rewrite Hinfo.
      unfold fp_write, on_template, bind, get, put, lift, ret. cbn [fst snd].
      rewrite L1 by (simpl; tauto). rewrite L2 by (simpl; tauto). rewrite Htpl.
      rewrite L3 by (simpl; tauto). cbn [fst snd]. rewrite Htpl, Hhash.
      rewrite L4 by (simpl; tauto). cbn [app]. rewrite !app_nil_r. reflexivity.
    + apply info_disk. intros q. cbn [fst snd]. unfold append, create.
      destruct (String.eqb q (OsPath.join log_dir "test_info.txt")); [|reflexivity].
      unfold info_head, info_template_file, info_template_hash, PyFormat.arg_str at 3.
      repeat (progress (cbn [String.append]; rewrite ?string_app_assoc)). reflexivity.
  - eexists. split.
    + unfold dump. unfold bind at 1. unfold get at 1. cbn [fst].
      unfold bind at 1. rewrite write_test_files_ok by exact Hopen.
      unfold fp_open. rewrite Hinfo.
      unfold fp_write, bind, get, put, lift, ret. cbn [fst snd].
      rewrite L1 by (simpl; tauto). rewrite L2 by (simpl; tauto). rewrite Htpl. reflexivity.
    + apply info_disk. intros q. cbn [fst snd]. unfold append, create.
      destruct (String.eqb q (OsPath.join log_dir "test_info.txt")); [|reflexivity].
      unfold info_head.
      repeat (progress (cbn [String.append]; rewrite ?string_app_assoc)). reflexivity.
Qed.

(** X20.  When [get_hash()] of the template raises (the template file is
    gone and nothing was cached), [dump] with the info file raises that
    exception after it has written: the test files are on the disk, and
    the info file holds its first lines and the name of the template
    file, without the digest. *)
Theorem dump_info_file_without_digest (log_dir : string) (w : World) (self : TestCase.t)
        (d : Disk) (tpl tpl' : Template.t) (e : exception) (tr : list event) :
  (forall f, In f (TestCase._test_files self) -> open_error (target log_dir f) = None) ->
  open_error (info_path log_dir) = None ->
  TestCase.template self = Some tpl ->
  Template.get_hash w tpl = (Err e, tpl', tr) ->
  exists d',
    dump open_error log_dir true w (self, d)
    = (Err e, (with_template self (Some tpl'), d'), tr)
    /\ d' (info_path log_dir) = Some (info_head self ++ info_template_file tpl)
    /\ (forall p, p <> info_path log_dir ->
                  d' p = written log_dir (TestCase._test_files self) d p).
Proof.
  intros Hopen Hinfo Htpl Hhash. unfold info_path in *.
  assert (L1 := @percent_info_line "Corpus Manager: %s" "Corpus Manager: "
                  (arg_of (TestCase.corpman_name self))).
  assert (L2 := @percent_info_line "Landing Page:   %s" "Landing Page:   "
                  (AStr (TestCase.landing_page self))).
  assert (L3 := @percent_info_line "Template File:  %s" "Template File:  "
                  (AStr (os_path_basename (Template.file_name tpl)))).
  eexists. split.
  - unfold dump. unfold bind at 1. unfold get at 1. cbn [fst].
    unfold bind at 1. rewrite write_test_files_ok by exact Hopen.
    unfold fp_open. rewrite Hinfo.
    unfold fp_write, on_template, bind, get, put, lift, ret. cbn [fst snd].
    rewrite L1 by (simpl; tauto). rewrite L2 by (simpl; tauto). rewrite Htpl.
    rewrite L3 by (simpl; tauto). cbn [fst snd]. rewrite Htpl, Hhash.
    cbn [app]. reflexivity.
  - apply info_disk. intros q. cbn [fst snd]. unfold append, create.
    destruct (String.eqb q (OsPath.join log_dir "test_info.txt")); [|reflexivity].
    unfold info_head, info_template_file.
    repeat (progress (cbn [String.append]; rewrite ?string_app_assoc)). reflexivity.
Qed.

End DumpFacts.

(** ** The data URL keeps the data *)

(** X21.  A data URL keeps the data: with the same mime type (given or
    left out), two byte strings have the same URL only when they are the
    same. *)
Theorem to_data_url_injective (mime_type : option string) (data1 data2 : string) :
  CorpusManager.to_data_url data1 mime_type = CorpusManager.to_data_url data2 mime_type ->
  data1 = data2.
Proof.
  unfold CorpusManager.to_data_url. rewrite !percent_data_url. intros H.
  apply (f_equal (fun r => match r with Ok u => u | Err _ => "" end)) in H.
  do 3 apply string_app_inv_head in H.
  rewrite <- (b64decode_encode data1), <- (b64decode_encode data2). now rewrite H.
Qed.

(** X22.  The base64 text of [n] bytes has [4 * ceil(n / 3)] characters,
    so a data URL is as long as its head plus that. *)
Theorem to_data_url_length (mime_type data : string) :
  exists url,
    CorpusManager.to_data_url data (Some mime_type) = Ok url
    /\ String.length url
       = (13 + String.length mime_type + 4 * ((String.length data + 2) / 3))%nat.
Proof.
  unfold CorpusManager.to_data_url. rewrite percent_data_url.
  eexists. split; [reflexivity|].
  rewrite !string_length_app. cbn [String.length].
  assert (H : String.length (Base64.standard_b64encode data)
              = (4 * ((String.length data + 2) / 3))%nat).
  { induction data as [| a | a b | a b c rest IH] using string_ind3;
      try reflexivity.
    cbn [Base64.standard_b64encode String.length]. rewrite IH.
    replace (S (S (S (String.length rest))) + 2)%nat
      with ((String.length rest + 2) + 1 * 3)%nat by lia.
    rewrite Nat.div_add by lia. lia. }
  rewrite H. lia.
Qed.

(** ** Runs outside replay mode *)

Section FreshRuns.
Context {F : Fuzzer}.
Import CorpusManager.

Lemma choice_index (A : Type) (draw : nat) (x : A) (l : list A) :
  exists y, nth_error (x :: l) (draw mod List.length (x :: l)) = Some y.
Proof.
  destruct (nth_error (x :: l) (draw mod List.length (x :: l))) as [y|] eqn:H.
  - now exists y.
  - apply nth_error_None in H.
    pose proof (Nat.mod_upper_bound draw (List.length (x :: l))) as Hlt.
    cbn [List.length] in *. lia.
Qed.

(** Once the hook returned, in a manager outside replay mode whose pool
    is not empty and that has an active template. *)
Lemma hook_call_ready (mime_type : option string) (w : World) (s2 : CorpusManager.t)
      (tr : list event) :
  hook_returns ->
  _is_replay s2 = false ->
  _templates s2 <> [] ->
  _active_template s2 <> None ->
  forall out,
    out = (let s3 := after_hook w s2 (fst (shell_of s2)) (snd (shell_of s2)) mime_type in
           match fst (_generate w (_fuzzer s2) (fst (shell_of s2)) (snd (shell_of s2))
                        mime_type) with
           | Err e => (Err e, s3, tr)
           | Ok test => (Ok test, with_generated s3 (_generated s2 + 1), tr)
           end) ->
    pool_ready (snd (fst out))
    /\ is_ok (fst (fst out)) = true
    /\ _templates (snd (fst out)) <> []
    /\ _active_template (snd (fst out)) <> None.
Proof.
  intros Hhook Hfresh Hpool Hact out ->. cbv zeta.
  destruct (Hhook w (_fuzzer s2) (fst (shell_of s2)) (snd (shell_of s2)) mime_type)
    as [test [fz Hh]].
  rewrite Hh. cbn [fst snd]. unfold pool_ready, after_hook.
  cbn [_is_replay _templates _active_template with_generated with_active_template
       with_fuzzer].
  destruct (_active_template s2) as [tpl|]; [|contradiction].
  repeat split; try assumption; try discriminate. left. exact Hpool.
Qed.

Lemma generate_pool_ready (mime_type : option string) (w : World) (s : CorpusManager.t) :
  hook_returns ->
  pool_ready s ->
  pool_ready (snd (fst (generate mime_type w s)))
  /\ (is_ok (fst (fst (generate mime_type w s))) = true
      /\ _templates (snd (fst (generate mime_type w s))) <> []
      /\ _active_template (snd (fst (generate mime_type w s))) <> None
      \/ scan_outcome w (_corpus_path s) None = ([], None)
         /\ fst (fst (generate mime_type w s))
            = Err (IOError ("Could not find test case(s) at " ++ _corpus_path s))
      \/ exists found e,
          scan_outcome w (_corpus_path s) None = (found, Some e)
          /\ fst (fst (generate mime_type w s)) = Err e).
Proof.
  intros Hhook [Hfresh Hpool]. unfold pool_ready at 1.
  rewrite generate_eq, rotate_templates_eq, Hfresh.
  unfold scan_error, scan_candidates.
  destruct (at_boundary s) eqn:Hb.
  - destruct (scan_outcome w (_corpus_path s) None) as [found [e|]]; cbn [fst snd].
    + split; [|right; right; exists found, e; split; reflexivity].
      split; [exact Hfresh|]. right. exact Hb.
    + destruct found as [|x found].
      * split; [|right; left; split; reflexivity].
        split; [exact Hfresh|]. right. exact Hb.
      * cbv zeta. destruct (1 <? List.length (x :: found))%nat.
        -- rewrite choose_template_eq. cbn [_is_replay _active_template with_active_template
             with_templates _templates]. rewrite Hfresh.
           destruct (choice_index (random_draw w) x found) as [y Hy]. rewrite Hy.
           edestruct (@hook_call_ready mime_type w) as (A & B & C & D);
             [exact Hhook | | | | reflexivity |
              split; [exact A | left; repeat split; [exact B | exact C | exact D]]];
             [exact Hfresh | discriminate | discriminate].
        -- rewrite choose_template_eq. cbn [_is_replay _active_template with_templates
             _templates]. rewrite Hfresh.
           destruct (_active_template s) as [tpl|] eqn:Hact.
           ++ edestruct (@hook_call_ready mime_type w) as (A & B & C & D);
                [exact Hhook | | | | reflexivity |
                 split; [exact A | left; repeat split; [exact B | exact C | exact D]]];
                [exact Hfresh | discriminate | cbn; rewrite Hact; discriminate].
           ++ destruct (choice_index (random_draw w) x found) as [y Hy]. rewrite Hy.
              edestruct (@hook_call_ready mime_type w) as (A & B & C & D);
                [exact Hhook | | | | reflexivity |
                 split; [exact A | left; repeat split; [exact B | exact C | exact D]]];
                [exact Hfresh | discriminate | discriminate].
  - destruct Hpool as [Hne|Hb']; [|congruence].
    rewrite choose_template_eq, Hfresh.
    destruct (_active_template s) as [tpl|] eqn:Hact.
    + edestruct (@hook_call_ready mime_type w) as (A & B & C & D);
        [exact Hhook | | | | reflexivity |
         split; [exact A | left; repeat split; [exact B | exact C | exact D]]];
        [exact Hfresh | exact Hne | rewrite Hact; discriminate].
    + destruct (_templates s) as [|x l] eqn:Hl; [now destruct Hne|].
      destruct (choice_index (random_draw w) x l) as [y Hy]. rewrite Hy.
      edestruct (@hook_call_ready mime_type w) as (A & B & C & D);
        [exact Hhook | | | | reflexivity |
         split; [exact A | left; repeat split; [exact B | exact C | exact D]]];
        [exact Hfresh | cbn; rewrite Hl; discriminate | discriminate].
Qed.

(** X23.  Outside replay mode, with a hook that returns, a manager made
    by the constructor never fails in the choice of a template:
    [random.choice] is never asked to choose from an empty pool.  Each
    call of a run returns, or raises the exception of its rescan: the
    [IOError] of a rescan that found nothing, or the exception of a call
    of [os.path.getsize] that stopped the rescan. *)
Theorem fresh_run_outcomes (path : string) (exts : option (list string))
        (aggression : aggression_t) (rotate : Z) (w0 : World)
        (self : CorpusManager.t) (tr0 : list event)
        (mime_type : option string) (ws : list World) :
  hook_returns ->
  __init__ path exts aggression false rotate w0 = (Ok self, tr0) ->
  Forall2 (fun w r =>
             is_ok (fst r) = true
             \/ scan_outcome w path None = ([], None)
                /\ fst r = Err (IOError ("Could not find test case(s) at " ++ path))
             \/ exists found e,
                 scan_outcome w path None = (found, Some e) /\ fst r = Err e)
          ws (fst (fst (run_generate mime_type ws self))).
Proof.
  intros Hhook Hinit.
  assert (Hready : pool_ready self /\ _corpus_path self = path).
  { rewrite init_eq in Hinit.
    destruct (_init_fuzzer aggression w0 None) as [[[]|e] fz]; [|discriminate].
    destruct (scan_error w0 path exts) as [e|]; [discriminate|].
    destruct (scan_candidates w0 path exts) as [|x found]; [discriminate|].
    injection Hinit as <- <-. repeat split. left. discriminate. }
  clear Hinit. destruct Hready as [Hready Hpath]. revert self Hready Hpath.
  induction ws as [|w ws IH]; intros self Hready Hpath; cbn [run_generate].
  - constructor.
  - destruct (generate_pool_ready mime_type w Hhook Hready) as [Hnext Hout].
    pose proof (generate_mode mime_type w self) as Hmode.
    destruct (generate mime_type w self) as [[r s1] t1]. cbn [fst snd] in *.
    destruct Hmode as (Hp & _).
    specialize (IH s1 Hnext ltac:(congruence)).
    destruct (run_generate mime_type ws s1) as [[rs s2] t2]. cbn [fst snd] in *.
    constructor; [|exact IH]. cbn [fst]. rewrite <- Hpath.
    destruct Hout as [(Hok & _)|[Hnone|Hstop]];
      [left; exact Hok | right; left; exact Hnone | right; right; exact Hstop].
Qed.

End FreshRuns.

(** ** The further properties at the examples *)

(** X1 at the example corpus, and at the corpus with a dangling link. *)
Lemma scan_rebuilds_pool_witness :
  fst (fst (CorpusManager._scan_for_templates (Some ["html"]) Examples.corpus
              (Examples.manager false 1))) = Ok tt
  /\ exists e,
      fst (fst (CorpusManager._scan_for_templates None Fixtures.dangling
                  (Examples.manager false 1))) = Err e
      /\ CorpusManager._templates
           (snd (fst (CorpusManager._scan_for_templates None Fixtures.dangling
                        (Examples.manager false 1))))
         = ["/corpus/b.html"; "/corpus/a.html"; "/corpus/notes.txt"].
Proof.
  split.
  - pose proof (@scan_rebuilds_pool Examples.page_fuzzer (Some ["html"]) Examples.corpus
                  (Examples.manager false 1) eq_refl) as H.
    cbv zeta in H. destruct H as (_ & H & _).
    destruct H as (_ & _ & H).
    + apply (proj1 (proj2 (@scan_error_dir Examples.corpus "/corpus" (Some ["html"])
                             eq_refl))).
      reflexivity.
    + apply H. vm_compute. discriminate.
  - pose proof (@scan_rebuilds_pool Examples.page_fuzzer None Fixtures.dangling
                  (Examples.manager false 1) eq_refl) as H.
    cbv zeta in H. destruct H as (_ & _ & H & _).
    destruct H as (e & He & _ & Hpool).
    + intros Hk.
      apply (proj2 (proj2 (@scan_error_dir Fixtures.dangling "/corpus" None eq_refl))) in Hk.
      discriminate Hk.
    + exists e. split; [exact He|]. rewrite Hpool. reflexivity.
Defined.

Lemma init_on_directory_witness :
  (exists self,
      CorpusManager.__init__ (F := Examples.page_fuzzer) "/corpus" (Some ["html"]) tt false 10
        Examples.corpus = (Ok self, [EvScan (Some ["html"])]))
  /\ (exists e,
         CorpusManager.__init__ (F := Examples.page_fuzzer) "/corpus" None tt false 10
           Fixtures.dangling = (Err e, [EvScan None])).
Proof.
  split.
  - pose proof (@init_on_directory Examples.page_fuzzer "/corpus" (Some ["html"]) tt false 10
                  Examples.corpus eq_refl) as H.
    cbn [fst _init_fuzzer Examples.page_fuzzer] in H. destruct H as [_ H].
    destruct H as [_ H].
    + apply (proj1 (proj2 (@scan_error_dir Examples.corpus "/corpus" (Some ["html"])
                             eq_refl))).
      reflexivity.
    + destruct H as (self & Hinit & _).
      * exists "/corpus/a.html".
        exists "/corpus", (map fst [("b.html", "<b>two</b>"); ("a.html", "<i>one</i>");
                                    (".hidden", "x"); ("Thumbs.db", "junk");
                                    ("empty.html", ""); ("notes.txt", "text")]), "a.html".
        repeat split; try reflexivity.
        -- left. reflexivity.
        -- cbn. tauto.
        -- cbn. intros [H|[H|[]]]; discriminate H.
        -- cbn. left. reflexivity.
        -- exists 10. split; reflexivity.
      * exists self. exact Hinit.
  - pose proof (@init_on_directory Examples.page_fuzzer "/corpus" None tt false 10
                  Fixtures.dangling eq_refl) as H.
    cbn [fst _init_fuzzer Examples.page_fuzzer] in H. destruct H as [H _].
    destruct H as (e & Hinit & _).
    + intros Hk.
      apply (proj2 (proj2 (@scan_error_dir Fixtures.dangling "/corpus" None eq_refl))) in Hk.
      discriminate Hk.
    + exists e. exact Hinit.
Defined.

Lemma init_on_file_witness :
  exists self,
    CorpusManager.__init__ (F := Examples.page_fuzzer) "/seed/.hidden.txt" (Some ["html"]) tt
      false 10 Fixtures.single_file = (Ok self, [EvScan (Some ["html"])])
    /\ CorpusManager._templates self = ["/seed/.hidden.txt"].
Proof.
  destruct (@init_on_file Examples.page_fuzzer "/seed/.hidden.txt" (Some ["html"]) tt false 10
              Fixtures.single_file eq_refl eq_refl) as [H _].
  apply (H 4); reflexivity.
Defined.

Lemma uppercase_filter_matches_nothing_witness :
  fst (fst (CorpusManager._scan_for_templates (Some ["HTML"]) Examples.corpus
              (Examples.manager false 1)))
  = Err (IOError "Could not find test case(s) at /corpus").
Proof.
  assert (Hne : ["HTML"] <> []) by discriminate.
  assert (Hupper : forall e, In e ["HTML"] -> PyStr.lower e <> e)
    by (intros e [<-|[]]; vm_compute; discriminate).
  rewrite (@uppercase_filter_matches_nothing Examples.page_fuzzer ["HTML"] Examples.corpus
             (Examples.manager false 1) eq_refl Hne Hupper).
  reflexivity.
Defined.

(** X5 at the emptied corpus, and at the corpus with a dangling link. *)
Lemma generate_rescan_finds_nothing_witness :
  (fst (fst (CorpusManager.generate None Fixtures.emptied Fixtures.at_ten))
   = Err (IOError "Could not find test case(s) at /corpus")
   /\ CorpusManager._templates
        (snd (fst (CorpusManager.generate None Fixtures.emptied Fixtures.at_ten))) = [])
  /\ (fst (fst (CorpusManager.generate None Fixtures.dangling Fixtures.at_ten))
      = Err (OSError "[Errno 2] No such file or directory")
      /\ CorpusManager._templates
           (snd (fst (CorpusManager.generate None Fixtures.dangling Fixtures.at_ten)))
         = ["/corpus/b.html"; "/corpus/a.html"; "/corpus/notes.txt"]
      /\ CorpusManager._active_template
           (snd (fst (CorpusManager.generate None Fixtures.dangling Fixtures.at_ten)))
         = Some Fixtures.template_a).
Proof.
  assert (HP : 0 < CorpusManager._rotate_period Fixtures.at_ten) by reflexivity.
  split.
  - pose proof (@generate_rescan_finds_nothing Examples.page_fuzzer None Fixtures.emptied
                  Fixtures.at_ten HP eq_refl) as H.
    cbv zeta in H. destruct H as [H _].
    destruct (H (IOError "Could not find test case(s) at /corpus") eq_refl) as (Hgen & _).
    rewrite Hgen. split; reflexivity.
  - pose proof (@generate_rescan_finds_nothing Examples.page_fuzzer None Fixtures.dangling
                  Fixtures.at_ten HP eq_refl) as H.
    cbv zeta in H. destruct H as [H _].
    destruct (H (OSError "[Errno 2] No such file or directory") eq_refl) as (Hgen & _).
    rewrite Hgen. repeat split; reflexivity.
Defined.


Lemma replay_consumes_template_witness :
  CorpusManager._templates
    (snd (fst (CorpusManager.generate None Examples.corpus Fixtures.failing_replay)))
  = ["/corpus/b.html"]
  /\ CorpusManager._generated
       (snd (fst (CorpusManager.generate None Examples.corpus Fixtures.failing_replay))) = 0.
Proof.
  pose proof (@replay_consumes_template Fixtures.failing_fuzzer None Examples.corpus
                Fixtures.failing_replay ["/corpus/b.html"] "/corpus/a.html"
                eq_refl eq_refl eq_refl) as H.
  cbv zeta in H. destruct H as (H1 & _ & _ & H4).
  split; [exact H1|].
  apply (H4 (ValueError "no mutation applies")). reflexivity.
Defined.

Lemma generate_single_candidate_witness :
  CorpusManager._active_template
    (snd (fst (CorpusManager.generate None Fixtures.one_left Fixtures.at_ten)))
  = Some Fixtures.template_a
  /\ CorpusManager._templates
       (snd (fst (CorpusManager.generate None Fixtures.one_left Fixtures.at_ten)))
     = ["/corpus/only.html"].
Proof.
  assert (HP : 0 < CorpusManager._rotate_period Fixtures.at_ten) by reflexivity.
  assert (Hone : CorpusManager._scan_for_templates None Fixtures.one_left Fixtures.at_ten
                 = (Ok tt, CorpusManager.with_templates Fixtures.at_ten ["/corpus/only.html"],
                    [EvScan None]))
    by reflexivity.
  pose proof (@generate_single_candidate Examples.page_fuzzer None Fixtures.one_left
                Fixtures.at_ten Fixtures.template_a "/corpus/only.html"
                eq_refl HP eq_refl Hone eq_refl) as H.
  cbv zeta in H. destruct H as (_ & _ & H1 & H2 & _).
  split; [apply H1; reflexivity | exact H2].
Defined.

Lemma generate_chooses_from_pool_witness :
  CorpusManager.get_active_file_name
    (snd (fst (CorpusManager.generate None Examples.corpus (Examples.manager false 1))))
  = Some "/corpus/b.html"
  /\ In "/corpus/b.html"
        (CorpusManager._templates
           (snd (fst (CorpusManager.generate None Examples.corpus (Examples.manager false 1))))).
Proof.
  assert (Hrot : CorpusManager.rotate_templates Examples.corpus (Examples.manager false 1)
                 = (Ok tt,
                    CorpusManager.mk (F := Examples.page_fuzzer) None "/corpus" (Some tt) 0
                      false 1 ["/corpus/b.html"; "/corpus/a.html"; "/corpus/notes.txt"] true,
                    [EvScan None; EvClearActive]))
    by reflexivity.
  pose proof (@generate_chooses_from_pool Examples.page_fuzzer None Examples.corpus
                (Examples.manager false 1) _ _ eq_refl Hrot eq_refl) as H.
  cbv zeta in H.
  change (nth_error _ _) with (Some "/corpus/b.html") in H.
  destruct H as (Hin & _ & Hname & _).
  split; [exact Hname | exact Hin].
Defined.

Lemma generate_without_transition_witness :
  exists test self' tr,
    CorpusManager.generate None Examples.corpus Fixtures.no_transition = (Ok test, self', tr)
    /\ map TestFile.file_name (TestCase._test_files test) = ["test_page_0000.html"]
    /\ map TestFile.data (TestCase._test_files test) = ["<a href='test_page_0001.html'>next</a>"].
Proof.
  destruct (CorpusManager.generate None Examples.corpus Fixtures.no_transition)
    as [[[test|e] self'] tr] eqn:Hgen; [|vm_compute in Hgen; discriminate Hgen].
  exists test, self', tr. split; [reflexivity|].
  destruct (@generate_without_transition Examples.page_fuzzer None Examples.corpus
              Fixtures.no_transition self' test tr eq_refl Hgen)
    as (s2 & landing & next & Hlanding & Hnext & Hhook & _).
  vm_compute in Hlanding, Hnext.
  injection Hlanding as ->. injection Hnext as ->.
  cbn [_generate Examples.page_fuzzer] in Hhook. rewrite add_testfile_eq in Hhook.
  cbn [fst] in Hhook. injection Hhook as <-. split; reflexivity.
Defined.

Lemma landing_page_injective_witness :
  CorpusManager.landing_page (Examples.manager false 1)
  = CorpusManager.landing_page Fixtures.no_transition
  /\ CorpusManager.landing_page Fixtures.mid_run
     <> CorpusManager.landing_page Fixtures.at_ten.
Proof.
  assert (H0 : 0 <= 0) by lia. assert (H3 : 0 <= 3) by lia. assert (H10 : 0 <= 10) by lia.
  split.
  - apply (@landing_page_injective Examples.page_fuzzer (Examples.manager false 1)
             Fixtures.no_transition H0 H0). reflexivity.
  - intros H.
    apply (@landing_page_injective Examples.page_fuzzer Fixtures.mid_run Fixtures.at_ten
             H3 H10) in H.
    discriminate H.
Defined.

Lemma run_landing_pages_distinct_witness :
  NoDup (map TestCase.landing_page
           (returned (fst (fst (run_generate None
                                  [Examples.corpus; Fixtures.emptied; Examples.corpus]
                                  (Examples.manager false 1)))))).
Proof.
  assert (H0 : 0 <= CorpusManager._generated (Examples.manager false 1)) by (cbn; lia).
  exact (@run_landing_pages_distinct Examples.page_fuzzer None
           [Examples.corpus; Fixtures.emptied; Examples.corpus] (Examples.manager false 1)
           ExampleFacts.page_fuzzer_appends H0).
Defined.


Lemma Template_extension_witness :
  exists tpl,
    Template.__init__ (Some "/corpus.d/a.tar.gz") Examples.corpus tt = (Ok tpl, tt, [])
    /\ PyStr.contains_char "." "gz" = false
    /\ exists stem, "/corpus.d/a.tar.gz" = stem ++ "." ++ "gz".
Proof.
  destruct (Template_extension tt Examples.corpus "/corpus.d/a.tar.gz")
    as (tpl & Hinit & _ & Hext).
  exists tpl. split; [exact Hinit|].
  assert (He : Template.extension tpl = Some "gz").
  { vm_compute in Hinit. injection Hinit as <-. reflexivity. }
  destruct (Hext "gz" He) as [Hdot Hstem].
  split; [exact Hdot|]. apply Hstem. discriminate.
Defined.

Lemma dump_writes_test_files_witness :
  exists d',
    Dump.dump Fixtures.opens_all "/log" false Examples.corpus
      (Fixtures.two_files None, Dump.empty_disk)
    = (Ok tt, (Fixtures.two_files None, d'), [])
    /\ d' "/log/test_page_0000.html" = Some "<p>hello</p>"
    /\ d' "/log/other.html" = None.
Proof.
  assert (Hopen : forall f, In f (TestCase._test_files (Fixtures.two_files None)) ->
                            Fixtures.opens_all (Dump.target "/log" f) = None)
    by reflexivity.
  destruct (@dump_writes_test_files Fixtures.opens_all "/log" Examples.corpus
              (Fixtures.two_files None) Dump.empty_disk Hopen)
    as (d' & Hdump & _ & Hother & Hback).
  exists d'. split; [exact Hdump|]. split.
  - apply (Hback ltac:(repeat constructor; cbn; intuition discriminate)
             (TestFile.mk "test_page_0000.html" "<p>hello</p>" false)).
    right. left. reflexivity.
  - rewrite Hother; [reflexivity|].
    intros f [<-|[<-|[]]]; discriminate.
Defined.

Lemma dump_stops_at_refused_file_witness :
  exists d',
    Dump.dump (Fixtures.refuses "/log/test_page_0000.html") "/log" true Examples.corpus
      (Fixtures.two_files None, Dump.empty_disk)
    = (Err (IOError "[Errno 13] Permission denied"), (Fixtures.two_files None, d'), [])
    /\ d' "/log/transition_0000.html" = Some "<script></script>"
    /\ d' "/log/test_info.txt" = None.
Proof.
  assert (Hopen : forall g, In g [TestFile.mk "transition_0000.html" "<script></script>" true] ->
                            Fixtures.refuses "/log/test_page_0000.html" (Dump.target "/log" g)
                            = None)
    by (intros g [<-|[]]; reflexivity).
  eexists. split.
  - apply (@dump_stops_at_refused_file (Fixtures.refuses "/log/test_page_0000.html") "/log" true
             Examples.corpus (Fixtures.two_files None) Dump.empty_disk
             [TestFile.mk "transition_0000.html" "<script></script>" true] []
             (TestFile.mk "test_page_0000.html" "<p>hello</p>" false)
             (IOError "[Errno 13] Permission denied") eq_refl Hopen eq_refl).
  - split; reflexivity.
Defined.

Lemma dump_info_file_witness :
  exists d',
    Dump.dump Fixtures.opens_all "/log" true Examples.corpus
      (Fixtures.two_files (Some Fixtures.template_a), Dump.empty_disk)
    = (Ok tt,
       (Fixtures.two_files
          (Some (Template.mk (Some "<i>one</i>")
                   (Some "2bae286cdf6ecbfdaaa3bd2281ec9e88498401f9") (Some "html")
                   "/corpus/a.html")),
        d'),
       [EvRead "/corpus/a.html"])
    /\ d' "/log/test_info.txt"
       = Some ("[Grizzly template/test case details]" ++ Dump.nl
               ++ "Corpus Manager: page" ++ Dump.nl
               ++ "Landing Page:   test_page_0000.html" ++ Dump.nl
               ++ "Template File:  a.html" ++ Dump.nl
               ++ "Template SHA1:  2bae286cdf6ecbfdaaa3bd2281ec9e88498401f9" ++ Dump.nl).
Proof.
  assert (Hopen : forall f, In f (TestCase._test_files
                                    (Fixtures.two_files (Some Fixtures.template_a))) ->
                            Fixtures.opens_all (Dump.target "/log" f) = None)
    by reflexivity.
  pose proof (@dump_info_file Fixtures.opens_all "/log" Examples.corpus
                (Fixtures.two_files (Some Fixtures.template_a)) Dump.empty_disk
                Hopen eq_refl) as H.
  cbn [TestCase.template Fixtures.two_files] in H.
  destruct (H (Some "2bae286cdf6ecbfdaaa3bd2281ec9e88498401f9")
              (Template.mk (Some "<i>one</i>")
                 (Some "2bae286cdf6ecbfdaaa3bd2281ec9e88498401f9") (Some "html")
                 "/corpus/a.html")
              [EvRead "/corpus/a.html"])
    as (d' & Hdump & Hinfo & _).
  - vm_compute. reflexivity.
  - exists d'. split; [exact Hdump|].
    refine (eq_trans Hinfo _). vm_compute. reflexivity.
Defined.

Lemma dump_info_file_without_digest_witness :
  exists st' d',
    Dump.dump Fixtures.opens_all "/log" true Examples.corpus
      (Fixtures.two_files (Some Fixtures.template_gone), Dump.empty_disk)
    = (Err (IOError "File does not exist: /corpus/gone.html"), (st', d'), [])
    /\ d' "/log/test_info.txt"
       = Some ("[Grizzly template/test case details]" ++ Dump.nl
               ++ "Corpus Manager: page" ++ Dump.nl
               ++ "Landing Page:   test_page_0000.html" ++ Dump.nl
               ++ "Template File:  gone.html" ++ Dump.nl)
    /\ d' "/log/test_page_0000.html" = Some "<p>hello</p>".
Proof.
  assert (Hopen : forall f, In f (TestCase._test_files
                                    (Fixtures.two_files (Some Fixtures.template_gone))) ->
                            Fixtures.opens_all (Dump.target "/log" f) = None)
    by reflexivity.
  destruct (@dump_info_file_without_digest Fixtures.opens_all "/log" Examples.corpus
              (Fixtures.two_files (Some Fixtures.template_gone)) Dump.empty_disk
              Fixtures.template_gone Fixtures.template_gone
              (IOError "File does not exist: /corpus/gone.html") []
              Hopen eq_refl eq_refl)
    as (d' & Hdump & Hinfo & Hfiles).
  - vm_compute. reflexivity.
  - eexists. exists d'. split; [exact Hdump|]. split.
    + refine (eq_trans Hinfo _). vm_compute. reflexivity.
    + assert (Hp : "/log/test_page_0000.html" <> Dump.info_path "/log")
        by (vm_compute; discriminate).
      refine (eq_trans (Hfiles _ Hp) _). reflexivity.
Defined.

Lemma to_data_url_injective_witness :
  CorpusManager.to_data_url "<i>one</i>" None <> CorpusManager.to_data_url "<b>two</b>" None.
Proof.
  intros H. apply (@to_data_url_injective None "<i>one</i>" "<b>two</b>") in H.
  discriminate H.
Defined.

Lemma fresh_run_outcomes_witness :
  Forall2 (fun w r =>
             is_ok (fst r) = true
             \/ CorpusManager.scan_outcome w "/corpus" None = ([], None)
                /\ fst r = Err (IOError "Could not find test case(s) at /corpus")
             \/ exists found e,
                 CorpusManager.scan_outcome w "/corpus" None = (found, Some e)
                 /\ fst r = Err e)
          [Examples.corpus; Fixtures.emptied; Fixtures.dangling; Examples.corpus]
          (fst (fst (run_generate None
                       [Examples.corpus; Fixtures.emptied; Fixtures.dangling; Examples.corpus]
                       (Examples.manager false 1)))).
Proof.
  exact (@fresh_run_outcomes Examples.page_fuzzer "/corpus" (Some ["html"]) tt 1
           Examples.corpus (Examples.manager false 1) [EvScan (Some ["html"])] None
           [Examples.corpus; Fixtures.emptied; Fixtures.dangling; Examples.corpus]
           ExampleFacts.page_fuzzer_returns (ExampleFacts.manager_init false 1)).
Defined.
